(** * Podbotnik: the retrieval-augmented answering engine

    A shallow embedding of [chatbot.py] (class [PodcastChatbot]), of the
    prompt construction of [llm.py] (class [GroqLLM]) and of the
    [/api/ask] endpoint of [api.py], with the properties of the engine
    stated and proved over it.

    Conventions.
    - A Python [str] is a [string]; one [ascii] stands for one code point
      below 256.
    - A Python [int] is a [Z] (unbounded).  The interpreter's optional cap
      on the number of digits of an [int]/[str] conversion is taken as
      switched off.
    - A method that may raise returns an [outcome].
    - The minsearch index, the Groq client and the file system are not
      part of the repository: they are the fields of the class
      [Collaborators], and every call made to them is recorded in a log. *)

From Stdlib Require Import List ZArith Lia Bool Arith.
From Stdlib Require Import Strings.String Strings.Ascii.
From Stdlib Require Import Numbers.DecimalString.
From Stdlib Require Import Sorting.Sorted Sorting.Permutation.
From Stdlib Require Import Structures.OrderedTypeEx.
Import ListNotations.

Open Scope string_scope.
Open Scope Z_scope.

(** ** Exceptions and outcomes *)

Inductive exn : Type :=
| FileNotFoundError (msg : string)
| KeyError (key : string)
| ValueError (msg : string)
| HTTPException (status_code : Z) (detail : string)
| BackendError (msg : string).    (* raised inside a collaborator *)

Inductive outcome (A : Type) : Type :=
| Returned (a : A)
| Raised (e : exn).
Arguments Returned {A} a.
Arguments Raised {A} e.

(** [str(e)] as far as the engine's callers use it. *)
Definition exn_str (e : exn) : string :=
  match e with
  | FileNotFoundError m => m
  | KeyError k => "'" ++ k ++ "'"
  | ValueError m => m
  | HTTPException _ d => d
  | BackendError m => m
  end.

(** ** Python string primitives used by the engine *)

Module Py.

(** Truthiness of a [str]: non-empty. *)
Definition truthy (s : string) : bool :=
  match s with
  | EmptyString => false
  | String _ _ => true
  end.

Definition code (c : ascii) : nat := nat_of_ascii c.

Definition is_digit (c : ascii) : bool :=
  (48 <=? code c)%nat && (code c <=? 57)%nat.

Definition digit_value (c : ascii) : Z := Z.of_nat (code c) - 48.

Definition is_underscore (c : ascii) : bool := (code c =? 95)%nat.

(** White space skipped by [int()]: tab to carriage return, space, and
    the two non-ASCII spaces below 256 (NEL, NBSP). *)
Definition int_isspace (c : ascii) : bool :=
  ((9 <=? code c)%nat && (code c <=? 13)%nat)
  || (code c =? 32)%nat || (code c =? 133)%nat || (code c =? 160)%nat.

(** White space removed by [str.strip()]: the above and the four
    information separators 28..31. *)
Definition isspace (c : ascii) : bool :=
  int_isspace c || ((28 <=? code c)%nat && (code c <=? 31)%nat).

Fixpoint skip (p : ascii -> bool) (s : string) : string :=
  match s with
  | EmptyString => EmptyString
  | String c s' => if p c then skip p s' else s
  end.

Fixpoint all_chars (p : ascii -> bool) (s : string) : bool :=
  match s with
  | EmptyString => true
  | String c s' => p c && all_chars p s'
  end.

(** [s.strip()] is empty exactly when every character of [s] is white
    space, so [not s.strip()] is computed by stripping on the left. *)
Definition lstrip (s : string) : string := skip isspace s.

Definition strip_is_empty (s : string) : bool := negb (truthy (lstrip s)).

(** The digit scanner of [int()]: digits, single underscores between
    them.  [prev_us] tells whether the previous character was an
    underscore.  Returns the value read, the number of digits and the
    unread rest, or [None] on a doubled or trailing underscore. *)
Fixpoint scan_digits (prev_us : bool) (acc : Z) (n : nat) (s : string)
  : option (Z * nat * string) :=
  match s with
  | EmptyString => if prev_us then None else Some (acc, n, EmptyString)
  | String c s' =>
      if is_digit c then scan_digits false (10 * acc + digit_value c) (S n) s'
      else if is_underscore c then
        if prev_us then None else scan_digits true acc n s'
      else if prev_us then None else Some (acc, n, s)
  end.

(** An optional sign in front of the digits. *)
Definition split_sign (s : string) : bool * string :=
  match s with
  | String c r =>
      if Ascii.eqb c "+" then (false, r)
      else if Ascii.eqb c "-" then (true, r)
      else (false, s)
  | EmptyString => (false, s)
  end.

(** The digits: no leading underscore, one digit at least, and nothing
    but white space after them. *)
Definition unsigned (s : string) : option Z :=
  match s with
  | EmptyString => None
  | String c _ =>
      if is_underscore c then None
      else
        match scan_digits false 0 0 s with
        | Some (v, S _, rest) =>
            if truthy (skip int_isspace rest) then None else Some v
        | _ => None
        end
  end.

(** [int(s)] for a [str] in base 10: leading white space, one optional
    sign, digits, trailing white space, nothing else. *)
Definition int (s : string) : option Z :=
  let '(negative, digits) := split_sign (skip int_isspace s) in
  match unsigned digits with
  | Some v => Some (if negative then - v else v)
  | None => None
  end.

(** [str(n)] for an [int]. *)
Definition str (n : Z) : string := NilZero.string_of_int (Z.to_int n).

(** [s.split(sep)] for a one-character separator: never empty. *)
Fixpoint split (sep : ascii) (s : string) : list string :=
  match s with
  | EmptyString => [EmptyString]
  | String c s' =>
      if Ascii.eqb c sep then EmptyString :: split sep s'
      else
        match split sep s' with
        | p :: ps => String c p :: ps
        | [] => [String c EmptyString]
        end
  end.

(** [needle in hay]. *)
Fixpoint contains (needle hay : string) : bool :=
  String.prefix needle hay
  || match hay with
     | EmptyString => false
     | String _ hay' => contains needle hay'
     end.

(** [sep.join(parts)]. *)
Fixpoint join (sep : string) (parts : list string) : string :=
  match parts with
  | [] => EmptyString
  | [p] => p
  | p :: ps => p ++ sep ++ join sep ps
  end.

(** [s[:n]]. *)
Definition slice_to (n : nat) (s : string) : string := String.substring 0 n s.

End Py.

Definition nl : string := String (ascii_of_nat 10) EmptyString.

(** ** Timestamp resolver *)

(** The message of the [ValueError] of [int(p)]; the literal is shown
    between single quotes. *)
Definition invalid_literal (p : string) : string :=
  "invalid literal for int() with base 10: '" ++ p ++ "'".

Definition int_of (p : string) : outcome Z :=
  match Py.int p with
  | Some v => Returned v
  | None => Raised (ValueError (invalid_literal p))
  end.

Definition obind {A B : Type} (o : outcome A) (k : A -> outcome B) : outcome B :=
  match o with
  | Returned a => k a
  | Raised e => Raised e
  end.

Notation "x <-- o ;; k" := (obind o (fun x => k))
  (at level 200, o at level 100, k at level 200, right associativity).

(** [minutes, seconds = map(int, parts)]: unpacking converts the parts
    from left to right, and the first one [int()] refuses raises. *)
Definition _time_to_seconds (time_str : string) : outcome Z :=
  match Py.split ":" time_str with
  | [p1; p2] =>
      minutes <-- int_of p1 ;;
      seconds <-- int_of p2 ;;
      Returned (minutes * 60 + seconds)
  | [p1; p2; p3] =>
      hours <-- int_of p1 ;;
      minutes <-- int_of p2 ;;
      seconds <-- int_of p3 ;;
      Returned (hours * 3600 + minutes * 60 + seconds)
  | _ => Returned 0
  end.

Definition _build_timestamp_link (url time_str : string) : outcome string :=
  if negb (Py.truthy url) then Returned EmptyString
  else
    seconds <-- _time_to_seconds time_str ;;
    if Py.contains "youtube.com" url || Py.contains "youtu.be" url then
      let separator := if Py.contains "?" url then "&" else "?" in
      Returned (url ++ separator ++ "t=" ++ Py.str seconds)
    else if Py.contains "spotify.com" url then
      Returned (url ++ "#t=" ++ Py.str seconds)
    else
      Returned (url ++ "#t=" ++ Py.str seconds).

(** ** Data model *)

(** A record of the transcript file ([json.load]); [None] is an absent
    key. *)
Record JsonEpisode : Type := {
  j_episode_id : option string;
  j_episode_title : option string;
  j_episode_number : option Z;
  j_transcript : option string;
  j_video_url : option string;
  j_audio_url : option string
}.

(** A value of [self.episodes]. *)
Record Episode : Type := {
  title : string;
  number : Z;
  video_url : string;
  audio_url : string;
  transcript : string
}.

(** A document handed to the index, and a hit handed back by it: a dict
    read with [.get], so that any key may be absent. *)
Record Document : Type := {
  doc_episode_id : option string;
  doc_episode_title : option string;
  doc_episode_number : option Z;
  doc_text : option string
}.

(** [result.get("episode_number", "")] is a number or the empty [str]. *)
Inductive int_or_str : Type :=
| IntVal (z : Z)
| StrVal (s : string).

(** A source record; [None] in the last two fields is an absent key. *)
Record Source : Type := {
  episode : string;
  episode_number : int_or_str;
  segment : string;
  timestamp : string;
  video_link : option string;
  audio_link : option string
}.

Record AnswerResult : Type := {
  answer : string;
  sources : list Source;
  context_used : nat
}.

Record EpisodeSummary : Type := {
  summary_episode_id : string;
  summary_title : string;
  summary_number : Z
}.

(** ** The episode registry: a dict in insertion order *)

Definition registry : Type := list (string * Episode).

Fixpoint dict_get {V : Type} (k : string) (d : list (string * V)) : option V :=
  match d with
  | [] => None
  | (k', v) :: d' => if String.eqb k k' then Some v else dict_get k d'
  end.

(** [d[k] = v]: an existing key keeps its place, a new key goes last. *)
Fixpoint dict_set {V : Type} (k : string) (v : V) (d : list (string * V))
  : list (string * V) :=
  match d with
  | [] => [(k, v)]
  | (k', v') :: d' =>
      if String.eqb k k' then (k, v) :: d' else (k', v') :: dict_set k v d'
  end.

Definition keys {V : Type} (d : list (string * V)) : list string := map fst d.

(** [sorted(xs, key=key)]: ascending and stable. *)
Fixpoint insert_by {A : Type} (key : A -> Z) (x : A) (l : list A) : list A :=
  match l with
  | [] => [x]
  | y :: l' => if key x <=? key y then x :: l else y :: insert_by key x l'
  end.

Fixpoint sorted_by {A : Type} (key : A -> Z) (l : list A) : list A :=
  match l with
  | [] => []
  | x :: l' => insert_by key x (sorted_by key l')
  end.

(** ** The collaborators and the log of the calls made to them *)

Inductive Call : Type :=
| IndexDocuments (docs : list Document)
| Search (query : string) (fields : list string) (max_results : Z)
| ChatCompletion (prompt model : string) (max_tokens : Z).

(** What the engine imports: [minsearch.Index], the Groq client and the
    transcript files.  A call may change the collaborator's state and may
    raise. *)
Class Collaborators : Type := {
  Index : Type;
  Groq : Type;
  (** [Index(fields=..., contents=...)] *)
  new_index : list string -> list Document -> Index;
  (** [index.index_documents(docs)] *)
  index_documents : list Document -> Index -> outcome unit * Index;
  (** [index.search(query=..., fields=..., max_results=...)] *)
  search : string -> list string -> Z -> Index -> outcome (list Document) * Index;
  (** [client.chat.completions.create(...)], reduced to the content of
      the first choice; the sampling temperature is the constant of
      [GroqLLM.generate] and is not recorded. *)
  chat_completions_create : string -> string -> Z -> Groq -> outcome string * Groq;
  (** [os.path.exists] and [json.load]: [None] when the path does not
      exist. *)
  read_json : string -> option (list JsonEpisode)
}.

Section Engine.

Context {C : Collaborators}.

(** The chatbot object ([index], [episodes], the model name of [llm]),
    the service behind it, and the log. *)
Record World : Type := {
  index : Index;
  episodes : registry;
  llm_model : string;
  groq : Groq;
  calls : list Call
}.

Definition M (A : Type) : Type := World -> outcome A * World.

Definition ret {A : Type} (a : A) : M A := fun w => (Returned a, w).

Definition raise {A : Type} (e : exn) : M A := fun w => (Raised e, w).

Definition bind {A B : Type} (m : M A) (k : A -> M B) : M B :=
  fun w =>
    match m w with
    | (Returned a, w') => k a w'
    | (Raised e, w') => (Raised e, w')
    end.

Notation "x <- m ; k" := (bind m (fun x => k))
  (at level 200, m at level 100, k at level 200, right associativity).
Notation "m ;; k" := (bind m (fun _ => k))
  (at level 200, k at level 200, right associativity, only parsing).

Definition get_episodes : M registry := fun w => (Returned (episodes w), w).

Definition set_episode (episode_id : string) (ep : Episode) : M unit :=
  fun w =>
    (Returned tt,
     {| index := index w;
        episodes := dict_set episode_id ep (episodes w);
        llm_model := llm_model w;
        groq := groq w;
        calls := calls w |}).

Definition call_index_documents (docs : list Document) : M unit :=
  fun w =>
    let '(r, i) := index_documents docs (index w) in
    (r,
     {| index := i;
        episodes := episodes w;
        llm_model := llm_model w;
        groq := groq w;
        calls := (calls w ++ [IndexDocuments docs])%list |}).

Definition call_search (query : string) (fields : list string) (max_results : Z)
  : M (list Document) :=
  fun w =>
    let '(r, i) := search query fields max_results (index w) in
    (r,
     {| index := i;
        episodes := episodes w;
        llm_model := llm_model w;
        groq := groq w;
        calls := (calls w ++ [Search query fields max_results])%list |}).

(** ** llm.py *)

Definition default_model : string := "mixtral-8x7b-32768".

Definition generate (prompt : string) (max_tokens : Z) : M string :=
  fun w =>
    let '(r, g) := chat_completions_create prompt (llm_model w) max_tokens (groq w) in
    (r,
     {| index := index w;
        episodes := episodes w;
        llm_model := llm_model w;
        groq := g;
        calls := (calls w ++ [ChatCompletion prompt (llm_model w) max_tokens])%list |}).

Definition answer_prompt (question context : string) : string :=
  "You are a helpful podcast assistant. Based on the provided transcript segments, " ++ nl
  ++ "answer the user's question concisely and accurately. Keep your answer brief (2-3 sentences max)." ++ nl
  ++ nl
  ++ "Question: " ++ question ++ nl
  ++ nl
  ++ "Relevant transcript excerpts:" ++ nl
  ++ context ++ nl
  ++ nl
  ++ "Answer:".

Definition generate_answer (question context : string) (max_tokens : Z) : M string :=
  generate (answer_prompt question context) max_tokens.

(** ** chatbot.py *)

(** [PodcastChatbot.__init__], after the API key has been found. *)
Definition init (g : Groq) : World :=
  {| index := new_index ["episode_id"; "episode_title"; "episode_number"; "text"] [];
     episodes := [];
     llm_model := default_model;
     groq := g;
     calls := [] |}.

(** [episode[key]] on a record of the transcript file. *)
Definition item {A : Type} (key : string) (v : option A) : M A :=
  match v with
  | Some a => ret a
  | None => raise (KeyError key)
  end.

Definition get_or {A : Type} (v : option A) (default : A) : A :=
  match v with
  | Some a => a
  | None => default
  end.

(** The body of the loop of [load_transcripts]. *)
Fixpoint load_loop (records : list JsonEpisode) (docs : list Document)
  : M (list Document) :=
  match records with
  | [] => ret docs
  | r :: records' =>
      episode_id <- item "episode_id" (j_episode_id r) ;
      episode_title <- item "episode_title" (j_episode_title r) ;
      episode_number <- item "episode_number" (j_episode_number r) ;
      text <- item "transcript" (j_transcript r) ;
      set_episode episode_id
        {| title := episode_title;
           number := episode_number;
           video_url := get_or (j_video_url r) EmptyString;
           audio_url := get_or (j_audio_url r) EmptyString;
           transcript := text |} ;;
      load_loop records'
        (docs ++ [{| doc_episode_id := Some episode_id;
                     doc_episode_title := Some episode_title;
                     doc_episode_number := Some episode_number;
                     doc_text := Some text |}])%list
  end.

Definition load_transcripts (json_file : string) : M unit :=
  match read_json json_file with
  | None => raise (FileNotFoundError ("Transcript file not found: " ++ json_file))
  | Some records =>
      docs <- load_loop records [] ;
      match docs with
      | [] => ret tt
      | _ :: _ => call_index_documents docs
      end
  end.

Definition add_transcript (episode_id episode_title : string) (episode_number : Z)
    (transcript_text video_url audio_url : string) : M unit :=
  set_episode episode_id
    {| title := episode_title;
       number := episode_number;
       video_url := video_url;
       audio_url := audio_url;
       transcript := transcript_text |} ;;
  call_index_documents
    [{| doc_episode_id := Some episode_id;
        doc_episode_title := Some episode_title;
        doc_episode_number := Some episode_number;
        doc_text := Some transcript_text |}].

Definition no_answer : string :=
  "I couldn't find relevant information in the podcast transcripts to answer your question.".

(** [text[:200] + "..." if len(text) > 200 else text] *)
Definition excerpt (text : string) : string :=
  if (200 <? String.length text)%nat then Py.slice_to 200 text ++ "..." else text.

Definition context_part (result : Document) : string :=
  "[Episode: " ++ get_or (doc_episode_title result) "Unknown" ++ "] "
  ++ get_or (doc_text result) EmptyString.

Definition build_source (eps : registry) (result : Document) : Source :=
  let episode_id := get_or (doc_episode_id result) EmptyString in
  let text := get_or (doc_text result) EmptyString in
  let ep := dict_get episode_id eps in
  let video := match ep with Some e => video_url e | None => EmptyString end in
  let audio := match ep with Some e => audio_url e | None => EmptyString end in
  {| episode := get_or (doc_episode_title result) "Unknown";
     episode_number :=
       match doc_episode_number result with
       | Some n => IntVal n
       | None => StrVal EmptyString
       end;
     segment := excerpt text;
     timestamp := EmptyString;
     video_link := if Py.truthy video then Some video else None;
     audio_link := if Py.truthy audio then Some audio else None |}.

(** One turn of the loop over the hits: both lists grow at the end. *)
Definition answer_step (eps : registry) (acc : list string * list Source)
    (result : Document) : list string * list Source :=
  ((fst acc ++ [context_part result])%list,
   (snd acc ++ [build_source eps result])%list).

Definition default_max_context_segments : Z := 3.

(** [max_context_segments = None] is a call that leaves the argument
    out. *)
Definition answer_question (question : string) (max_context_segments : option Z)
  : M AnswerResult :=
  search_results <-
    call_search question ["episode_title"; "text"]
      (get_or max_context_segments default_max_context_segments) ;
  match search_results with
  | [] => ret {| answer := no_answer; sources := []; context_used := 0 |}
  | _ :: _ =>
      eps <- get_episodes ;
      let '(context_parts, srcs) :=
        fold_left (answer_step eps) search_results ([], []) in
      let context := Py.join (nl ++ nl) context_parts in
      text <- generate_answer question context 400 ;
      ret {| answer := text;
             sources := srcs;
             context_used := List.length search_results |}
  end.

Definition list_episodes : M (list EpisodeSummary) :=
  eps <- get_episodes ;
  ret (map (fun x => {| summary_episode_id := fst x;
                        summary_title := title (snd x);
                        summary_number := number (snd x) |})
           (sorted_by (fun x => number (snd x)) eps)).

(** ** api.py: POST /api/ask *)

(** The module variable [chatbot] is [None] until start-up has built the
    engine; [w] is then the engine's state.  The request body has been
    validated as a [Question]. *)
Definition ask_question (chatbot : bool) (request_question : string)
    (max_context_segments : option Z) : M AnswerResult :=
  if negb chatbot then raise (HTTPException 500 "Chatbot not initialized")
  else if Py.strip_is_empty request_question then
    raise (HTTPException 400 "Question cannot be empty")
  else
    fun w =>
      match answer_question request_question max_context_segments w with
      | (Returned result, w') => (Returned result, w')
      | (Raised e, w') => (Raised (HTTPException 500 (exn_str e)), w')
      end.

End Engine.

Notation "x <- m ; k" := (bind m (fun x => k))
  (at level 200, m at level 100, k at level 200, right associativity).
Notation "m ;; k" := (bind m (fun _ => k))
  (at level 200, k at level 200, right associativity, only parsing).

(** ** A reference instance of the collaborators

    Used to run the engine on concrete inputs.  The index follows the
    contract the specification gives for the search index: it holds the
    set of the documents it was handed, so that handing it the same
    documents twice changes nothing and the order of the calls does not
    matter; a search is a function of that set and of the query, and
    returns the first [max_results] documents of the set one of whose
    searched fields contains the query, none when nothing matches.  It
    has no notion of replacing a document, as the engine has no call for
    it.  The completion service replies with a scripted outcome. *)

Module Sample.

Definition field_value (d : Document) (field : string) : string :=
  if String.eqb field "episode_id" then get_or (doc_episode_id d) EmptyString
  else if String.eqb field "episode_title" then get_or (doc_episode_title d) EmptyString
  else if String.eqb field "text" then get_or (doc_text d) EmptyString
  else EmptyString.

Definition matches (query : string) (fields : list string) (d : Document) : bool :=
  existsb (fun f => Py.contains query (field_value d f)) fields.

(** The index holds a set of documents, kept as the list without
    repetition that ascends in the order [doc_cmp]: the identifier first,
    then the title, the number and the text, an absent field before a
    present one. *)
Definition option_cmp {A : Type} (cmp : A -> A -> comparison) (x y : option A)
  : comparison :=
  match x, y with
  | None, None => Eq
  | None, Some _ => Lt
  | Some _, None => Gt
  | Some a, Some b => cmp a b
  end.

Definition lex {A B : Type} (ca : A -> A -> comparison) (cb : B -> B -> comparison)
    (x y : A * B) : comparison :=
  match ca (fst x) (fst y) with
  | Eq => cb (snd x) (snd y)
  | c => c
  end.

Definition doc_fields (d : Document)
  : option string * (option string * (option Z * option string)) :=
  (doc_episode_id d, (doc_episode_title d, (doc_episode_number d, doc_text d))).

Definition doc_cmp (d1 d2 : Document) : comparison :=
  lex (option_cmp String.compare)
    (lex (option_cmp String.compare)
       (lex (option_cmp Z.compare) (option_cmp String.compare)))
    (doc_fields d1) (doc_fields d2).

Fixpoint insert_by_cmp {A : Type} (cmp : A -> A -> comparison) (x : A) (l : list A)
  : list A :=
  match l with
  | [] => [x]
  | y :: l' =>
      match cmp x y with
      | Eq => l
      | Lt => x :: l
      | Gt => y :: insert_by_cmp cmp x l'
      end
  end.

Definition store (docs : list Document) (i : list Document) : list Document :=
  fold_left (fun acc d => insert_by_cmp doc_cmp d acc) docs i.

Definition lookup (query : string) (fields : list string) (max_results : Z)
    (i : list Document) : list Document :=
  firstn (Z.to_nat max_results) (filter (matches query fields) i).

Definition ep (id t : string) (n : Z) (tx : string) : JsonEpisode :=
  {| j_episode_id := Some id;
     j_episode_title := Some t;
     j_episode_number := Some n;
     j_transcript := Some tx;
     j_video_url := None;
     j_audio_url := None |}.

Fixpoint filler (n : nat) : string :=
  match n with
  | O => EmptyString
  | S n' => String "x" (filler n')
  end.

(** A text of 250 characters. *)
Definition long_text : string := "vectors! " ++ filler 241.

Definition files (path : string) : option (list JsonEpisode) :=
  if String.eqb path "first.json" then
    Some [ep "ep3" "Gamma" 3 "third talk about vectors";
          ep "ep1" "Alpha" 1 "first talk about vectors";
          ep "ep2" "Beta" 2 "second talk about models"]
  else if String.eqb path "second.json" then
    Some [ep "ep1" "Alpha, revised" 7 "a rewritten first talk about vectors"]
  else if String.eqb path "long.json" then
    Some [ep "ep4" "Delta" 4 long_text;
          {| j_episode_id := Some "ep5";
             j_episode_title := Some "Epsilon";
             j_episode_number := Some 5;
             j_transcript := Some "short vectors";
             j_video_url := Some "https://youtube.com/watch?v=E";
             j_audio_url := None |}]
  else if String.eqb path "broken.json" then
    Some [ep "ep9" "Iota" 9 "ninth talk";
          {| j_episode_id := Some "ep8";
             j_episode_title := None;
             j_episode_number := Some 8;
             j_transcript := Some "eighth talk";
             j_video_url := None;
             j_audio_url := None |}]
  else None.

#[export] Instance collaborators : Collaborators := {|
  Index := list Document;
  Groq := outcome string;
  new_index := fun _ contents => store contents [];
  index_documents := fun docs i => (Returned tt, store docs i);
  search := fun q fields k i => (Returned (lookup q fields k i), i);
  chat_completions_create := fun _ _ _ g => (g, g);
  read_json := files
|}.

(** A service that replies, and one that is unreachable. *)
Definition replying : outcome string := Returned "Vectors are discussed.".
Definition unreachable : outcome string := Raised (BackendError "connection refused").

(** Runs a program from a fresh engine. *)
Definition run {A : Type} (g : outcome string) (m : M A) : outcome A * World :=
  m (init g).

(** A fresh engine. *)
Definition fresh : World := init replying.

(** The engine after the first file has been loaded, and after the
    second, which holds episode ep1 again, has been loaded too. *)
Definition loaded : World :=
  snd (run replying (load_transcripts "first.json")).

Definition reloaded : World :=
  snd (load_transcripts "second.json" loaded).

Definition long_loaded : World :=
  snd (run replying (load_transcripts "long.json")).

(** The engine after the first load, with the service out of reach. *)
Definition offline : World :=
  snd (run unreachable (load_transcripts "first.json")).

End Sample.

(** ** llm.py and chatbot.py: construction *)





(** ** api.py: the other endpoints *)

Module Api.

Record EpisodesBody : Type := {
  body_episodes : list EpisodeSummary;
  body_count : nat
}.

Record SearchBody : Type := {
  body_query : string;
  body_results : list Document;
  body_results_count : nat
}.

Section Endpoints.

Context {C : Collaborators}.

(** GET /api/episodes: the dict display calls [list_episodes] twice. *)
Definition get_episodes (chatbot : bool) : M EpisodesBody :=
  if negb chatbot then raise (HTTPException 500 "Chatbot not initialized")
  else
    listed <- list_episodes ;
    counted <- list_episodes ;
    ret {| body_episodes := listed; body_count := List.length counted |}.

(** POST /api/search; [max_results = None] is a request without the
    query parameter. *)
Definition search_transcripts (chatbot : bool) (query : string)
    (max_results : option Z) : M SearchBody :=
  if negb chatbot then raise (HTTPException 500 "Chatbot not initialized")
  else if Py.strip_is_empty query then
    raise (HTTPException 400 "Query cannot be empty")
  else
    results <- call_search query ["episode_title"; "text"] (get_or max_results 5) ;
    ret {| body_query := query;
           body_results := results;
           body_results_count := List.length results |}.

End Endpoints.

End Api.

(** ** More string primitives *)

Module PyStr.

(** [s.rstrip()] and [s.strip()]. *)
Fixpoint rstrip (s : string) : string :=
  match s with
  | EmptyString => EmptyString
  | String c s' =>
      match rstrip s' with
      | EmptyString => if Py.isspace c then EmptyString else String c EmptyString
      | r => String c r
      end
  end.

Definition strip (s : string) : string := rstrip (Py.lstrip s).

End PyStr.

(** ** lambda_handler.py *)

Module Lambda.

(** The body of an event, as [json.loads(event.get("body", "{}"))] and
    the reads that follow see it.  The fields of an object have the types
    the handler expects; what else can arrive is [Unusable]. *)
Inductive Body : Type :=
| NoBody                        (* no body key: the default, an empty object *)
| Malformed (msg : string)      (* [json.loads] raises [JSONDecodeError] *)
| Unusable (msg : string)       (* another exception: a null body, a value
                                   that is no object, a field of another type *)
| Object (question : option string) (max_context_segments : option Z)
    (query : option string) (max_results : option Z).

Record Event : Type := {
  httpMethod : option string;
  path : option string;
  body : Body
}.

(** The value serialised into the body of a response. *)
Inductive Payload : Type :=
| Root
| Episodes (listed : list EpisodeSummary) (count : nat)
| Answered (result : AnswerResult)
| Found (query : string) (results : list Document) (count : nat)
| Error (error : string).

Record Response : Type := {
  statusCode : Z;
  payload : Payload
}.

Definition build_response (status_code : Z) (body : Payload) : Response :=
  {| statusCode := status_code; payload := body |}.

(** What the two [except] clauses of the handler tell apart, with the
    text of the exception. *)
Inductive Failure : Type :=
| JSONDecodeError (msg : string)
| OtherException (msg : string).

Inductive attempt (A : Type) : Type :=
| Done (a : A)
| Failed (f : Failure).
Arguments Done {A} a.
Arguments Failed {A} f.

Section Handler.

Context {C : Collaborators}.

Definition T (A : Type) : Type := World -> attempt A * World.

Definition tret {A : Type} (a : A) : T A := fun w => (Done a, w).

Definition tfail {A : Type} (f : Failure) : T A := fun w => (Failed f, w).

Definition tbind {A B : Type} (m : T A) (k : A -> T B) : T B :=
  fun w =>
    match m w with
    | (Done a, w') => k a w'
    | (Failed f, w') => (Failed f, w')
    end.

(** A call of the engine inside the [try] block. *)
Definition engine {A : Type} (m : M A) : T A :=
  fun w =>
    match m w with
    | (Returned a, w') => (Done a, w')
    | (Raised e, w') => (Failed (OtherException (exn_str e)), w')
    end.

Definition parsed {A : Type} (b : Body) (k : option string -> option Z ->
    option string -> option Z -> T A) : T A :=
  match b with
  | NoBody => k None None None None
  | Malformed msg => tfail (JSONDecodeError msg)
  | Unusable msg => tfail (OtherException msg)
  | Object question max_context_segments query max_results =>
      k question max_context_segments query max_results
  end.

(** The body of the [try] block after the chatbot is loaded. *)
Definition dispatch (event : Event) : T Response :=
  let http_method := get_or (httpMethod event) "GET" in
  let path := get_or (path event) "/" in
  if String.eqb path "/" || String.eqb path EmptyString then
    tret (build_response 200 Root)
  else if String.eqb path "/api/episodes" && String.eqb http_method "GET" then
    tbind (engine list_episodes) (fun listed =>
    tret (build_response 200 (Episodes listed (List.length listed))))
  else if String.eqb path "/api/ask" && String.eqb http_method "POST" then
    parsed (body event) (fun question max_context_segments _ _ =>
      let question := PyStr.strip (get_or question EmptyString) in
      let max_context := get_or max_context_segments 3 in
      if negb (Py.truthy question) then
        tret (build_response 400 (Error "Question is required"))
      else
        tbind (engine (answer_question question (Some max_context))) (fun result =>
        tret (build_response 200 (Answered result))))
  else if String.eqb path "/api/search" && String.eqb http_method "POST" then
    parsed (body event) (fun _ _ query max_results =>
      let query := PyStr.strip (get_or query EmptyString) in
      let max_results := get_or max_results 5 in
      if negb (Py.truthy query) then
        tret (build_response 400 (Error "Query is required"))
      else
        tbind (engine (call_search query ["episode_title"; "text"] max_results))
          (fun results =>
        tret (build_response 200 (Found query results (List.length results)))))
  else
    tret (build_response 404 (Error ("Not found: " ++ http_method ++ " " ++ path))).

(** [handler(event, context)]; [load_chatbot] is the cold start, which
    builds the engine and loads the transcripts, or raises. *)
Definition handler (load_chatbot : T unit) (event : Event)
  : World -> Response * World :=
  fun w =>
    match tbind load_chatbot (fun _ => dispatch event) w with
    | (Done response, w') => (response, w')
    | (Failed (JSONDecodeError msg), w') =>
        (build_response 400 (Error ("Invalid JSON: " ++ msg)), w')
    | (Failed (OtherException msg), w') =>
        (build_response 500 (Error ("Internal error: " ++ msg)), w')
    end.

End Handler.

End Lambda.

(** ** cli.py *)

Module Cli.

(** [s.lower()] for code points below 256: the capital letters of ASCII
    and of Latin-1 move 32 places up. *)
Definition lower_char (c : ascii) : ascii :=
  let n := Py.code c in
  if ((65 <=? n)%nat && (n <=? 90)%nat)
     || ((192 <=? n)%nat && (n <=? 222)%nat && negb (n =? 215)%nat)
  then ascii_of_nat (n + 32) else c.

Fixpoint lower (s : string) : string :=
  match s with
  | EmptyString => EmptyString
  | String c s' => String (lower_char c) (lower s')
  end.

(** The two parts of [s.split(sep, 1)] for an [s] in which [sep] occurs:
    the text before the first [sep] and the text after it. *)
Fixpoint split_first (sep : ascii) (s : string) : string * string :=
  match s with
  | EmptyString => (EmptyString, EmptyString)
  | String c s' =>
      if Ascii.eqb c sep then (EmptyString, s')
      else (String c (fst (split_first sep s')), snd (split_first sep s'))
  end.

(** [os.environ], a mapping from names to values. *)
Definition environ : Type := list (string * string).

(** What the chat command echoes, prompts and decorations apart. *)
Inductive Echo : Type :=
| EchoEpisodes (listed : list EpisodeSummary)
| EchoAnswer (result : AnswerResult)
| EchoError (msg : string)
| EchoNothingLoaded.

Section Commands.

Context {C : Collaborators}.

(** [putenv_error name value] is the exception with which the platform
    refuses the assignment of [value] to [name] in the environment, if it
    does; [read_text path] is [open(path).read()]. *)
Variable putenv_error : string -> string -> option exn.
Variable read_text : string -> outcome string.

Definition setenv (name value : string) (env : environ) : outcome unit * environ :=
  match putenv_error name value with
  | Some e => (Raised e, env)
  | None => (Returned tt, dict_set name value env)
  end.

(** One turn of the loop of [load_env]. *)
Definition load_line (line : string) (env : environ) : outcome unit * environ :=
  let line := PyStr.strip line in
  if Py.truthy line && negb (String.prefix "#" line) && Py.contains "=" line then
    let '(key, value) := split_first "=" line in
    setenv (PyStr.strip key) (PyStr.strip value) env
  else (Returned tt, env).

Fixpoint load_lines (lines : list string) (env : environ) : outcome unit * environ :=
  match lines with
  | [] => (Returned tt, env)
  | line :: lines' =>
      match load_line line env with
      | (Returned _, env') => load_lines lines' env'
      | (Raised e, env') => (Raised e, env')
      end
  end.

(** [load_env]; [env_file] is [None] when there is no [.env] file, and
    else the lines the file yields. *)
Definition load_env (env_file : option (list string)) (env : environ)
  : outcome unit * environ :=
  match env_file with
  | None => (Returned tt, env)
  | Some lines => load_lines lines env
  end.

(** The interactive loop of [chat]; [inputs] are the answers to the
    prompt, and the loop ends with them (end of input). *)
Fixpoint chat_loop (inputs : list string) (w : World) : list Echo * World :=
  match inputs with
  | [] => ([], w)
  | question :: inputs' =>
      if String.eqb (lower question) "quit" then ([], w)
      else if String.eqb (lower question) "list" then
        match list_episodes w with
        | (Returned listed, w1) =>
            let '(out, w2) := chat_loop inputs' w1 in
            (EchoEpisodes listed :: out, w2)
        | (Raised _, w1) => ([], w1)
        end
      else if Py.strip_is_empty question then chat_loop inputs' w
      else
        match answer_question question None w with
        | (Returned result, w1) =>
            let '(out, w2) := chat_loop inputs' w1 in
            (EchoAnswer result :: out, w2)
        | (Raised e, w1) =>
            let '(out, w2) := chat_loop inputs' w1 in
            (EchoError (exn_str e) :: out, w2)
        end
  end.

(** The text of the exception the first turn of the loop over
    [add_episode] raises: that of reading the transcript file, or, the
    file read, that of formatting the episode number, a [str], with the
    format [03d]. *)
Definition add_episode_error (transcript_file : string) : string :=
  match read_text transcript_file with
  | Raised e => exn_str e
  | Returned _ => "Unknown format code 'd' for object of type 'str'"
  end.

(** The first block of [chat]: the transcripts are loaded when the
    option is given (and is not the empty string). *)
Definition load_given (transcripts : option string) : M unit :=
  match transcripts with
  | Some file => if Py.truthy file then load_transcripts file else ret tt
  | None => ret tt
  end.

(** [chat], once [PodcastChatbot()] has returned the engine. *)
Definition chat (transcripts : option string)
    (add_episode : list (string * string * string)) (inputs : list string)
    (w : World) : list Echo * World :=
  match load_given transcripts w with
  | (Raised e, w1) => ([EchoError (exn_str e)], w1)
  | (Returned _, w1) =>
      match add_episode with
      | (_, _, transcript_file) :: _ =>
          ([EchoError (add_episode_error transcript_file)], w1)
      | [] =>
          match list_episodes w1 with
          | (Returned [], w2) => ([EchoNothingLoaded], w2)
          | (Returned (_ :: _), w2) => chat_loop inputs w2
          | (Raised _, w2) => ([], w2)
          end
      end
  end.


End Commands.

End Cli.

(** * Vocabulary of the statements *)

(** [needle] occurs in [hay]. *)
Definition Contains (needle hay : string) : Prop :=
  exists pre post, hay = pre ++ needle ++ post.

Definition colon_free (s : string) : Prop :=
  Py.all_chars (fun c => negb (Ascii.eqb c ":")) s = true.

(** A non-negative integer written in digits, and the number it
    denotes. *)
Definition decimal (s : string) : Prop :=
  s <> EmptyString /\ Py.all_chars Py.is_digit s = true.

Fixpoint decimal_value (s : string) : Z :=
  match s with
  | EmptyString => 0
  | String c s' =>
      Py.digit_value c * 10 ^ Z.of_nat (String.length s') + decimal_value s'
  end.

(** The number of colons of a string: one less than its number of
    components. *)
Fixpoint colons (s : string) : nat :=
  match s with
  | EmptyString => 0
  | String c s' => (if Ascii.eqb c ":" then 1 else 0) + colons s'
  end.

(** The characters that can occur in a literal [int()] accepts. *)
Definition int_char (c : ascii) : bool :=
  Py.is_digit c || Py.is_underscore c || Py.int_isspace c
  || Ascii.eqb c "+" || Ascii.eqb c "-".

(** A three-way comparison that decides a total order. *)
Record total_order {A : Type} (cmp : A -> A -> comparison) : Prop := {
  cmp_eq : forall a b, cmp a b = Eq <-> a = b;
  cmp_opp : forall a b, cmp b a = CompOpp (cmp a b);
  cmp_trans : forall a b c, cmp a b = Lt -> cmp b c = Lt -> cmp a c = Lt
}.

(** The summary of a registry entry, as [list_episodes] shows it. *)
Definition summary_of (x : string * Episode) : EpisodeSummary :=
  {| summary_episode_id := fst x;
     summary_title := title (snd x);
     summary_number := number (snd x) |}.

Definition number_le (a b : EpisodeSummary) : Prop :=
  summary_number a <= summary_number b.

(** The summaries that carry the number [n], in the order of the list. *)
Definition numbered (n : Z) (l : list EpisodeSummary) : list EpisodeSummary :=
  filter (fun s => summary_number s =? n) l.

(** The fields searched by [answer_question]. *)
Definition searched_fields : list string := ["episode_title"; "text"].

(** The context handed to the generator for a list of hits. *)
Definition context_of (hits : list Document) : string :=
  Py.join (nl ++ nl) (map context_part hits).

(** The world after the search of [answer_question]. *)
Definition searched {C : Collaborators} (w : World) (question : string) (k : option Z) (i : Index)
  : World :=
  {| index := i;
     episodes := episodes w;
     llm_model := llm_model w;
     groq := groq w;
     calls := (calls w
               ++ [Search question searched_fields
                     (get_or k default_max_context_segments)])%list |}.

(** The world after the generation that follows. *)
Definition generated {C : Collaborators} (w : World) (question : string) (k : option Z) (i : Index)
    (hits : list Document) (g : Groq) : World :=
  {| index := i;
     episodes := episodes w;
     llm_model := llm_model w;
     groq := g;
     calls := ((calls w
                ++ [Search question searched_fields
                      (get_or k default_max_context_segments)])
               ++ [ChatCompletion (answer_prompt question (context_of hits))
                     (llm_model w) 400])%list |}.

(** A record of the transcript file with the four required keys, the
    registry entry and the document made from it. *)
Definition complete (r : JsonEpisode) : Prop :=
  j_episode_id r <> None /\ j_episode_title r <> None
  /\ j_episode_number r <> None /\ j_transcript r <> None.

Definition record_id (r : JsonEpisode) : string :=
  get_or (j_episode_id r) EmptyString.

Definition episode_of (r : JsonEpisode) : Episode :=
  {| title := get_or (j_episode_title r) EmptyString;
     number := get_or (j_episode_number r) 0;
     video_url := get_or (j_video_url r) EmptyString;
     audio_url := get_or (j_audio_url r) EmptyString;
     transcript := get_or (j_transcript r) EmptyString |}.

Definition document_of (r : JsonEpisode) : Document :=
  {| doc_episode_id := j_episode_id r;
     doc_episode_title := j_episode_title r;
     doc_episode_number := j_episode_number r;
     doc_text := j_transcript r |}.

(** The registry after one more record, and a world with another
    registry. *)
Definition register (d : registry) (r : JsonEpisode) : registry :=
  dict_set (record_id r) (episode_of r) d.

Definition with_episodes {C : Collaborators} (w : World) (eps : registry) : World :=
  {| index := index w;
     episodes := eps;
     llm_model := llm_model w;
     groq := groq w;
     calls := calls w |}.

(** The worlds the engine can be in. *)
Inductive reachable {C : Collaborators} : World -> Prop :=
| reach_init (g : Groq) : reachable (init g)
| reach_load (file : string) (w : World) :
    reachable w -> reachable (snd (load_transcripts file w))
| reach_add (id t : string) (n : Z) (tx v a : string) (w : World) :
    reachable w -> reachable (snd (add_transcript id t n tx v a w))
| reach_answer (question : string) (k : option Z) (w : World) :
    reachable w -> reachable (snd (answer_question question k w))
| reach_list (w : World) :
    reachable w -> reachable (snd (list_episodes w)).

(** The statements under examination that the engine does not satisfy,
    written out so that they can be refuted. *)

(** Every hit the index returns for [id] carries the transcript the
    registry holds for [id]. *)
Definition latest_only {C : Collaborators} (w : World) (id : string) : Prop :=
  forall query fields max_results hits i,
    search query fields max_results (index w) = (Returned hits, i) ->
    forall h, In h hits -> doc_episode_id h = Some id ->
      exists e, dict_get id (episodes w) = Some e
                /\ doc_text h = Some (transcript e).

(** After a load, the hits for the id of a loaded record carry that
    record's transcript only. *)
Definition readding_reindexes {C : Collaborators} : Prop :=
  forall (w : World) file (pre : list JsonEpisode) r post,
    NoDup (keys (episodes w)) ->
    read_json file = Some (pre ++ r :: post)%list ->
    Forall complete (pre ++ r :: post)%list ->
    (forall r', In r' post -> record_id r' <> record_id r) ->
    latest_only (snd (load_transcripts file w)) (record_id r).

(** A non-positive [max_context_segments] makes the engine ask the index
    for the default number of results. *)
Definition nonpositive_means_default {C : Collaborators} : Prop :=
  forall (w : World) question k, k <= 0 ->
    exists rest,
      calls (snd (answer_question question (Some k) w))
      = (calls w ++ Search question searched_fields default_max_context_segments
           :: rest)%list.

(** A blank question makes [answer_question] raise without any call to a
    collaborator. *)
Definition blank_is_rejected {C : Collaborators} : Prop :=
  forall (w : World) question k,
    Py.all_chars Py.isspace question = true ->
    exists e, answer_question question k w = (Raised e, w).

(** The first required key a record of the transcript file lacks, in the
    order the loop of [load_transcripts] reads them. *)
Definition first_missing (r : JsonEpisode) : option string :=
  match j_episode_id r, j_episode_title r, j_episode_number r, j_transcript r with
  | None, _, _, _ => Some "episode_id"
  | Some _, None, _, _ => Some "episode_title"
  | Some _, Some _, None, _ => Some "episode_number"
  | Some _, Some _, Some _, None => Some "transcript"
  | Some _, Some _, Some _, Some _ => None
  end.

(** [add_transcript] called with the fields of a record, and a sequence
    of such calls by a caller that goes on whatever a call raises. *)
Definition add_record {C : Collaborators} (r : JsonEpisode) : M unit :=
  add_transcript (record_id r) (title (episode_of r)) (number (episode_of r))
    (transcript (episode_of r)) (video_url (episode_of r)) (audio_url (episode_of r)).

Definition add_all {C : Collaborators} (records : list JsonEpisode) (w : World) : World :=
  fold_left (fun w0 r => snd (add_record r w0)) records w.

(** The summaries of a list that carry the id [id]. *)
Definition with_id (id : string) (l : list EpisodeSummary) : list EpisodeSummary :=
  filter (fun s => String.eqb (summary_episode_id s) id) l.

(** A route of the Lambda handler other than the root. *)
Definition lambda_route (http_method path : string) : bool :=
  (String.eqb path "/api/episodes" && String.eqb http_method "GET")
  || (String.eqb path "/api/ask" && String.eqb http_method "POST")
  || (String.eqb path "/api/search" && String.eqb http_method "POST").

Definition blank (s : string) : Prop := Py.all_chars Py.isspace s = true.

(** The response the handler makes of the outcome of its [try] block. *)
Definition lambda_finish {C : Collaborators}
    (r : Lambda.attempt Lambda.Response * World) : Lambda.Response * World :=
  match r with
  | (Lambda.Done response, w) => (response, w)
  | (Lambda.Failed (Lambda.JSONDecodeError msg), w) =>
      (Lambda.build_response 400 (Lambda.Error ("Invalid JSON: " ++ msg)), w)
  | (Lambda.Failed (Lambda.OtherException msg), w) =>
      (Lambda.build_response 500 (Lambda.Error ("Internal error: " ++ msg)), w)
  end.

(** The questions the chat loop puts to the engine: the inputs before the
    first quit that are neither the word list nor blank. *)
Fixpoint asked (inputs : list string) : list string :=
  match inputs with
  | [] => []
  | q :: rest =>
      if String.eqb (Cli.lower q) "quit" then []
      else if String.eqb (Cli.lower q) "list" || Py.strip_is_empty q then asked rest
      else q :: asked rest
  end.

(** The queries of the searches of a log, and the documents handed to
    the index, in order. *)
Fixpoint search_queries (cs : list Call) : list string :=
  match cs with
  | [] => []
  | Search query _ _ :: cs' => query :: search_queries cs'
  | _ :: cs' => search_queries cs'
  end.

Fixpoint indexed_documents (cs : list Call) : list Document :=
  match cs with
  | [] => []
  | IndexDocuments docs :: cs' => (docs ++ indexed_documents cs')%list
  | _ :: cs' => indexed_documents cs'
  end.

(** The replies among the echoes: the answers and the errors. *)
Fixpoint replies (out : list Cli.Echo) : nat :=
  match out with
  | [] => 0
  | Cli.EchoAnswer _ :: out' => S (replies out')
  | Cli.EchoError _ :: out' => S (replies out')
  | _ :: out' => replies out'
  end.

(** * Properties *)

(** ** Strings *)

Lemma prefix_app (n h : string) :
  String.prefix n h = true <-> exists post, h = n ++ post.
Proof.
  revert h; induction n as [|a n IH]; intros h; simpl.
  - destruct h; simpl; split; intros; eauto.
  - destruct h as [|b h]; simpl.
    + split; [discriminate | intros [post H]; discriminate].
    + destruct (ascii_dec a b) as [->|Hab].
      * rewrite IH. split; intros [post H]; exists post; congruence.
      * split; [discriminate | intros [post H]; congruence].
Qed.

Lemma contains_spec (n h : string) :
  Py.contains n h = true <-> Contains n h.
Proof.
  unfold Contains. induction h as [|c h IH].
  - cbn [Py.contains]. rewrite orb_false_r, prefix_app. split.
    + intros [post H]. exists EmptyString, post. exact H.
    + intros [pre [post H]]. destruct pre; [|discriminate].
      exists post. exact H.
  - cbn [Py.contains]. rewrite orb_true_iff, prefix_app, IH. split.
    + intros [[post H]|[pre [post H]]].
      * exists EmptyString, post. exact H.
      * exists (String c pre), post. simpl. now rewrite H.
    + intros [[|c' pre] [post H]].
      * left. exists post. exact H.
      * right. exists pre, post. simpl in H. congruence.
Qed.

Lemma contains_false (n h : string) :
  Py.contains n h = false <-> ~ Contains n h.
Proof.
  rewrite <- contains_spec. destruct (Py.contains n h); split; intros; congruence.
Qed.

Lemma truthy_false (s : string) : Py.truthy s = false <-> s = EmptyString.
Proof. destruct s; simpl; split; congruence. Qed.

Lemma truthy_true (s : string) : Py.truthy s = true <-> s <> EmptyString.
Proof. destruct s; simpl; split; congruence. Qed.

(** A string is blank when all its characters are white space; this is
    what [not s.strip()] tests. *)
Lemma strip_is_empty_spec (s : string) :
  Py.strip_is_empty s = Py.all_chars Py.isspace s.
Proof.
  unfold Py.strip_is_empty, Py.lstrip.
  induction s as [|c s IH]; simpl; [reflexivity|].
  destruct (Py.isspace c); simpl; [exact IH | reflexivity].
Qed.

(** ** Splitting at colons *)

Lemma split_nonempty (sep : ascii) (s : string) : Py.split sep s <> [].
Proof.
  destruct s as [|c s]; simpl; [discriminate|].
  destruct (Ascii.eqb c sep); [discriminate|].
  destruct (Py.split sep s); discriminate.
Qed.

Lemma split_colon_free (s : string) :
  colon_free s -> Py.split ":" s = [s].
Proof.
  unfold colon_free. induction s as [|c s IH]; simpl; [reflexivity|].
  intros H. apply andb_true_iff in H. destruct H as [Hc Hs].
  apply negb_true_iff in Hc. rewrite Hc, (IH Hs). reflexivity.
Qed.

Lemma split_app (a b : string) :
  colon_free a -> Py.split ":" (a ++ ":" ++ b) = a :: Py.split ":" b.
Proof.
  unfold colon_free. induction a as [|c a IH]; simpl; [reflexivity|].
  intros H. apply andb_true_iff in H. destruct H as [Hc Ha].
  apply negb_true_iff in Hc. rewrite Hc. simpl in IH. rewrite (IH Ha). reflexivity.
Qed.

(** ** Integer literals *)

Lemma is_digit_cases (c : ascii) :
  Py.is_digit c = true ->
  In c ["0"; "1"; "2"; "3"; "4"; "5"; "6"; "7"; "8"; "9"]%char.
Proof.
  destruct c as [[] [] [] [] [] [] [] []]; intros H;
    vm_compute in H; try discriminate H; simpl; tauto.
Qed.

Lemma digit_facts (c : ascii) :
  Py.is_digit c = true ->
  Py.int_isspace c = false /\ Py.is_underscore c = false
  /\ Ascii.eqb c "+" = false /\ Ascii.eqb c "-" = false
  /\ Ascii.eqb c ":" = false.
Proof.
  intros Hc.
  destruct (is_digit_cases c Hc) as [<-|[<-|[<-|[<-|[<-|[<-|[<-|[<-|[<-|[<-|[]]]]]]]]]]];
    repeat split; reflexivity.
Qed.

Lemma digit_colon_free (s : string) :
  Py.all_chars Py.is_digit s = true -> colon_free s.
Proof.
  unfold colon_free. induction s as [|c s IH]; simpl; [reflexivity|].
  intros H. apply andb_true_iff in H. destruct H as [Hc Hs].
  rewrite (IH Hs), andb_true_r.
  destruct (digit_facts c Hc) as (_ & _ & _ & _ & ->). reflexivity.
Qed.

Lemma scan_digits_decimal (s : string) :
  Py.all_chars Py.is_digit s = true ->
  forall acc n,
    Py.scan_digits false acc n s
    = Some (acc * 10 ^ Z.of_nat (String.length s) + decimal_value s,
            (n + String.length s)%nat, EmptyString).
Proof.
  induction s as [|c s IH]; intros H acc n.
  - simpl. rewrite Z.mul_1_r, Z.add_0_r, Nat.add_0_r. reflexivity.
  - simpl in H. apply andb_true_iff in H. destruct H as [Hc Hs].
    cbn [Py.scan_digits]. rewrite Hc, (IH Hs).
    cbn [String.length decimal_value].
    rewrite Nat2Z.inj_succ, Z.pow_succ_r by lia.
    rewrite Nat.add_succ_r. cbn [Nat.add]. do 3 f_equal. ring.
Qed.

Lemma int_decimal (s : string) :
  decimal s -> Py.int s = Some (decimal_value s).
Proof.
  intros [Hne Hd]. destruct s as [|c s]; [congruence|].
  pose proof (scan_digits_decimal _ Hd 0 0%nat) as Hscan.
  simpl in Hd. apply andb_true_iff in Hd. destruct Hd as [Hc _].
  destruct (digit_facts c Hc) as (Hsp & Hus & Hplus & Hminus & _).
  unfold Py.int. cbn [Py.skip]. rewrite Hsp.
  unfold Py.split_sign. rewrite Hplus, Hminus.
  unfold Py.unsigned. rewrite Hus, Hscan.
  cbn [String.length Nat.add Py.skip Py.truthy]. reflexivity.
Qed.

Lemma all_chars_impl (p q : ascii -> bool) (s : string) :
  (forall c, p c = true -> q c = true) ->
  Py.all_chars p s = true -> Py.all_chars q s = true.
Proof.
  intros Hpq. induction s as [|c s IH]; simpl; [reflexivity|].
  intros H. apply andb_true_iff in H. destruct H as [Hc Hs].
  now rewrite (Hpq c Hc), (IH Hs).
Qed.

Lemma all_chars_skip (p q : ascii -> bool) (s : string) :
  (forall c, p c = true -> q c = true) ->
  Py.all_chars q (Py.skip p s) = true -> Py.all_chars q s = true.
Proof.
  intros Hpq. induction s as [|c s IH]; simpl; [reflexivity|].
  destruct (p c) eqn:Hc.
  - intros H. now rewrite (Hpq c Hc), (IH H).
  - simpl. exact (fun H => H).
Qed.

Lemma skip_empty_all (p : ascii -> bool) (s : string) :
  Py.truthy (Py.skip p s) = false -> Py.all_chars p s = true.
Proof.
  induction s as [|c s IH]; simpl; [reflexivity|].
  destruct (p c); simpl; [exact IH | discriminate].
Qed.

Lemma int_isspace_int_char (c : ascii) :
  Py.int_isspace c = true -> int_char c = true.
Proof.
  unfold int_char. intros ->. now rewrite !orb_true_r.
Qed.

Lemma scan_digits_chars (s : string) :
  forall b acc n v m rest,
    Py.scan_digits b acc n s = Some (v, m, rest) ->
    Py.all_chars int_char rest = true ->
    Py.all_chars int_char s = true.
Proof.
  induction s as [|c s IH]; intros b acc n v m rest H Hrest; [reflexivity|].
  cbn [Py.scan_digits] in H. cbn [Py.all_chars]. unfold int_char at 1.
  destruct (Py.is_digit c) eqn:Hd.
  - simpl. eapply IH; eassumption.
  - destruct (Py.is_underscore c) eqn:Hu.
    + simpl. destruct b; [discriminate|]. eapply IH; eassumption.
    + destruct b; [discriminate|]. injection H as _ _ <-.
      cbn [Py.all_chars] in Hrest. unfold int_char at 1 in Hrest.
      rewrite Hd, Hu in Hrest. exact Hrest.
Qed.

Lemma unsigned_chars (s : string) (v : Z) :
  Py.unsigned s = Some v -> Py.all_chars int_char s = true.
Proof.
  unfold Py.unsigned. destruct s as [|c s]; [discriminate|].
  destruct (Py.is_underscore c); [discriminate|].
  destruct (Py.scan_digits false 0 0 (String c s)) as [[[v' [|m]] rest]|] eqn:Hscan;
    try discriminate.
  destruct (Py.truthy (Py.skip Py.int_isspace rest)) eqn:Hrest; [discriminate|].
  intros _. eapply scan_digits_chars; [exact Hscan|].
  eapply all_chars_impl; [exact int_isspace_int_char|].
  apply skip_empty_all. exact Hrest.
Qed.

Lemma int_chars (p : string) (v : Z) :
  Py.int p = Some v -> Py.all_chars int_char p = true.
Proof.
  unfold Py.int. intros H.
  apply all_chars_skip with (p := Py.int_isspace); [exact int_isspace_int_char|].
  destruct (Py.skip Py.int_isspace p) as [|c r]; [reflexivity|].
  unfold Py.split_sign in H. cbn [Py.all_chars]. unfold int_char at 1.
  destruct (Ascii.eqb c "+") eqn:Hplus.
  - rewrite !orb_true_r. simpl.
    destruct (Py.unsigned r) eqn:Hu; [|discriminate]. eapply unsigned_chars; eassumption.
  - destruct (Ascii.eqb c "-") eqn:Hminus.
    + rewrite !orb_true_r. simpl.
      destruct (Py.unsigned r) eqn:Hu; [|discriminate]. eapply unsigned_chars; eassumption.
    + destruct (Py.unsigned (String c r)) eqn:Hu; [|discriminate].
      apply unsigned_chars in Hu. cbn [Py.all_chars] in Hu. unfold int_char at 1 in Hu.
      rewrite Hplus, Hminus in Hu. exact Hu.
Qed.

(** A literal with a character that is no digit, sign, underscore or
    white space is refused. *)
Lemma int_refuses (p : string) :
  Py.all_chars int_char p = false -> Py.int p = None.
Proof.
  intros H. destruct (Py.int p) as [v|] eqn:Hv; [|reflexivity].
  apply int_chars in Hv. congruence.
Qed.

(** ** The clock parser *)

Lemma split_length (t : string) :
  List.length (Py.split ":" t) = S (colons t).
Proof.
  induction t as [|c t IH]; simpl; [reflexivity|].
  destruct (Ascii.eqb c ":"); simpl; [now rewrite IH|].
  destruct (Py.split ":" t); simpl in *; [discriminate | exact IH].
Qed.

Lemma time_two_parts (t p1 p2 : string) (m s : Z) :
  Py.split ":" t = [p1; p2] -> Py.int p1 = Some m -> Py.int p2 = Some s ->
  _time_to_seconds t = Returned (m * 60 + s).
Proof.
  intros Ht H1 H2. unfold _time_to_seconds, int_of. now rewrite Ht, H1, H2.
Qed.

Lemma time_three_parts (t p1 p2 p3 : string) (h m s : Z) :
  Py.split ":" t = [p1; p2; p3] ->
  Py.int p1 = Some h -> Py.int p2 = Some m -> Py.int p3 = Some s ->
  _time_to_seconds t = Returned (h * 3600 + m * 60 + s).
Proof.
  intros Ht H1 H2 H3. unfold _time_to_seconds, int_of. now rewrite Ht, H1, H2, H3.
Qed.

Lemma time_other_shape (t : string) :
  colons t <> 1%nat -> colons t <> 2%nat -> _time_to_seconds t = Returned 0.
Proof.
  intros H1 H2. pose proof (split_length t) as Hlen.
  unfold _time_to_seconds.
  destruct (Py.split ":" t) as [|a [|b [|c [|d l]]]]; simpl in Hlen;
    try reflexivity; exfalso; lia.
Qed.

Lemma split_two (m s : string) :
  decimal m -> decimal s -> Py.split ":" (m ++ ":" ++ s) = [m; s].
Proof.
  intros [_ Hm] [_ Hs].
  rewrite split_app by now apply digit_colon_free.
  rewrite split_colon_free by now apply digit_colon_free.
  reflexivity.
Qed.

Lemma split_three (h m s : string) :
  decimal h -> decimal m -> decimal s ->
  Py.split ":" (h ++ ":" ++ m ++ ":" ++ s) = [h; m; s].
Proof.
  intros [_ Hh] Hm Hs.
  rewrite split_app by now apply digit_colon_free.
  now rewrite split_two.
Qed.

(** C5. [_time_to_seconds] returns minutes*60+seconds on every clock
    string made of two non-negative integers, and
    hours*3600+minutes*60+seconds on every one made of three; on a string
    with one component or with four or more (a split never yields zero
    components) it returns 0 and does not raise.  The two formulas hold
    more generally for components [int()] accepts.  In particular 05:30
    gives 330, 1:02:03 gives 3723 and the word bad gives 0. *)
Theorem time_to_seconds_clock :
  (forall m s, decimal m -> decimal s ->
     _time_to_seconds (m ++ ":" ++ s)
     = Returned (decimal_value m * 60 + decimal_value s))
  /\ (forall h m s, decimal h -> decimal m -> decimal s ->
     _time_to_seconds (h ++ ":" ++ m ++ ":" ++ s)
     = Returned (decimal_value h * 3600 + decimal_value m * 60 + decimal_value s))
  /\ (forall t, colons t <> 1%nat -> colons t <> 2%nat ->
     _time_to_seconds t = Returned 0)
  /\ (forall t, List.length (Py.split ":" t) = S (colons t))
  /\ (forall t p1 p2 m s,
       Py.split ":" t = [p1; p2] -> Py.int p1 = Some m -> Py.int p2 = Some s ->
       _time_to_seconds t = Returned (m * 60 + s))
  /\ (forall t p1 p2 p3 h m s,
       Py.split ":" t = [p1; p2; p3] ->
       Py.int p1 = Some h -> Py.int p2 = Some m -> Py.int p3 = Some s ->
       _time_to_seconds t = Returned (h * 3600 + m * 60 + s))
  /\ _time_to_seconds "05:30" = Returned 330
  /\ _time_to_seconds "1:02:03" = Returned 3723
  /\ _time_to_seconds "bad" = Returned 0.
Proof.
  repeat split.
  - intros m s Hm Hs.
    eapply time_two_parts; [now apply split_two | now apply int_decimal ..].
  - intros h m s Hh Hm Hs.
    eapply time_three_parts; [now apply split_three | now apply int_decimal ..].
  - exact time_other_shape.
  - exact split_length.
  - exact time_two_parts.
  - exact time_three_parts.
Qed.

Lemma time_to_seconds_clock_witness :
  (decimal "07" /\ decimal "45"
   /\ _time_to_seconds ("07" ++ ":" ++ "45")
      = Returned (decimal_value "07" * 60 + decimal_value "45"))
  /\ (decimal "2" /\ decimal "00" /\ decimal "09"
      /\ _time_to_seconds ("2" ++ ":" ++ "00" ++ ":" ++ "09")
         = Returned (decimal_value "2" * 3600 + decimal_value "00" * 60
                     + decimal_value "09"))
  /\ (colons "1:2:3:4" <> 1%nat /\ colons "1:2:3:4" <> 2%nat
      /\ _time_to_seconds "1:2:3:4" = Returned 0).
Proof.
  assert (D : forall s, s <> EmptyString -> Py.all_chars Py.is_digit s = true -> decimal s)
    by (intros s H1 H2; split; assumption).
  destruct time_to_seconds_clock as (H2 & H3 & H0 & _).
  split; [|split].
  - split; [|split]; [apply D; [discriminate | reflexivity] .. |].
    apply H2; apply D; first [discriminate | reflexivity].
  - split; [|split; [|split]]; [apply D; [discriminate | reflexivity] .. |].
    apply H3; apply D; first [discriminate | reflexivity].
  - split; [|split]; [simpl; lia .. |].
    apply H0; simpl; lia.
Defined.

(** The first component [int()] refuses is the one reported. *)
Lemma time_bad_component (t p : string) :
  (colons t = 1 \/ colons t = 2)%nat ->
  In p (Py.split ":" t) -> Py.int p = None ->
  exists q, In q (Py.split ":" t) /\ Py.int q = None
            /\ _time_to_seconds t = Raised (ValueError (invalid_literal q)).
Proof.
  intros Hn Hin Hp. pose proof (split_length t) as Hlen.
  unfold _time_to_seconds, int_of.
  destruct (Py.split ":" t) as [|a [|b [|c [|d l]]]]; simpl in Hlen;
    try (exfalso; lia).
  - destruct (Py.int a) eqn:Ha; [|exists a; simpl; auto].
    destruct (Py.int b) eqn:Hb; [|exists b; simpl; auto].
    exfalso. destruct Hin as [<-|[<-|[]]]; congruence.
  - destruct (Py.int a) eqn:Ha; [|exists a; simpl; auto].
    destruct (Py.int b) eqn:Hb; [|exists b; simpl; auto].
    destruct (Py.int c) eqn:Hc; [|exists c; simpl; auto].
    exfalso. destruct Hin as [<-|[<-|[<-|[]]]]; congruence.
Qed.

(** C10. The fallback to 0 of [_time_to_seconds] looks at the number of
    components only: on a clock string of two or three components one of
    which [int()] does not accept, it raises the [ValueError] of the first
    such component, and so does [_build_timestamp_link] for every
    non-empty base URL.  A component with a character other than a digit,
    a sign, an underscore or white space is not accepted; aa:bb is such a
    string. *)
Theorem time_to_seconds_bad_component_raises (t p : string) :
  (colons t = 1 \/ colons t = 2)%nat ->
  In p (Py.split ":" t) ->
  Py.int p = None \/ Py.all_chars int_char p = false ->
  (exists q, In q (Py.split ":" t) /\ Py.int q = None
     /\ _time_to_seconds t = Raised (ValueError (invalid_literal q))
     /\ forall url, url <> EmptyString ->
          _build_timestamp_link url t = Raised (ValueError (invalid_literal q)))
  /\ _time_to_seconds "aa:bb" = Raised (ValueError (invalid_literal "aa"))
  /\ _build_timestamp_link "https://youtu.be/X" "aa:bb"
     = Raised (ValueError (invalid_literal "aa")).
Proof.
  intros Hn Hin Hp.
  assert (Hp' : Py.int p = None) by (destruct Hp; [assumption | now apply int_refuses]).
  split; [|split; reflexivity].
  destruct (time_bad_component t p Hn Hin Hp') as (q & Hq & Hnone & Hraise).
  exists q. repeat split; try assumption.
  intros url Hurl. unfold _build_timestamp_link.
  apply truthy_true in Hurl. now rewrite Hurl, Hraise.
Qed.

Lemma time_to_seconds_bad_component_raises_witness :
  (colons "12:3x:07" = 1 \/ colons "12:3x:07" = 2)%nat
  /\ In "3x" (Py.split ":" "12:3x:07")
  /\ (Py.int "3x" = None \/ Py.all_chars int_char "3x" = false)
  /\ exists q, In q (Py.split ":" "12:3x:07") /\ Py.int q = None
       /\ _time_to_seconds "12:3x:07" = Raised (ValueError (invalid_literal q))
       /\ forall url, url <> EmptyString ->
            _build_timestamp_link url "12:3x:07"
            = Raised (ValueError (invalid_literal q)).
Proof.
  assert (Hn : (colons "12:3x:07" = 1 \/ colons "12:3x:07" = 2)%nat)
    by (right; reflexivity).
  assert (Hin : In "3x" (Py.split ":" "12:3x:07")) by (simpl; tauto).
  assert (Hp : Py.int "3x" = None \/ Py.all_chars int_char "3x" = false)
    by (right; reflexivity).
  refine (conj Hn (conj Hin (conj Hp _))).
  exact (proj1 (time_to_seconds_bad_component_raises "12:3x:07" "3x" Hn Hin Hp)).
Defined.

(** ** The deep link *)

(** C6. [_build_timestamp_link] returns the empty string for an empty
    base URL, whatever the clock string.  For a non-empty one, with the
    seconds [_time_to_seconds] returns: a URL containing youtube.com or
    youtu.be gets t=seconds as a query parameter, after an ampersand when
    the URL contains a question mark and after a question mark otherwise;
    every other URL, with spotify.com or not, gets the fragment
    #t=seconds.  When [_time_to_seconds] raises, so does the link builder.
    The two examples of the specification are evaluated at the end. *)
Theorem build_timestamp_link_dispatch (url time_str : string) :
  (url = EmptyString -> _build_timestamp_link url time_str = Returned EmptyString)
  /\ (url <> EmptyString ->
      forall seconds, _time_to_seconds time_str = Returned seconds ->
        (Contains "youtube.com" url \/ Contains "youtu.be" url ->
           (Contains "?" url ->
              _build_timestamp_link url time_str
              = Returned (url ++ "&t=" ++ Py.str seconds))
           /\ (~ Contains "?" url ->
              _build_timestamp_link url time_str
              = Returned (url ++ "?t=" ++ Py.str seconds)))
        /\ (~ Contains "youtube.com" url -> ~ Contains "youtu.be" url ->
              _build_timestamp_link url time_str
              = Returned (url ++ "#t=" ++ Py.str seconds)))
  /\ (url <> EmptyString ->
      forall e, _time_to_seconds time_str = Raised e ->
        _build_timestamp_link url time_str = Raised e)
  /\ _build_timestamp_link "https://youtube.com/watch?v=X" "01:00"
     = Returned "https://youtube.com/watch?v=X&t=60"
  /\ _build_timestamp_link "https://youtube.com/watch" "01:00"
     = Returned "https://youtube.com/watch?t=60"
  /\ _build_timestamp_link "https://open.spotify.com/episode/7" "01:00"
     = Returned "https://open.spotify.com/episode/7#t=60"
  /\ _build_timestamp_link EmptyString "01:00" = Returned EmptyString.
Proof.
  split; [|split; [|split; [|repeat split]]].
  - intros ->. reflexivity.
  - intros Hurl seconds Hsec. apply truthy_true in Hurl.
    unfold _build_timestamp_link. rewrite Hurl, Hsec. cbn [negb obind].
    split.
    + intros Hyt.
      assert (Hb : Py.contains "youtube.com" url || Py.contains "youtu.be" url = true)
        by (apply orb_true_iff; destruct Hyt as [H|H]; apply contains_spec in H; auto).
      rewrite Hb. split; intros Hq.
      * apply contains_spec in Hq. now rewrite Hq.
      * apply contains_false in Hq. now rewrite Hq.
    + intros H1 H2. apply contains_false in H1, H2. rewrite H1, H2. cbn [orb].
      destruct (Py.contains "spotify.com" url); reflexivity.
  - intros Hurl e He. apply truthy_true in Hurl.
    unfold _build_timestamp_link. now rewrite Hurl, He.
Qed.

Lemma build_timestamp_link_dispatch_witness :
  (EmptyString = EmptyString
   /\ _build_timestamp_link EmptyString "aa:bb" = Returned EmptyString)
  /\ ("https://youtu.be/abc?list=1" <> EmptyString
      /\ _time_to_seconds "1:00:05" = Returned 3605
      /\ (Contains "youtube.com" "https://youtu.be/abc?list=1"
          \/ Contains "youtu.be" "https://youtu.be/abc?list=1")
      /\ Contains "?" "https://youtu.be/abc?list=1"
      /\ _build_timestamp_link "https://youtu.be/abc?list=1" "1:00:05"
         = Returned ("https://youtu.be/abc?list=1" ++ "&t=" ++ Py.str 3605))
  /\ ("https://cdn.example.org/ep1.mp3" <> EmptyString
      /\ _time_to_seconds "02:03" = Returned 123
      /\ ~ Contains "youtube.com" "https://cdn.example.org/ep1.mp3"
      /\ ~ Contains "youtu.be" "https://cdn.example.org/ep1.mp3"
      /\ _build_timestamp_link "https://cdn.example.org/ep1.mp3" "02:03"
         = Returned ("https://cdn.example.org/ep1.mp3" ++ "#t=" ++ Py.str 123)).
Proof.
  assert (Hyt : Contains "youtu.be" "https://youtu.be/abc?list=1")
    by (apply contains_spec; reflexivity).
  assert (Hq : Contains "?" "https://youtu.be/abc?list=1")
    by (apply contains_spec; reflexivity).
  assert (Hn1 : ~ Contains "youtube.com" "https://cdn.example.org/ep1.mp3")
    by (apply contains_false; reflexivity).
  assert (Hn2 : ~ Contains "youtu.be" "https://cdn.example.org/ep1.mp3")
    by (apply contains_false; reflexivity).
  pose proof (build_timestamp_link_dispatch EmptyString "aa:bb") as (He & _).
  pose proof (build_timestamp_link_dispatch "https://youtu.be/abc?list=1" "1:00:05")
    as (_ & Hy & _).
  pose proof (build_timestamp_link_dispatch "https://cdn.example.org/ep1.mp3" "02:03")
    as (_ & Hg & _).
  refine (conj (conj eq_refl (He eq_refl)) (conj _ _)).
  - refine (conj _ (conj eq_refl (conj (or_intror Hyt) (conj Hq _)))); [discriminate|].
    exact (proj1 (proj1 (Hy ltac:(discriminate) 3605 eq_refl) (or_intror Hyt)) Hq).
  - refine (conj _ (conj eq_refl (conj Hn1 (conj Hn2 _)))); [discriminate|].
    exact (proj2 (Hg ltac:(discriminate) 123 eq_refl) Hn1 Hn2).
Defined.

(** ** Sorting by number *)

Section Sorting.

Context {A : Type} (key : A -> Z).

Lemma insert_by_perm (x : A) (l : list A) :
  Permutation (insert_by key x l) (x :: l).
Proof.
  induction l as [|y l IH]; simpl; [reflexivity|].
  destruct (key x <=? key y); [reflexivity|].
  rewrite IH. apply perm_swap.
Qed.

Lemma sorted_by_perm (l : list A) : Permutation (sorted_by key l) l.
Proof.
  induction l as [|x l IH]; simpl; [reflexivity|].
  rewrite insert_by_perm. now constructor.
Qed.

Let le_key (a b : A) : Prop := key a <= key b.

Lemma insert_by_hd (x y : A) (l : list A) :
  key y <= key x -> HdRel le_key y l -> HdRel le_key y (insert_by key x l).
Proof.
  intros Hyx Hl. destruct l as [|z l]; simpl.
  - constructor. exact Hyx.
  - destruct (key x <=? key z); constructor.
    + exact Hyx.
    + now inversion Hl.
Qed.

Lemma insert_by_sorted (x : A) (l : list A) :
  Sorted le_key l -> Sorted le_key (insert_by key x l).
Proof.
  induction 1 as [|y l Hs IH Hhd]; simpl.
  - repeat constructor.
  - destruct (key x <=? key y) eqn:Hxy.
    + constructor; [now constructor|]. constructor. apply Z.leb_le. exact Hxy.
    + constructor; [exact IH|]. apply insert_by_hd; [|exact Hhd].
      apply Z.leb_gt in Hxy. lia.
Qed.

Lemma sorted_by_sorted (l : list A) : Sorted le_key (sorted_by key l).
Proof.
  induction l as [|x l IH]; simpl; [constructor|].
  now apply insert_by_sorted.
Qed.

(** Stability: the elements of one key keep their relative order. *)
Lemma insert_by_stable (n : Z) (x : A) (l : list A) :
  filter (fun a => key a =? n) (insert_by key x l)
  = filter (fun a => key a =? n) (x :: l).
Proof.
  induction l as [|y l IH]; [reflexivity|].
  cbn [insert_by]. destruct (key x <=? key y) eqn:Hxy; [reflexivity|].
  cbn [filter] in *. rewrite IH.
  destruct (key x =? n) eqn:Hx; [|reflexivity].
  apply Z.leb_gt in Hxy. apply Z.eqb_eq in Hx.
  replace (key y =? n) with false by (symmetry; apply Z.eqb_neq; lia).
  reflexivity.
Qed.

Lemma sorted_by_stable (n : Z) (l : list A) :
  filter (fun a => key a =? n) (sorted_by key l) = filter (fun a => key a =? n) l.
Proof.
  induction l as [|x l IH]; [reflexivity|].
  cbn [sorted_by]. rewrite insert_by_stable. cbn [filter]. now rewrite IH.
Qed.

End Sorting.

Lemma insert_by_map {A B : Type} (f : A -> B) (key : B -> Z) (x : A) (l : list A) :
  map f (insert_by (fun a => key (f a)) x l) = insert_by key (f x) (map f l).
Proof.
  induction l as [|y l IH]; simpl; [reflexivity|].
  destruct (key (f x) <=? key (f y)); simpl; [reflexivity | now rewrite IH].
Qed.

Lemma sorted_by_map {A B : Type} (f : A -> B) (key : B -> Z) (l : list A) :
  map f (sorted_by (fun a => key (f a)) l) = sorted_by key (map f l).
Proof.
  induction l as [|x l IH]; simpl; [reflexivity|].
  now rewrite insert_by_map, IH.
Qed.

(** ** The registry *)

Lemma dict_get_set_same {V : Type} (k : string) (v : V) (d : list (string * V)) :
  dict_get k (dict_set k v d) = Some v.
Proof.
  induction d as [|[k' v'] d IH]; simpl.
  - now rewrite String.eqb_refl.
  - destruct (String.eqb k k') eqn:Hk; simpl.
    + now rewrite String.eqb_refl.
    + now rewrite Hk.
Qed.

Lemma dict_get_set_other {V : Type} (k k0 : string) (v : V) (d : list (string * V)) :
  k0 <> k -> dict_get k0 (dict_set k v d) = dict_get k0 d.
Proof.
  intros Hne. induction d as [|[k' v'] d IH]; simpl.
  - apply String.eqb_neq in Hne. now rewrite Hne.
  - destruct (String.eqb k k') eqn:Hk; simpl.
    + apply String.eqb_eq in Hk. subst k'.
      apply String.eqb_neq in Hne. now rewrite Hne.
    + now rewrite IH.
Qed.

Lemma dict_get_none {V : Type} (k : string) (d : list (string * V)) :
  dict_get k d = None <-> ~ In k (keys d).
Proof.
  induction d as [|[k' v'] d IH]; simpl; [tauto|].
  destruct (String.eqb k k') eqn:Hk.
  - apply String.eqb_eq in Hk. split; [discriminate | intros H; exfalso; auto].
  - apply String.eqb_neq in Hk. rewrite IH. split; intros H; [intros [E|E]|]; auto.
Qed.

(** A new key goes last. *)
Lemma dict_set_new {V : Type} (k : string) (v : V) (d : list (string * V)) :
  dict_get k d = None -> dict_set k v d = (d ++ [(k, v)])%list.
Proof.
  induction d as [|[k' v'] d IH]; simpl; [reflexivity|].
  destruct (String.eqb k k'); [discriminate|].
  intros H. now rewrite IH.
Qed.

(** An existing key keeps its place. *)
Lemma dict_set_old {V : Type} (k : string) (v : V) (d : list (string * V)) :
  dict_get k d <> None -> keys (dict_set k v d) = keys d.
Proof.
  induction d as [|[k' v'] d IH]; simpl; [congruence|].
  destruct (String.eqb k k') eqn:Hk; simpl.
  - apply String.eqb_eq in Hk. now subst.
  - intros H. now rewrite IH.
Qed.

Lemma dict_set_keys_in {V : Type} (k k0 : string) (v : V) (d : list (string * V)) :
  In k0 (keys (dict_set k v d)) <-> k0 = k \/ In k0 (keys d).
Proof.
  induction d as [|[k' v'] d IH]; simpl; [intuition|].
  destruct (String.eqb k k') eqn:Hk; simpl.
  - apply String.eqb_eq in Hk. subst. intuition.
  - rewrite IH. intuition.
Qed.

Lemma dict_set_nodup {V : Type} (k : string) (v : V) (d : list (string * V)) :
  NoDup (keys d) -> NoDup (keys (dict_set k v d)).
Proof.
  induction d as [|[k' v'] d IH]; simpl; intros H.
  - repeat constructor. simpl. tauto.
  - inversion H as [|? ? Hnin Hnd]; subst.
    destruct (String.eqb k k') eqn:Hk; simpl.
    + apply String.eqb_eq in Hk. subst. now constructor.
    + constructor; [|now apply IH].
      rewrite dict_set_keys_in. intros [E|E]; [|contradiction].
      subst. now rewrite String.eqb_refl in Hk.
Qed.

Lemma nodup_count_one (k : string) (l : list string) :
  NoDup l -> In k l -> count_occ string_dec l k = 1%nat.
Proof.
  intros Hnd Hin. pose proof (proj1 (NoDup_count_occ string_dec l) Hnd k) as Hle.
  apply (count_occ_In string_dec) in Hin. lia.
Qed.

(** ** The reference index *)

Lemma string_total : total_order String.compare.
Proof.
  split.
  - exact String_as_OT.cmp_eq.
  - intros a b. exact (String_as_OT.cmp_antisym b a).
  - intros a b c Hab Hbc.
    apply String_as_OT.cmp_lt in Hab, Hbc. apply String_as_OT.cmp_lt.
    exact (String_as_OT.lt_trans _ _ _ Hab Hbc).
Qed.

Lemma Z_total : total_order Z.compare.
Proof.
  split.
  - exact Z.compare_eq_iff.
  - intros a b. apply Z.compare_antisym.
  - intros a b c Hab Hbc. rewrite Z.compare_lt_iff in *. lia.
Qed.

Lemma option_total {A : Type} (cmp : A -> A -> comparison) :
  total_order cmp -> total_order (Sample.option_cmp cmp).
Proof.
  intros [He Ho Ht]. split.
  - intros [a|] [b|]; simpl; try (split; congruence).
    rewrite He. split; congruence.
  - intros [a|] [b|]; simpl; auto.
  - intros [a|] [b|] [c|]; simpl; try congruence. apply Ht.
Qed.

Lemma cmp_refl {A : Type} (cmp : A -> A -> comparison) (a : A) :
  total_order cmp -> cmp a a = Eq.
Proof. intros T. now apply (cmp_eq cmp T). Qed.

Lemma cmp_gt {A : Type} (cmp : A -> A -> comparison) (a b : A) :
  total_order cmp -> cmp a b = Gt <-> cmp b a = Lt.
Proof.
  intros T. rewrite (cmp_opp cmp T a b). destruct (cmp a b); simpl; split; congruence.
Qed.

Lemma lex_total {A B : Type} (ca : A -> A -> comparison) (cb : B -> B -> comparison) :
  total_order ca -> total_order cb -> total_order (Sample.lex ca cb).
Proof.
  intros Ta Tb. split.
  - intros [a1 b1] [a2 b2]. unfold Sample.lex. simpl.
    destruct (ca a1 a2) eqn:Ha.
    + apply (cmp_eq ca Ta) in Ha. subst a2. rewrite (cmp_eq cb Tb).
      split; congruence.
    + split; [discriminate|]. intros E. injection E as -> _.
      rewrite (cmp_refl ca a2 Ta) in Ha. discriminate.
    + split; [discriminate|]. intros E. injection E as -> _.
      rewrite (cmp_refl ca a2 Ta) in Ha. discriminate.
  - intros [a1 b1] [a2 b2]. unfold Sample.lex. simpl.
    rewrite (cmp_opp ca Ta a1 a2). destruct (ca a1 a2); simpl; auto.
    apply (cmp_opp cb Tb).
  - intros [a1 b1] [a2 b2] [a3 b3]. unfold Sample.lex. simpl.
    destruct (ca a1 a2) eqn:H12; try discriminate.
    + apply (cmp_eq ca Ta) in H12. subst a2.
      destruct (ca a1 a3) eqn:H13; try discriminate; auto.
      apply (cmp_trans cb Tb).
    + intros _. destruct (ca a2 a3) eqn:H23; try discriminate.
      * apply (cmp_eq ca Ta) in H23. subst a3. now rewrite H12.
      * now rewrite (cmp_trans ca Ta _ _ _ H12 H23).
Qed.

Lemma doc_fields_inj (d1 d2 : Document) :
  Sample.doc_fields d1 = Sample.doc_fields d2 -> d1 = d2.
Proof.
  destruct d1, d2. unfold Sample.doc_fields. simpl. congruence.
Qed.

Lemma doc_total : total_order Sample.doc_cmp.
Proof.
  pose proof (lex_total _ _ (option_total _ string_total)
                (lex_total _ _ (option_total _ string_total)
                   (lex_total _ _ (option_total _ Z_total)
                      (option_total _ string_total)))) as T.
  unfold Sample.doc_cmp. split.
  - intros a b. rewrite (cmp_eq _ T). split; [apply doc_fields_inj | congruence].
  - intros a b. apply (cmp_opp _ T).
  - intros a b c. apply (cmp_trans _ T).
Qed.

Section Insertion.

Context {A : Type} (cmp : A -> A -> comparison) (T : total_order cmp).

Lemma insert_by_cmp_idem (x : A) (l : list A) :
  Sample.insert_by_cmp cmp x (Sample.insert_by_cmp cmp x l)
  = Sample.insert_by_cmp cmp x l.
Proof.
  induction l as [|y l IH]; simpl.
  - now rewrite (cmp_refl cmp x T).
  - destruct (cmp x y) eqn:Hxy; simpl.
    + now rewrite Hxy.
    + now rewrite (cmp_refl cmp x T).
    + now rewrite Hxy, IH.
Qed.

Lemma cmp_flip_lt (a b : A) : cmp a b = Lt -> cmp b a = Gt.
Proof. intros H. now rewrite (cmp_opp cmp T a b), H. Qed.

Lemma cmp_flip_gt (a b : A) : cmp a b = Gt -> cmp b a = Lt.
Proof. intros H. now rewrite (cmp_opp cmp T a b), H. Qed.

Lemma insert_by_cmp_comm (a b : A) (l : list A) :
  Sample.insert_by_cmp cmp a (Sample.insert_by_cmp cmp b l)
  = Sample.insert_by_cmp cmp b (Sample.insert_by_cmp cmp a l).
Proof.
  induction l as [|y l IH]; simpl.
  - destruct (cmp a b) eqn:Hab.
    + apply (cmp_eq cmp T) in Hab. subst b. now rewrite (cmp_refl cmp a T).
    + now rewrite (cmp_flip_lt _ _ Hab).
    + now rewrite (cmp_flip_gt _ _ Hab).
  - destruct (cmp a y) eqn:Hay; destruct (cmp b y) eqn:Hby; simpl;
      rewrite ?Hay, ?Hby; try reflexivity.
    + (* a = y, b < y *)
      apply (cmp_eq cmp T) in Hay. subst y. now rewrite (cmp_flip_lt _ _ Hby).
    + (* a < y, b = y *)
      apply (cmp_eq cmp T) in Hby. subst y. now rewrite (cmp_flip_lt _ _ Hay).
    + (* a < y, b < y *)
      destruct (cmp a b) eqn:Hab.
      * apply (cmp_eq cmp T) in Hab. subst b. now rewrite (cmp_refl cmp a T).
      * now rewrite (cmp_flip_lt _ _ Hab).
      * now rewrite (cmp_flip_gt _ _ Hab).
    + (* a < y < b *)
      pose proof (cmp_trans cmp T _ _ _ Hay (cmp_flip_gt _ _ Hby)) as Hab.
      now rewrite (cmp_flip_lt _ _ Hab).
    + (* b < y < a *)
      pose proof (cmp_trans cmp T _ _ _ Hby (cmp_flip_gt _ _ Hay)) as Hba.
      now rewrite (cmp_flip_lt _ _ Hba).
    + now rewrite IH.
Qed.

End Insertion.

Lemma store_insert (docs : list Document) :
  forall d i,
    Sample.insert_by_cmp Sample.doc_cmp d (Sample.store docs i)
    = Sample.store docs (Sample.insert_by_cmp Sample.doc_cmp d i).
Proof.
  unfold Sample.store. induction docs as [|x docs IH]; intros d i; [reflexivity|].
  cbn [fold_left]. rewrite IH. f_equal. apply insert_by_cmp_comm. exact doc_total.
Qed.

Lemma store_cons (d : Document) (docs i : list Document) :
  Sample.store (d :: docs) i
  = Sample.store docs (Sample.insert_by_cmp Sample.doc_cmp d i).
Proof. reflexivity. Qed.

(** Handing the index the same documents again changes nothing. *)
Lemma store_idempotent (docs : list Document) :
  forall i, Sample.store docs (Sample.store docs i) = Sample.store docs i.
Proof.
  induction docs as [|d docs IH]; intros i; [reflexivity|].
  rewrite !store_cons, store_insert, (insert_by_cmp_idem _ doc_total). apply IH.
Qed.

(** The order of two calls does not matter. *)
Lemma store_order_independent (docs1 : list Document) :
  forall docs2 i,
    Sample.store docs1 (Sample.store docs2 i)
    = Sample.store docs2 (Sample.store docs1 i).
Proof.
  induction docs1 as [|d docs1 IH]; intros docs2 i; [reflexivity|].
  now rewrite !store_cons, store_insert, IH.
Qed.

(** A hit is a stored document that matches, and there are no more hits
    than asked for. *)
Lemma lookup_sound (query : string) (fields : list string) (k : Z)
    (i : list Document) (h : Document) :
  In h (Sample.lookup query fields k i) ->
  In h i /\ Sample.matches query fields h = true.
Proof.
  unfold Sample.lookup. intros H. apply filter_In.
  rewrite <- (firstn_skipn (Z.to_nat k)). apply in_or_app. now left.
Qed.

(** ** The engine *)

Section EngineProperties.

Context {C : Collaborators}.

Lemma fold_answer_step (eps : registry) (hits : list Document) :
  forall acc,
    fold_left (answer_step eps) hits acc
    = ((fst acc ++ map context_part hits)%list,
       (snd acc ++ map (build_source eps) hits)%list).
Proof.
  induction hits as [|h hits IH]; intros [cp ss]; simpl.
  - now rewrite !app_nil_r.
  - rewrite IH. simpl. now rewrite <- !app_assoc.
Qed.

Lemma answer_question_search_raises (w : World) question k e i :
  search question searched_fields (get_or k default_max_context_segments) (index w)
  = (Raised e, i) ->
  answer_question question k w = (Raised e, searched w question k i).
Proof.
  intros Hs. unfold answer_question, bind, call_search.
  fold searched_fields. now rewrite Hs.
Qed.

Lemma answer_question_empty (w : World) question k i :
  search question searched_fields (get_or k default_max_context_segments) (index w)
  = (Returned [], i) ->
  answer_question question k w
  = (Returned {| answer := no_answer; sources := []; context_used := 0 |},
     searched w question k i).
Proof.
  intros Hs. unfold answer_question, bind, call_search.
  fold searched_fields. now rewrite Hs.
Qed.

Lemma answer_question_hits (w : World) question k hits i :
  search question searched_fields (get_or k default_max_context_segments) (index w)
  = (Returned hits, i) ->
  hits <> [] ->
  answer_question question k w
  = match chat_completions_create (answer_prompt question (context_of hits))
            (llm_model w) 400 (groq w) with
    | (Returned text, g) =>
        (Returned {| answer := text;
                     sources := map (build_source (episodes w)) hits;
                     context_used := List.length hits |},
         generated w question k i hits g)
    | (Raised e, g) => (Raised e, generated w question k i hits g)
    end.
Proof.
  intros Hs Hne. unfold answer_question, bind, call_search.
  fold searched_fields. rewrite Hs.
  destruct hits as [|h hits]; [congruence|].
  unfold get_episodes. cbn [episodes].
  rewrite fold_answer_step. cbn [fst snd app].
  unfold generate_answer, generate, context_of. cbn [index episodes llm_model groq calls].
  destruct (chat_completions_create _ _ _ _) as [[text|e] g]; reflexivity.
Qed.

Lemma answer_question_sources_follow_hits_aux
    (w : World) (question : string) (k : option Z) (hits : list Document) (i : Index) :
  search question searched_fields (get_or k default_max_context_segments) (index w)
  = (Returned hits, i) ->
  hits <> [] ->
  forall r w', answer_question question k w = (Returned r, w') ->
    sources r = map (build_source (episodes w)) hits.
Proof.
  intros Hs Hne r w'. rewrite (answer_question_hits w question k hits i Hs Hne).
  destruct (chat_completions_create _ _ _ _) as [[text|e] g]; [|discriminate].
  now intros H; injection H as <- _.
Qed.

(** C1. When the index returns a non-empty list of hits, every result
    [answer_question] returns has [context_used] equal to the length of
    its sources, and its sources are the records built from the hits, one
    per hit and in the order of the hits.  A result is returned exactly
    when the generator returns a text; when the generator raises,
    [answer_question] raises the same exception. *)
Theorem answer_question_sources_follow_hits
    (w : World) (question : string) (k : option Z) (hits : list Document) (i : Index) :
  search question searched_fields (get_or k default_max_context_segments) (index w)
  = (Returned hits, i) ->
  hits <> [] ->
  (forall r w', answer_question question k w = (Returned r, w') ->
     context_used r = List.length (sources r)
     /\ List.length (sources r) = List.length hits
     /\ sources r = map (build_source (episodes w)) hits
     /\ forall n, nth_error (sources r) n
                  = option_map (build_source (episodes w)) (nth_error hits n))
  /\ (forall text g,
        chat_completions_create (answer_prompt question (context_of hits))
          (llm_model w) 400 (groq w) = (Returned text, g) ->
        exists r w', answer_question question k w = (Returned r, w')
                     /\ answer r = text)
  /\ (forall e g,
        chat_completions_create (answer_prompt question (context_of hits))
          (llm_model w) 400 (groq w) = (Raised e, g) ->
        exists w', answer_question question k w = (Raised e, w')).
Proof.
  intros Hs Hne. rewrite (answer_question_hits w question k hits i Hs Hne).
  destruct (chat_completions_create _ _ _ _) as [[text|e] g]; repeat split;
    try discriminate.
  - injection H as <- _. cbn [context_used sources]. now rewrite length_map.
  - injection H as <- _. cbn [sources]. apply length_map.
  - now injection H as <- _.
  - injection H as <- _. cbn [sources]. intros n. apply nth_error_map.
  - intros text' g' H. injection H as <- <-. eauto.
  - intros e' g' H. injection H as <- <-. eauto.
Qed.

(** C2. When the index returns no hit, [answer_question] returns the
    fixed answer, no source and [context_used] 0; the only call it makes
    is the search, so the generator is not invoked and the state of its
    service is the one before the call. *)
Theorem answer_question_no_hits
    (w : World) (question : string) (k : option Z) (i : Index) :
  search question searched_fields (get_or k default_max_context_segments) (index w)
  = (Returned [], i) ->
  exists w',
    answer_question question k w
    = (Returned {| answer := no_answer; sources := []; context_used := 0 |}, w')
    /\ calls w'
       = (calls w ++ [Search question searched_fields
                        (get_or k default_max_context_segments)])%list
    /\ groq w' = groq w
    /\ episodes w' = episodes w.
Proof.
  intros Hs. exists (searched w question k i).
  rewrite (answer_question_empty w question k i Hs). repeat split.
Qed.

Lemma slice_to_prefix (n : nat) (s : string) :
  (n <= String.length s)%nat ->
  String.length (Py.slice_to n s) = n
  /\ exists tail, s = Py.slice_to n s ++ tail.
Proof.
  unfold Py.slice_to. revert s.
  induction n as [|n IH]; intros s Hn.
  - destruct s; simpl; split; eauto.
  - destruct s as [|c s]; simpl in Hn; [lia|].
    destruct (IH s ltac:(lia)) as [Hlen [tail Htail]].
    simpl. split; [now rewrite Hlen|].
    exists tail. now rewrite <- Htail.
Qed.

Lemma link_present (url u : string) :
  (if Py.truthy url then Some url else None) = Some u
  <-> url = u /\ u <> EmptyString.
Proof.
  destruct url; simpl; split.
  - discriminate.
  - intros [<- H]. congruence.
  - intros H. injection H as <-. split; [reflexivity | discriminate].
  - intros [<- _]. reflexivity.
Qed.

Lemma build_source_spec (eps : registry) (hit : Document) :
  let text := get_or (doc_text hit) EmptyString in
  let id := get_or (doc_episode_id hit) EmptyString in
  let src := build_source eps hit in
  ((String.length text <= 200)%nat -> segment src = text)
  /\ ((200 < String.length text)%nat ->
      exists head tail, text = head ++ tail /\ String.length head = 200%nat
                        /\ segment src = head ++ "...")
  /\ (forall u, video_link src = Some u
                <-> exists e, dict_get id eps = Some e /\ video_url e = u
                              /\ u <> EmptyString)
  /\ (forall u, audio_link src = Some u
                <-> exists e, dict_get id eps = Some e /\ audio_url e = u
                              /\ u <> EmptyString)
  /\ (dict_get id eps = None
       \/ (exists e, dict_get id eps = Some e /\ video_url e = EmptyString
                     /\ audio_url e = EmptyString) ->
      video_link src = None /\ audio_link src = None).
Proof.
  intros text id src. subst src. unfold build_source. cbn [segment video_link audio_link].
  fold text. fold id. unfold excerpt.
  split; [|split; [|split; [|split]]].
  - intros H. apply Nat.ltb_ge in H. now rewrite H.
  - intros H. pose proof H as Hlt. apply Nat.ltb_lt in H. rewrite H.
    destruct (slice_to_prefix 200 text ltac:(lia)) as [Hlen [tail Htail]].
    exists (Py.slice_to 200 text), tail. auto.
  - intros u. rewrite link_present. destruct (dict_get id eps) as [e|].
    + split; [intros [H1 H2]; eauto | intros (e' & H1 & H2 & H3)].
      injection H1 as <-. auto.
    + split; [intros [<- H]; congruence | intros (e' & H1 & _); discriminate].
  - intros u. rewrite link_present. destruct (dict_get id eps) as [e|].
    + split; [intros [H1 H2]; eauto | intros (e' & H1 & H2 & H3)].
      injection H1 as <-. auto.
    + split; [intros [<- H]; congruence | intros (e' & H1 & _); discriminate].
  - intros [H|(e & H & Hv & Ha)]; rewrite H; [|rewrite Hv, Ha]; split; reflexivity.
Qed.

(** C4. The source record [answer_question] builds for a hit: its
    excerpt (key [segment]) is the hit's text when the text has at most 200 characters
    (200 included), and the first 200 characters followed by three dots
    when it has more; it has a [video_link] exactly when the registry
    holds the hit's episode with a non-empty [video_url], the link being
    that URL, and likewise an [audio_link] for [audio_url]; when the
    episode is not in the registry, or both its URLs are empty, both keys
    are absent. *)
Theorem answer_question_source_record
    (w w' : World) (question : string) (k : option Z) (hits : list Document)
    (i : Index) (r : AnswerResult) (n : nat) (hit : Document) :
  search question searched_fields (get_or k default_max_context_segments) (index w)
  = (Returned hits, i) ->
  answer_question question k w = (Returned r, w') ->
  nth_error hits n = Some hit ->
  let text := get_or (doc_text hit) EmptyString in
  let id := get_or (doc_episode_id hit) EmptyString in
  exists src,
    nth_error (sources r) n = Some src
    /\ ((String.length text <= 200)%nat -> segment src = text)
    /\ ((200 < String.length text)%nat ->
        exists head tail, text = head ++ tail /\ String.length head = 200%nat
                          /\ segment src = head ++ "...")
    /\ (forall u, video_link src = Some u
                  <-> exists e, dict_get id (episodes w) = Some e
                                /\ video_url e = u /\ u <> EmptyString)
    /\ (forall u, audio_link src = Some u
                  <-> exists e, dict_get id (episodes w) = Some e
                                /\ audio_url e = u /\ u <> EmptyString)
    /\ (dict_get id (episodes w) = None
         \/ (exists e, dict_get id (episodes w) = Some e
                       /\ video_url e = EmptyString /\ audio_url e = EmptyString) ->
        video_link src = None /\ audio_link src = None).
Proof.
  intros Hs Ha Hn text id.
  assert (Hne : hits <> []) by (intros ->; destruct n; discriminate).
  pose proof (answer_question_sources_follow_hits_aux w question k hits i Hs Hne r w' Ha)
    as Hsrc.
  exists (build_source (episodes w) hit). split.
  - now rewrite Hsrc, nth_error_map, Hn.
  - apply build_source_spec.
Qed.

Lemma answer_question_calls (w : World) (question : string) (k : option Z) :
  exists rest,
    calls (snd (answer_question question k w))
    = (calls w
       ++ Search question searched_fields
            (get_or k default_max_context_segments) :: rest)%list
    /\ (forall c, In c rest -> exists prompt model budget,
                                 c = ChatCompletion prompt model budget)
    /\ episodes (snd (answer_question question k w)) = episodes w.
Proof.
  destruct (search question searched_fields (get_or k default_max_context_segments)
              (index w)) as [[[|h hits]|e] i] eqn:Hs.
  - rewrite (answer_question_empty _ _ _ _ Hs). exists [].
    repeat split. intros c [].
  - rewrite (answer_question_hits _ _ _ _ _ Hs) by discriminate.
    exists [ChatCompletion (answer_prompt question (context_of (h :: hits)))
              (llm_model w) 400].
    destruct (chat_completions_create _ _ _ _) as [[text|e] g];
      cbn [snd generated calls episodes]; rewrite <- app_assoc;
      (repeat split; intros c [<-|[]]; eauto).
  - rewrite (answer_question_search_raises _ _ _ _ _ Hs). exists [].
    repeat split. intros c [].
Qed.

(** C8, as the engine has it.  [answer_question] hands the index the
    value of [max_context_segments] it was given, positive or not, as
    [max_results]; 3 is used only when the caller leaves the argument
    out.  The search is the first call made, and the only search. *)
Theorem answer_question_passes_max_results
    (w : World) (question : string) (k : option Z) :
  exists rest,
    calls (snd (answer_question question k w))
    = (calls w
       ++ Search question searched_fields
            (match k with Some given => given | None => 3 end) :: rest)%list
    /\ forall c, In c rest -> exists prompt model budget,
                                c = ChatCompletion prompt model budget.
Proof.
  destruct (answer_question_calls w question k) as (rest & Hc & Hrest & _).
  exists rest. split; [|exact Hrest].
  rewrite Hc. destruct k; reflexivity.
Qed.

(** C9, as the code has it.  The endpoint [ask_question] of the REST
    adapter rejects a blank question (empty, or white space only) with
    status 400 before it calls the engine, and leaves the world as it was,
    so neither the index nor the generator is called; without an engine it
    answers with status 500.  [answer_question] itself does not look at the
    question: its first action is the search, blank question or not. *)
Theorem ask_question_rejects_blank
    (w : World) (question : string) (k : option Z) :
  Py.all_chars Py.isspace question = true ->
  ask_question true question k w
  = (Raised (HTTPException 400 "Question cannot be empty"), w)
  /\ ask_question false question k w
     = (Raised (HTTPException 500 "Chatbot not initialized"), w)
  /\ exists rest,
       calls (snd (answer_question question k w))
       = (calls w
          ++ Search question searched_fields
               (get_or k default_max_context_segments) :: rest)%list.
Proof.
  intros Hblank. unfold ask_question. rewrite strip_is_empty_spec, Hblank.
  repeat split.
  destruct (answer_question_calls w question k) as (rest & Hc & _).
  exists rest. exact Hc.
Qed.

(** ** Loading and adding transcripts *)

Lemma complete_fields (r : JsonEpisode) :
  complete r ->
  exists id t n tx,
    j_episode_id r = Some id /\ j_episode_title r = Some t
    /\ j_episode_number r = Some n /\ j_transcript r = Some tx.
Proof.
  intros (H1 & H2 & H3 & H4).
  destruct (j_episode_id r) as [id|]; [|congruence].
  destruct (j_episode_title r) as [t|]; [|congruence].
  destruct (j_episode_number r) as [n|]; [|congruence].
  destruct (j_transcript r) as [tx|]; [|congruence].
  now exists id, t, n, tx.
Qed.

Lemma load_loop_complete (records : list JsonEpisode) :
  Forall complete records ->
  forall docs w,
    load_loop records docs w
    = (Returned (docs ++ map document_of records)%list,
       with_episodes w (fold_left register records (episodes w))).
Proof.
  induction 1 as [|r records Hr Hrs IH]; intros docs w.
  - simpl. rewrite app_nil_r. unfold ret, with_episodes. now destruct w.
  - destruct (complete_fields r Hr) as (id & t & n & tx & H1 & H2 & H3 & H4).
    cbn [load_loop]. rewrite H1, H2, H3, H4.
    unfold bind, item, ret, set_episode. rewrite IH.
    unfold with_episodes. cbn [index episodes llm_model groq calls fold_left map].
    assert (Hdoc : document_of r
                   = {| doc_episode_id := Some id;
                        doc_episode_title := Some t;
                        doc_episode_number := Some n;
                        doc_text := Some tx |})
      by (unfold document_of; now rewrite H1, H2, H3, H4).
    assert (Hreg : register (episodes w) r
                   = dict_set id
                       {| title := t;
                          number := n;
                          video_url := get_or (j_video_url r) EmptyString;
                          audio_url := get_or (j_audio_url r) EmptyString;
                          transcript := tx |} (episodes w))
      by (unfold register, record_id, episode_of; now rewrite H1, H2, H3, H4).
    rewrite Hdoc, Hreg, <- app_assoc. reflexivity.
Qed.

Lemma load_transcripts_complete (file : string) (r : JsonEpisode)
    (records : list JsonEpisode) (w : World) :
  read_json file = Some (r :: records) ->
  Forall complete (r :: records) ->
  load_transcripts file w
  = call_index_documents (map document_of (r :: records))
      (with_episodes w (fold_left register (r :: records) (episodes w))).
Proof.
  intros Hf Hc. unfold load_transcripts. rewrite Hf. unfold bind.
  rewrite (load_loop_complete _ Hc). reflexivity.
Qed.

Lemma fold_register_other (records : list JsonEpisode) (id : string) :
  (forall r, In r records -> record_id r <> id) ->
  forall d, dict_get id (fold_left register records d) = dict_get id d.
Proof.
  induction records as [|r records IH]; intros Hne d; [reflexivity|].
  cbn [fold_left]. rewrite IH by (intros r' Hr'; apply Hne; now right).
  unfold register. apply dict_get_set_other.
  intros E. apply (Hne r); [now left | now symmetry].
Qed.

Lemma fold_register_nodup (records : list JsonEpisode) :
  forall d, NoDup (keys d) -> NoDup (keys (fold_left register records d)).
Proof.
  induction records as [|r records IH]; intros d Hd; [exact Hd|].
  cbn [fold_left]. apply IH. now apply dict_set_nodup.
Qed.

Lemma fold_register_last (pre post : list JsonEpisode) (r : JsonEpisode) (d : registry) :
  (forall r', In r' post -> record_id r' <> record_id r) ->
  dict_get (record_id r) (fold_left register (pre ++ r :: post) d)
  = Some (episode_of r).
Proof.
  intros Hpost. rewrite fold_left_app. cbn [fold_left].
  rewrite (fold_register_other post _ Hpost).
  unfold register at 1. apply dict_get_set_same.
Qed.

Lemma present_count_one (id : string) (d : registry) :
  NoDup (keys d) -> dict_get id d <> None ->
  count_occ string_dec (keys d) id = 1%nat.
Proof.
  intros Hnd Hget. apply nodup_count_one; [exact Hnd|].
  destruct (in_dec string_dec id (keys d)) as [Hin|Hnin]; [exact Hin|].
  apply dict_get_none in Hnin. contradiction.
Qed.

Lemma load_loop_nodup (records : list JsonEpisode) :
  forall docs w,
    NoDup (keys (episodes w)) ->
    NoDup (keys (episodes (snd (load_loop records docs w)))).
Proof.
  induction records as [|r records IH]; intros docs w Hw; [exact Hw|].
  cbn [load_loop]. unfold bind, item, ret, raise, set_episode.
  destruct (j_episode_id r) as [id|]; [|exact Hw].
  destruct (j_episode_title r) as [t|]; [|exact Hw].
  destruct (j_episode_number r) as [n|]; [|exact Hw].
  destruct (j_transcript r) as [tx|]; [|exact Hw].
  apply IH. cbn [episodes]. now apply dict_set_nodup.
Qed.

Lemma load_transcripts_nodup (file : string) (w : World) :
  NoDup (keys (episodes w)) ->
  NoDup (keys (episodes (snd (load_transcripts file w)))).
Proof.
  intros Hw. unfold load_transcripts.
  destruct (read_json file) as [records|]; [|exact Hw].
  unfold bind. pose proof (load_loop_nodup records [] w Hw) as Hl.
  destruct (load_loop records [] w) as [[[|d docs]|e] w1]; cbn [snd] in *;
    try exact Hl.
  unfold call_index_documents.
  destruct (index_documents (d :: docs) (index w1)); exact Hl.
Qed.

(** The invariant of the registry: an id occurs once at most. *)
Lemma reachable_nodup (w : World) : reachable w -> NoDup (keys (episodes w)).
Proof.
  induction 1 as [g|file w _ IH|id t n tx v a w _ IH|question k w _ IH|w _ IH].
  - constructor.
  - now apply load_transcripts_nodup.
  - unfold add_transcript, bind, set_episode, call_index_documents.
    cbn [index episodes].
    destruct (index_documents _ (index w)). cbn [snd episodes].
    now apply dict_set_nodup.
  - destruct (answer_question_calls w question k) as (_ & _ & _ & ->). exact IH.
  - exact IH.
Qed.

(** C3, as the engine has it.  Adding a transcript under an id, whether
    the registry already holds that id or not, leaves the registry with
    exactly one entry for the id, carrying the title, number, URLs and
    transcript just given; the same holds after a load for the last record
    of the file with that id.  The index is handed the new documents and
    nothing else: the engine makes no call that withdraws the document
    indexed earlier for the id, so what a search returns for it is the
    index's matter. *)
Theorem readding_overwrites_registry (w : World) (id : string) :
  NoDup (keys (episodes w)) ->
  (forall t n tx v a,
     let doc := {| doc_episode_id := Some id;
                   doc_episode_title := Some t;
                   doc_episode_number := Some n;
                   doc_text := Some tx |} in
     let w' := snd (add_transcript id t n tx v a w) in
     dict_get id (episodes w')
     = Some {| title := t; number := n; video_url := v; audio_url := a;
               transcript := tx |}
     /\ count_occ string_dec (keys (episodes w')) id = 1%nat
     /\ calls w' = (calls w ++ [IndexDocuments [doc]])%list
     /\ index w' = snd (index_documents [doc] (index w)))
  /\ (forall file (pre : list JsonEpisode) r post,
       read_json file = Some (pre ++ r :: post)%list ->
       Forall complete (pre ++ r :: post)%list ->
       record_id r = id ->
       (forall r', In r' post -> record_id r' <> id) ->
       let docs := map document_of (pre ++ r :: post)%list in
       let w' := snd (load_transcripts file w) in
       dict_get id (episodes w') = Some (episode_of r)
       /\ count_occ string_dec (keys (episodes w')) id = 1%nat
       /\ calls w' = (calls w ++ [IndexDocuments docs])%list
       /\ index w' = snd (index_documents docs (index w))).
Proof.
  intros Hnd. split.
  - intros t n tx v a doc w'. subst doc w'.
    unfold add_transcript, bind, set_episode, call_index_documents.
    cbn [index episodes calls].
    destruct (index_documents _ (index w)) as [res i'] eqn:Hi.
    cbn [snd index episodes calls].
    repeat split.
    + apply dict_get_set_same.
    + apply present_count_one; [now apply dict_set_nodup|].
      rewrite dict_get_set_same. discriminate.
  - intros file pre r post Hf Hc <- Hpost docs w'. subst docs w'.
    assert (Hcons : exists r0 rs, (pre ++ r :: post)%list = r0 :: rs)
      by (destruct pre; simpl; eauto).
    destruct Hcons as (r0 & rs & Hcons).
    rewrite Hcons in Hf, Hc.
    rewrite (load_transcripts_complete file r0 rs w Hf Hc), <- Hcons.
    unfold call_index_documents, with_episodes. cbn [index episodes calls].
    destruct (index_documents _ (index w)) as [res i'] eqn:Hi.
    cbn [snd index episodes calls].
    repeat split.
    + now apply fold_register_last.
    + apply present_count_one; [now apply fold_register_nodup|].
      rewrite fold_register_last by exact Hpost. discriminate.
Qed.

(** C7. [list_episodes] succeeds on every registry and leaves the world
    as it is; it returns the summaries of all the episodes of the
    registry (a permutation of them), in ascending order of number, the
    episodes of one number in the order the registry holds them, which is
    the order of insertion: a new id is stored last and an id stored
    again keeps its place.  On the empty registry it returns the empty
    list, and the episodes loaded with the numbers 3, 1, 2 come back in
    the order 1, 2, 3. *)
Theorem list_episodes_sorted (w : World) :
  exists l,
    list_episodes w = (Returned l, w)
    /\ Permutation l (map summary_of (episodes w))
    /\ Sorted number_le l
    /\ (forall n, numbered n l = numbered n (map summary_of (episodes w)))
    /\ (episodes w = [] -> l = [])
    /\ (forall id e, dict_get id (episodes w) = None ->
          dict_set id e (episodes w) = (episodes w ++ [(id, e)])%list)
    /\ (forall id e, dict_get id (episodes w) <> None ->
          keys (dict_set id e (episodes w)) = keys (episodes w))
    /\ option_map (map summary_number)
         (match fst (@list_episodes Sample.collaborators Sample.loaded) with
          | Returned s => Some s
          | Raised _ => None
          end)
       = Some [1; 2; 3]
    /\ map (fun x => number (snd x)) (@episodes Sample.collaborators Sample.loaded)
       = [3; 1; 2].
Proof.
  exists (sorted_by summary_number (map summary_of (episodes w))).
  split; [|split; [|split; [|split; [|split; [|split; [|split]]]]]].
  - unfold list_episodes, bind, get_episodes, ret.
    now rewrite <- (sorted_by_map summary_of summary_number).
  - apply sorted_by_perm.
  - apply sorted_by_sorted.
  - intros n. apply sorted_by_stable.
  - now intros ->.
  - intros id e. apply dict_set_new.
  - intros id e. apply dict_set_old.
  - split; reflexivity.
Qed.

End EngineProperties.

(** ** The properties on the reference instance *)

Lemma answer_question_sources_follow_hits_witness :
  let hits := Sample.lookup "vectors" searched_fields 3 (index Sample.loaded) in
  @search Sample.collaborators "vectors" searched_fields
    (get_or None default_max_context_segments) (index Sample.loaded)
  = (Returned hits, index Sample.loaded)
  /\ hits <> []
  /\ (exists r w', answer_question "vectors" None Sample.loaded = (Returned r, w')
                   /\ answer r = "Vectors are discussed.")
  /\ (exists w', answer_question "vectors" None Sample.offline
                 = (Raised (BackendError "connection refused"), w')).
Proof.
  intros hits.
  assert (Hne : hits <> []) by (vm_compute; discriminate).
  refine (conj eq_refl (conj Hne (conj _ _))).
  - destruct (answer_question_sources_follow_hits Sample.loaded "vectors" None hits
                (index Sample.loaded) eq_refl Hne) as (_ & Hret & _).
    exact (Hret "Vectors are discussed." Sample.replying eq_refl).
  - destruct (answer_question_sources_follow_hits Sample.offline "vectors" None hits
                (index Sample.offline) eq_refl Hne) as (_ & _ & Hraise).
    exact (Hraise (BackendError "connection refused") Sample.unreachable eq_refl).
Defined.

Lemma answer_question_no_hits_witness :
  @search Sample.collaborators "quantum" searched_fields
    (get_or (Some 5) default_max_context_segments) (index Sample.loaded)
  = (Returned [], index Sample.loaded)
  /\ exists w',
       answer_question "quantum" (Some 5) Sample.loaded
       = (Returned {| answer := no_answer; sources := []; context_used := 0 |}, w')
       /\ calls w' = (calls Sample.loaded ++ [Search "quantum" searched_fields 5])%list
       /\ groq w' = groq Sample.loaded
       /\ episodes w' = episodes Sample.loaded.
Proof.
  refine (conj eq_refl _).
  exact (answer_question_no_hits Sample.loaded "quantum" (Some 5)
           (index Sample.loaded) eq_refl).
Defined.

Lemma answer_question_source_record_witness :
  let hits := Sample.lookup "vectors" searched_fields 3 (index Sample.long_loaded) in
  let run := answer_question "vectors" None Sample.long_loaded in
  let hit := {| doc_episode_id := Some "ep4";
                doc_episode_title := Some "Delta";
                doc_episode_number := Some 4;
                doc_text := Some Sample.long_text |} in
  @search Sample.collaborators "vectors" searched_fields
    (get_or None default_max_context_segments) (index Sample.long_loaded)
  = (Returned hits, index Sample.long_loaded)
  /\ run = (Returned {| answer := "Vectors are discussed.";
                        sources := map (build_source (episodes Sample.long_loaded)) hits;
                        context_used := 2 |}, snd run)
  /\ nth_error hits 0 = Some hit
  /\ (200 < String.length Sample.long_text)%nat
  /\ exists src,
       nth_error (map (build_source (episodes Sample.long_loaded)) hits) 0 = Some src
       /\ (exists head tail, Sample.long_text = head ++ tail
                             /\ String.length head = 200%nat
                             /\ segment src = head ++ "...")
       /\ video_link src = None /\ audio_link src = None.
Proof.
  intros hits run hit.
  assert (Hlen : (200 < String.length Sample.long_text)%nat)
    by (apply Nat.ltb_lt; reflexivity).
  refine (conj eq_refl (conj eq_refl (conj eq_refl (conj Hlen _)))).
  destruct (answer_question_source_record Sample.long_loaded (snd run) "vectors" None
              hits (index Sample.long_loaded) _ 0%nat hit eq_refl eq_refl eq_refl)
    as (src & Hsrc & _ & Hlong & _ & _ & Hnone).
  exists src. refine (conj Hsrc (conj (Hlong Hlen) (Hnone _))).
  right. eexists. repeat split; reflexivity.
Defined.

Lemma answer_question_passes_max_results_witness :
  exists rest,
    calls (snd (answer_question "vectors" (Some (-2)) Sample.loaded))
    = (calls Sample.loaded ++ Search "vectors" searched_fields (-2) :: rest)%list
    /\ forall c, In c rest -> exists prompt model budget,
                                c = ChatCompletion prompt model budget.
Proof.
  exact (answer_question_passes_max_results Sample.loaded "vectors" (Some (-2))).
Defined.

Lemma ask_question_rejects_blank_witness :
  let blank := String " " (String (ascii_of_nat 9) nl) in
  Py.all_chars Py.isspace blank = true
  /\ ask_question true blank None Sample.loaded
     = (Raised (HTTPException 400 "Question cannot be empty"), Sample.loaded).
Proof.
  intros blank. refine (conj eq_refl _).
  exact (proj1 (ask_question_rejects_blank Sample.loaded blank None eq_refl)).
Defined.

Lemma loaded_keys_nodup : NoDup (keys (episodes Sample.loaded)).
Proof.
  apply reachable_nodup. unfold Sample.loaded, Sample.run.
  apply reach_load, reach_init.
Qed.

Lemma readding_overwrites_registry_witness :
  let revised := Sample.ep "ep1" "Alpha, revised" 7 "a rewritten first talk about vectors" in
  NoDup (keys (episodes Sample.loaded))
  /\ @read_json Sample.collaborators "second.json" = Some ([] ++ revised :: [])%list
  /\ Forall complete ([] ++ revised :: [])%list
  /\ record_id revised = "ep1"
  /\ (forall r', In r' [] -> record_id r' <> "ep1")
  /\ dict_get "ep1" (episodes (snd (load_transcripts "second.json" Sample.loaded)))
     = Some (episode_of revised)
  /\ count_occ string_dec
       (keys (episodes (snd (load_transcripts "second.json" Sample.loaded)))) "ep1"
     = 1%nat
  /\ dict_get "ep1"
       (episodes (snd (add_transcript "ep1" "Alpha, again" 8 "a third text"
                         EmptyString "https://cdn.example.org/1.mp3" Sample.loaded)))
     = Some {| title := "Alpha, again"; number := 8; video_url := EmptyString;
               audio_url := "https://cdn.example.org/1.mp3";
               transcript := "a third text" |}.
Proof.
  intros revised.
  assert (Hc : Forall complete ([] ++ revised :: [])%list)
    by (repeat constructor; discriminate).
  assert (Hpost : forall r', In r' [] -> record_id r' <> "ep1") by (intros r' []).
  destruct (readding_overwrites_registry Sample.loaded "ep1" loaded_keys_nodup)
    as [Hadd Hload].
  destruct (Hload "second.json" [] revised [] eq_refl Hc eq_refl Hpost)
    as (Hget & Hcount & _).
  refine (conj loaded_keys_nodup (conj eq_refl (conj Hc (conj eq_refl
            (conj Hpost (conj Hget (conj Hcount _))))))).
  exact (proj1 (Hadd "Alpha, again" 8 "a third text" EmptyString
                  "https://cdn.example.org/1.mp3")).
Defined.

Lemma list_episodes_sorted_witness :
  episodes Sample.fresh = []
  /\ dict_get "ep9" (episodes Sample.loaded) = None
  /\ dict_get "ep1" (episodes Sample.loaded) <> None
  /\ fst (list_episodes Sample.fresh) = Returned []
  /\ (forall e, dict_set "ep9" e (episodes Sample.loaded)
                = (episodes Sample.loaded ++ [("ep9", e)])%list)
  /\ (forall e, keys (dict_set "ep1" e (episodes Sample.loaded))
                = keys (episodes Sample.loaded)).
Proof.
  assert (Hold : dict_get "ep1" (episodes Sample.loaded) <> None) by discriminate.
  refine (conj eq_refl (conj eq_refl (conj Hold _))).
  destruct (list_episodes_sorted Sample.fresh)
    as (l & Hrun & _ & _ & _ & Hempty & _).
  destruct (list_episodes_sorted Sample.loaded)
    as (l' & _ & _ & _ & _ & _ & Hnew & Hkeep & _).
  refine (conj _ (conj (fun e => Hnew "ep9" e eq_refl) (fun e => Hkeep "ep1" e Hold))).
  rewrite Hrun. cbn [fst]. f_equal. exact (Hempty eq_refl).
Defined.

(** ** Where the engine departs from the statements *)

(** C3, refuted as stated, on the reference index.  After the second
    load the registry holds the revised episode ep1 alone, but the index
    still returns the document of the first load for ep1, with the first
    transcript: both versions are hits of one search. *)
Lemma readding_keeps_earlier_document :
  ~ @readding_reindexes Sample.collaborators.
Proof.
  intros H.
  pose (revised := Sample.ep "ep1" "Alpha, revised" 7
                     "a rewritten first talk about vectors").
  assert (Hc : Forall complete ([] ++ revised :: [])%list)
    by (repeat constructor; discriminate).
  assert (Hpost : forall r', In r' [] -> record_id r' <> record_id revised)
    by (intros r' []).
  pose proof (H Sample.loaded "second.json" [] revised [] loaded_keys_nodup
                eq_refl Hc Hpost) as Hlatest.
  pose (first := {| doc_episode_id := Some "ep1";
                    doc_episode_title := Some "Alpha";
                    doc_episode_number := Some 1;
                    doc_text := Some "first talk about vectors" |}).
  destruct (Hlatest "vectors" searched_fields 3
              (Sample.lookup "vectors" searched_fields 3 (index Sample.reloaded))
              (index Sample.reloaded) eq_refl first) as (e & He & Ht).
  - vm_compute. tauto.
  - reflexivity.
  - vm_compute in He. injection He as <-. vm_compute in Ht. discriminate Ht.
Qed.

(** C8, refuted as stated.  With [max_context_segments] 0 the index is
    asked for 0 results, not for 3. *)
Lemma nonpositive_is_passed_on :
  ~ @nonpositive_means_default Sample.collaborators.
Proof.
  intros H. destruct (H Sample.loaded "vectors" 0 ltac:(lia)) as [rest Hrest].
  vm_compute in Hrest. congruence.
Qed.

(** C9, refuted as stated.  [answer_question] on a blank question
    searches the index and returns a result: it raises nothing. *)
Lemma blank_question_reaches_index :
  ~ @blank_is_rejected Sample.collaborators.
Proof.
  intros H. destruct (H Sample.loaded "   " None eq_refl) as [e He].
  vm_compute in He. discriminate He.
Qed.

(** * Further properties of the engine *)

Lemma append_assoc (a b c : string) : (a ++ b) ++ c = a ++ b ++ c.
Proof. induction a as [|x a IH]; simpl; [reflexivity | now rewrite IH]. Qed.

Lemma append_empty_r (a : string) : a ++ EmptyString = a.
Proof. induction a as [|x a IH]; simpl; [reflexivity | now rewrite IH]. Qed.

Lemma Contains_refl (a : string) : Contains a a.
Proof. exists EmptyString, EmptyString. simpl. now rewrite append_empty_r. Qed.

Lemma Contains_app_r (n a b : string) : Contains n b -> Contains n (a ++ b).
Proof.
  intros (pre & post & ->). exists (a ++ pre), post. now rewrite append_assoc.
Qed.

Lemma Contains_app_l (n a b : string) : Contains n a -> Contains n (a ++ b).
Proof.
  intros (pre & post & ->). exists pre, (post ++ b).
  now rewrite !append_assoc.
Qed.

Lemma Contains_join (sep p : string) (parts : list string) :
  In p parts -> Contains p (Py.join sep parts).
Proof.
  induction parts as [|q parts IH]; intros Hin; [destruct Hin|].
  destruct parts as [|q' parts].
  - destruct Hin as [<-|[]]. apply Contains_refl.
  - cbn [Py.join]. destruct Hin as [<-|Hin].
    + apply Contains_app_l, Contains_refl.
    + apply Contains_app_r, Contains_app_r, IH, Hin.
Qed.

Section EngineExtras.

Context {C : Collaborators}.

Lemma with_episodes_same (w : World) : with_episodes w (episodes w) = w.
Proof. now destruct w. Qed.

(** ** Loading *)

Lemma load_loop_key_error (pre : list JsonEpisode) :
  Forall complete pre ->
  forall bad post key docs w,
    first_missing bad = Some key ->
    load_loop (pre ++ bad :: post) docs w
    = (Raised (KeyError key),
       with_episodes w (fold_left register pre (episodes w))).
Proof.
  induction 1 as [|r pre Hr Hpre IH]; intros bad post key docs w Hkey.
  - cbn [app load_loop fold_left]. rewrite with_episodes_same.
    unfold first_missing in Hkey. unfold bind, item, ret, raise.
    destruct (j_episode_id bad); [|now injection Hkey as <-].
    destruct (j_episode_title bad); [|now injection Hkey as <-].
    destruct (j_episode_number bad); [|now injection Hkey as <-].
    destruct (j_transcript bad); [discriminate|now injection Hkey as <-].
  - destruct (complete_fields r Hr) as (id & t & n & tx & H1 & H2 & H3 & H4).
    cbn [app load_loop]. rewrite H1, H2, H3, H4.
    unfold bind, item, ret, set_episode. rewrite (IH bad post key _ _ Hkey).
    unfold with_episodes. cbn [index episodes llm_model groq calls fold_left].
    assert (Hreg : register (episodes w) r
                   = dict_set id
                       {| title := t;
                          number := n;
                          video_url := get_or (j_video_url r) EmptyString;
                          audio_url := get_or (j_audio_url r) EmptyString;
                          transcript := tx |} (episodes w))
      by (unfold register, record_id, episode_of; now rewrite H1, H2, H3, H4).
    now rewrite Hreg.
Qed.

(** X1. [load_transcripts] on a path that does not exist raises
    [FileNotFoundError] and changes nothing.  On a file one of whose
    records lacks a required key it raises the [KeyError] of the first
    key that record lacks; the records before it are in the registry by
    then, but the index has not been called: the load is not atomic, and
    it leaves episodes registered that were never indexed. *)
Theorem load_transcripts_failures (w : World) (file : string) :
  (read_json file = None ->
   load_transcripts file w
   = (Raised (FileNotFoundError ("Transcript file not found: " ++ file)), w))
  /\ (forall (pre : list JsonEpisode) bad post key,
        read_json file = Some (pre ++ bad :: post)%list ->
        Forall complete pre ->
        first_missing bad = Some key ->
        let w' := snd (load_transcripts file w) in
        fst (load_transcripts file w) = Raised (KeyError key)
        /\ episodes w' = fold_left register pre (episodes w)
        /\ index w' = index w
        /\ calls w' = calls w).
Proof.
  split.
  - intros Hf. unfold load_transcripts. now rewrite Hf.
  - intros pre bad post key Hf Hpre Hkey w'. subst w'.
    unfold load_transcripts, bind. rewrite Hf.
    rewrite (load_loop_key_error pre Hpre bad post key [] w Hkey).
    cbn [fst snd]. unfold with_episodes. cbn [index episodes calls].
    repeat split.
Qed.

Lemma add_transcript_run (w : World) (id t : string) (n : Z) (tx v a : string) :
  let doc := {| doc_episode_id := Some id;
                doc_episode_title := Some t;
                doc_episode_number := Some n;
                doc_text := Some tx |} in
  add_transcript id t n tx v a w
  = (fst (index_documents [doc] (index w)),
     {| index := snd (index_documents [doc] (index w));
        episodes := dict_set id {| title := t; number := n; video_url := v;
                                   audio_url := a; transcript := tx |} (episodes w);
        llm_model := llm_model w;
        groq := groq w;
        calls := (calls w ++ [IndexDocuments [doc]])%list |}).
Proof.
  intros doc. unfold add_transcript, bind, set_episode, call_index_documents.
  cbn [index episodes llm_model groq calls]. fold doc.
  now destruct (index_documents [doc] (index w)).
Qed.

Lemma add_record_complete (r : JsonEpisode) (w : World) :
  complete r ->
  episodes (snd (add_record r w)) = register (episodes w) r
  /\ calls (snd (add_record r w)) = (calls w ++ [IndexDocuments [document_of r]])%list.
Proof.
  intros Hr. destruct (complete_fields r Hr) as (id & t & n & tx & H1 & H2 & H3 & H4).
  unfold add_record. rewrite add_transcript_run. cbn [snd episodes calls].
  unfold register, record_id, episode_of, document_of.
  rewrite H1, H2, H3, H4. cbn [get_or title number transcript video_url audio_url].
  split; reflexivity.
Qed.

Lemma add_all_complete (records : list JsonEpisode) :
  Forall complete records ->
  forall w,
    episodes (add_all records w) = fold_left register records (episodes w)
    /\ calls (add_all records w)
       = (calls w ++ map (fun r => IndexDocuments [document_of r]) records)%list.
Proof.
  induction 1 as [|r records Hr Hrs IH]; intros w.
  - simpl. now rewrite app_nil_r.
  - unfold add_all. cbn [fold_left]. fold (add_all records (snd (add_record r w))).
    destruct (IH (snd (add_record r w))) as [He Hc].
    destruct (add_record_complete r w Hr) as [He1 Hc1].
    rewrite He, Hc, He1, Hc1. cbn [map]. now rewrite <- app_assoc.
Qed.

(** X2. A file all of whose records have the required keys is loaded
    with one call to the index, which receives the documents of all the
    records in the order of the file (no call at all for an empty file,
    which changes nothing), and the outcome of the load is the outcome of
    that call.  The registry is then the one a caller gets by adding the
    records one at a time with [add_transcript]; such a caller calls the
    index once per record instead. *)
Theorem load_transcripts_is_batch_add
    (w : World) (file : string) (records : list JsonEpisode) :
  read_json file = Some records ->
  Forall complete records ->
  let w' := snd (load_transcripts file w) in
  episodes w' = episodes (add_all records w)
  /\ calls (add_all records w)
     = (calls w ++ map (fun r => IndexDocuments [document_of r]) records)%list
  /\ (records = [] -> load_transcripts file w = (Returned tt, w))
  /\ (records <> [] ->
      calls w' = (calls w ++ [IndexDocuments (map document_of records)])%list
      /\ fst (load_transcripts file w)
         = fst (index_documents (map document_of records) (index w))
      /\ index w' = snd (index_documents (map document_of records) (index w))).
Proof.
  intros Hf Hc w'. subst w'.
  destruct (add_all_complete records Hc w) as [He Hcalls].
  rewrite He. split; [|split; [exact Hcalls|split]].
  - destruct records as [|r records].
    + unfold load_transcripts, bind. rewrite Hf. reflexivity.
    + rewrite (load_transcripts_complete file r records w Hf Hc).
      unfold call_index_documents, with_episodes. cbn [index episodes].
      now destruct (index_documents _ (index w)).
  - intros ->. unfold load_transcripts, bind. rewrite Hf.
    cbn [load_loop]. unfold ret. reflexivity.
  - intros Hne. destruct records as [|r records]; [congruence|].
    rewrite (load_transcripts_complete file r records w Hf Hc).
    unfold call_index_documents, with_episodes. cbn [index episodes calls].
    destruct (index_documents _ (index w)); repeat split.
Qed.

(** ** Adding and listing *)

Lemma dict_set_length {V : Type} (k : string) (v : V) (d : list (string * V)) :
  List.length (dict_set k v d)
  = match dict_get k d with
    | Some _ => List.length d
    | None => S (List.length d)
    end.
Proof.
  induction d as [|[k' v'] d IH]; simpl; [reflexivity|].
  destruct (String.eqb k k'); simpl; [reflexivity|].
  rewrite IH. now destruct (dict_get k d).
Qed.

Lemma dict_get_in {V : Type} (k : string) (v : V) (d : list (string * V)) :
  dict_get k d = Some v -> In (k, v) d.
Proof.
  induction d as [|[k' v'] d IH]; simpl; [discriminate|].
  destruct (String.eqb k k') eqn:Hk.
  - apply String.eqb_eq in Hk. subst. intros H. injection H as <-. now left.
  - intros H. right. now apply IH.
Qed.

Lemma with_id_count (id : string) (l : list EpisodeSummary) :
  List.length (with_id id l)
  = count_occ string_dec (map summary_episode_id l) id.
Proof.
  unfold with_id. induction l as [|s l IH]; simpl; [reflexivity|].
  destruct (string_dec (summary_episode_id s) id) as [E|E].
  - apply String.eqb_eq in E. rewrite E. simpl. now rewrite IH.
  - apply String.eqb_neq in E. now rewrite E.
Qed.

Lemma list_episodes_run (w : World) :
  list_episodes w
  = (Returned (sorted_by summary_number (map summary_of (episodes w))), w).
Proof.
  unfold list_episodes, bind, get_episodes, ret.
  now rewrite <- (sorted_by_map summary_of summary_number).
Qed.

Lemma summary_ids (eps : registry) :
  map summary_episode_id (map summary_of eps) = keys eps.
Proof. unfold keys. rewrite map_map. reflexivity. Qed.

(** X3. After [add_transcript], whatever the index answers and even when
    it raises, [list_episodes] lists the episode under its id with the
    title and number just given, once; the other episodes are as before,
    and the list is one longer exactly when the id is new. *)
Theorem add_transcript_then_list
    (w : World) (id t : string) (n : Z) (tx v a : string) :
  NoDup (keys (episodes w)) ->
  let w1 := snd (add_transcript id t n tx v a w) in
  exists l,
    list_episodes w1 = (Returned l, w1)
    /\ with_id id l
       = [{| summary_episode_id := id; summary_title := t; summary_number := n |}]
    /\ List.length l
       = match dict_get id (episodes w) with
         | Some _ => List.length (episodes w)
         | None => S (List.length (episodes w))
         end
    /\ (forall id', id' <> id ->
          dict_get id' (episodes w1) = dict_get id' (episodes w))
    /\ fst (add_transcript id t n tx v a w)
       = fst (index_documents
                [{| doc_episode_id := Some id; doc_episode_title := Some t;
                    doc_episode_number := Some n; doc_text := Some tx |}]
                (index w)).
Proof.
  intros Hnd w1. subst w1. rewrite add_transcript_run. cbn [fst snd].
  rewrite list_episodes_run. cbn [episodes].
  set (ep := {| title := t; number := n; video_url := v; audio_url := a;
                transcript := tx |}).
  set (eps := dict_set id ep (episodes w)).
  set (l := sorted_by summary_number (map summary_of eps)).
  assert (Hperm : Permutation l (map summary_of eps)) by apply sorted_by_perm.
  exists l. split; [reflexivity|]. split; [|split; [|split]].
  - assert (Hin : In (summary_of (id, ep)) l).
    { apply (Permutation_in _ (Permutation_sym Hperm)), in_map, dict_get_in.
      apply dict_get_set_same. }
    assert (Hcount : List.length (with_id id l) = 1%nat).
    { rewrite with_id_count.
      erewrite <- (proj1 (Permutation_count_occ string_dec _ _)
                     (Permutation_map summary_episode_id (Permutation_sym Hperm))).
      rewrite summary_ids. apply present_count_one.
      - now apply dict_set_nodup.
      - unfold eps. rewrite dict_get_set_same. discriminate. }
    assert (Hin' : In (summary_of (id, ep)) (with_id id l)).
    { apply filter_In. split; [exact Hin|]. simpl. apply String.eqb_refl. }
    destruct (with_id id l) as [|x [|y rest]]; simpl in Hcount; try discriminate.
    destruct Hin' as [->|[]]. reflexivity.
  - rewrite (Permutation_length Hperm), length_map. apply dict_set_length.
  - intros id' Hne. now apply dict_get_set_other.
  - reflexivity.
Qed.

Lemma dict_in_get {V : Type} (k : string) (v : V) (d : list (string * V)) :
  NoDup (keys d) -> In (k, v) d -> dict_get k d = Some v.
Proof.
  induction d as [|[k' v'] d IH]; simpl; intros Hnd Hin; [destruct Hin|].
  inversion Hnd as [|? ? Hnin Hnd']; subst.
  destruct Hin as [E|Hin].
  - injection E as -> ->. now rewrite String.eqb_refl.
  - destruct (String.eqb k k') eqn:Hk.
    + apply String.eqb_eq in Hk. subst k'. exfalso. apply Hnin.
      unfold keys. now apply (in_map fst) in Hin.
    + now apply IH.
Qed.

(** X4. In every state the engine can reach from a fresh one by loading,
    adding, answering and listing, the ids [list_episodes] lists are
    pairwise different, there are as many of them as the registry has
    entries, and each listed title and number is the one the registry
    holds under that id. *)
Theorem reachable_list_has_distinct_ids (w : World) :
  reachable w ->
  exists l,
    list_episodes w = (Returned l, w)
    /\ NoDup (map summary_episode_id l)
    /\ List.length l = List.length (episodes w)
    /\ forall s, In s l ->
         exists e, dict_get (summary_episode_id s) (episodes w) = Some e
                   /\ title e = summary_title s /\ number e = summary_number s.
Proof.
  intros Hr. pose proof (reachable_nodup w Hr) as Hnd.
  rewrite list_episodes_run.
  set (l := sorted_by summary_number (map summary_of (episodes w))).
  assert (Hperm : Permutation l (map summary_of (episodes w))) by apply sorted_by_perm.
  exists l. split; [reflexivity|]. split; [|split].
  - apply (Permutation_NoDup
             (Permutation_map summary_episode_id (Permutation_sym Hperm))).
    now rewrite summary_ids.
  - now rewrite (Permutation_length Hperm), length_map.
  - intros s Hs. apply (Permutation_in _ Hperm) in Hs.
    apply in_map_iff in Hs. destruct Hs as ([k e] & <- & Hin).
    exists e. simpl. split; [now apply dict_in_get | split; reflexivity].
Qed.

(** ** Answering *)

(** X5. [answer_question] raises nothing of its own: an exception it
    raises was raised by the search, or, after a search that returned
    hits, by the completion call. *)
Theorem answer_question_raises_what_a_collaborator_raised
    (w w' : World) (question : string) (k : option Z) (e : exn) :
  answer_question question k w = (Raised e, w') ->
  (exists i,
     search question searched_fields (get_or k default_max_context_segments) (index w)
     = (Raised e, i))
  \/ (exists hits i g,
        search question searched_fields (get_or k default_max_context_segments)
          (index w) = (Returned hits, i)
        /\ hits <> []
        /\ chat_completions_create (answer_prompt question (context_of hits))
             (llm_model w) 400 (groq w) = (Raised e, g)).
Proof.
  destruct (search question searched_fields (get_or k default_max_context_segments)
              (index w)) as [[[|h hits]|e0] i] eqn:Hs.
  - rewrite (answer_question_empty _ _ _ _ Hs). discriminate.
  - rewrite (answer_question_hits _ _ _ _ _ Hs) by discriminate.
    destruct (chat_completions_create _ _ _ _) as [[text|e1] g] eqn:Hg; [discriminate|].
    intros H. injection H as <- _. right. exists (h :: hits), i, g.
    repeat split; [discriminate | exact Hg].
  - rewrite (answer_question_search_raises _ _ _ _ _ Hs).
    intros H. injection H as <- _. left. now exists i.
Qed.

(** X6. [answer_question] only reads the engine: it leaves the registry
    and the model name as they are, makes two calls at most (the search,
    then at most one completion) and never hands a document to the
    index. *)
Theorem answer_question_reads_only
    (w : World) (question : string) (k : option Z) :
  let w' := snd (answer_question question k w) in
  episodes w' = episodes w
  /\ llm_model w' = llm_model w
  /\ exists new,
       calls w' = (calls w ++ new)%list
       /\ (List.length new <= 2)%nat
       /\ forall c, In c new -> forall docs, c <> IndexDocuments docs.
Proof.
  intros w'. subst w'.
  destruct (search question searched_fields (get_or k default_max_context_segments)
              (index w)) as [[[|h hits]|e0] i] eqn:Hs.
  - rewrite (answer_question_empty _ _ _ _ Hs). cbn [snd searched episodes llm_model calls].
    repeat split. eexists. split; [reflexivity|]. split; [simpl; lia|].
    intros c [<-|[]] docs. discriminate.
  - rewrite (answer_question_hits _ _ _ _ _ Hs) by discriminate.
    destruct (chat_completions_create _ _ _ _) as [[text|e1] g];
      cbn [snd generated episodes llm_model calls]; repeat split;
      rewrite <- app_assoc; (eexists; split; [reflexivity|]; split; [simpl; lia|]);
      intros c [<-|[<-|[]]] docs; discriminate.
  - rewrite (answer_question_search_raises _ _ _ _ _ Hs).
    cbn [snd searched episodes llm_model calls].
    repeat split. eexists. split; [reflexivity|]. split; [simpl; lia|].
    intros c [<-|[]] docs. discriminate.
Qed.

Lemma Contains_trans (a b c : string) : Contains a b -> Contains b c -> Contains a c.
Proof.
  intros (p1 & q1 & ->) (p2 & q2 & ->). exists (p2 ++ p1), (q1 ++ q2).
  now rewrite !append_assoc.
Qed.

Lemma prompt_contains_question (question context : string) :
  Contains question (answer_prompt question context).
Proof.
  unfold answer_prompt. do 6 apply Contains_app_r.
  apply Contains_app_l, Contains_refl.
Qed.

Lemma prompt_contains_context (question context : string) :
  Contains context (answer_prompt question context).
Proof.
  unfold answer_prompt. do 11 apply Contains_app_r.
  apply Contains_app_l, Contains_refl.
Qed.

(** X7. When the search returns hits, [answer_question] makes exactly one
    completion call after it, with the model of the engine and a budget of
    400 tokens.  The prompt of that call holds the question verbatim and,
    for every hit, the block made of the hit's title between the episode
    label's brackets followed by the hit's text (the word Unknown and the
    empty text standing in for an absent title or text); two consecutive
    blocks are separated by an empty line. *)
Theorem answer_question_completion_call
    (w : World) (question : string) (k : option Z) (hits : list Document) (i : Index) :
  search question searched_fields (get_or k default_max_context_segments) (index w)
  = (Returned hits, i) ->
  hits <> [] ->
  let prompt := answer_prompt question (context_of hits) in
  calls (snd (answer_question question k w))
  = (calls w
     ++ [Search question searched_fields (get_or k default_max_context_segments);
         ChatCompletion prompt (llm_model w) 400])%list
  /\ Contains question prompt
  /\ (forall h, In h hits ->
        Contains ("[Episode: " ++ get_or (doc_episode_title h) "Unknown" ++ "] "
                  ++ get_or (doc_text h) EmptyString) prompt)
  /\ (forall h1 h2 rest,
        context_of (h1 :: h2 :: rest)
        = context_part h1 ++ nl ++ nl ++ context_of (h2 :: rest)).
Proof.
  intros Hs Hne prompt. subst prompt.
  rewrite (answer_question_hits _ _ _ _ _ Hs Hne).
  split; [|split; [|split]].
  - destruct (chat_completions_create _ _ _ _) as [[text|e1] g];
      cbn [snd generated calls]; now rewrite <- app_assoc.
  - apply prompt_contains_question.
  - intros h Hh. apply Contains_trans with (b := context_of hits).
    + unfold context_of. apply Contains_join.
      change ("[Episode: " ++ get_or (doc_episode_title h) "Unknown" ++ "] "
              ++ get_or (doc_text h) EmptyString) with (context_part h).
      now apply in_map.
    + apply prompt_contains_context.
  - intros h1 h2 rest. unfold context_of. cbn [map Py.join].
    now rewrite append_assoc.
Qed.

(** X8. Every source of a result [answer_question] returns has an empty
    timestamp, and its title and number are those of the hit (the word
    Unknown and the empty string when the hit lacks them), not those the
    registry holds for the hit's episode. *)
Theorem answer_question_source_labels
    (w w' : World) (question : string) (k : option Z) (hits : list Document)
    (i : Index) (r : AnswerResult) (n : nat) (hit : Document) :
  search question searched_fields (get_or k default_max_context_segments) (index w)
  = (Returned hits, i) ->
  answer_question question k w = (Returned r, w') ->
  nth_error hits n = Some hit ->
  exists src,
    nth_error (sources r) n = Some src
    /\ timestamp src = EmptyString
    /\ episode src = get_or (doc_episode_title hit) "Unknown"
    /\ episode_number src
       = match doc_episode_number hit with
         | Some number => IntVal number
         | None => StrVal EmptyString
         end
    /\ (forall src', In src' (sources r) -> timestamp src' = EmptyString).
Proof.
  intros Hs Ha Hn.
  assert (Hne : hits <> []) by (intros ->; destruct n; discriminate).
  pose proof (answer_question_sources_follow_hits_aux w question k hits i Hs Hne r w' Ha)
    as Hsrc.
  exists (build_source (episodes w) hit). split; [|repeat split].
  - now rewrite Hsrc, nth_error_map, Hn.
  - intros src' Hin. rewrite Hsrc in Hin. apply in_map_iff in Hin.
    now destruct Hin as (h & <- & _).
Qed.

(** ** The REST endpoints *)

(** X9. [ask_question] raises nothing but an [HTTPException] of status
    400 or 500.  For a question that is not blank it returns what
    [answer_question] returns, and turns whatever [answer_question]
    raises into status 500 with the text of the exception as detail. *)
Theorem ask_question_wraps_the_engine
    (w : World) (chatbot : bool) (question : string) (k : option Z) :
  (forall e w', ask_question chatbot question k w = (Raised e, w') ->
     exists status detail,
       e = HTTPException status detail /\ (status = 400 \/ status = 500))
  /\ (Py.all_chars Py.isspace question = false ->
      (forall r w', answer_question question k w = (Returned r, w') ->
         ask_question true question k w = (Returned r, w'))
      /\ (forall e w', answer_question question k w = (Raised e, w') ->
         ask_question true question k w
         = (Raised (HTTPException 500 (exn_str e)), w'))).
Proof.
  split.
  - intros e w'. unfold ask_question, raise.
    destruct chatbot; cbn [negb].
    + destruct (Py.strip_is_empty question).
      * intros H. injection H as <- _. eauto.
      * destruct (answer_question question k w) as [[r|e0] w0]; [discriminate|].
        intros H. injection H as <- _. eauto.
    + intros H. injection H as <- _. eauto.
  - intros Hq. unfold ask_question. rewrite strip_is_empty_spec, Hq. cbn [negb].
    split; intros x w' H; now rewrite H.
Qed.

(** X10. The search endpoint rejects a blank query with status 400
    before it calls the index, and answers 500 without an engine.
    Otherwise it searches the title and the text once, for the number of
    results asked for or 5, and reports the hits with their count; what
    the index raises is raised as it is, not as an [HTTPException]. *)
Theorem search_transcripts_endpoint
    (w : World) (query : string) (max_results : option Z) :
  Api.search_transcripts false query max_results w
  = (Raised (HTTPException 500 "Chatbot not initialized"), w)
  /\ (Py.all_chars Py.isspace query = true ->
      Api.search_transcripts true query max_results w
      = (Raised (HTTPException 400 "Query cannot be empty"), w))
  /\ (Py.all_chars Py.isspace query = false ->
      calls (snd (Api.search_transcripts true query max_results w))
      = (calls w ++ [Search query searched_fields (get_or max_results 5)])%list
      /\ (forall hits i,
            search query searched_fields (get_or max_results 5) (index w)
            = (Returned hits, i) ->
            fst (Api.search_transcripts true query max_results w)
            = Returned {| Api.body_query := query;
                          Api.body_results := hits;
                          Api.body_results_count := List.length hits |})
      /\ (forall e i,
            search query searched_fields (get_or max_results 5) (index w)
            = (Raised e, i) ->
            fst (Api.search_transcripts true query max_results w) = Raised e)).
Proof.
  split; [reflexivity|]. split.
  - intros Hq. unfold Api.search_transcripts. now rewrite strip_is_empty_spec, Hq.
  - intros Hq. unfold Api.search_transcripts. rewrite strip_is_empty_spec, Hq.
    cbn [negb]. unfold bind, call_search, ret. fold searched_fields.
    destruct (search query searched_fields (get_or max_results 5) (index w))
      as [[hits|e] i] eqn:Hs; cbn [fst snd calls]; repeat split.
    + intros hits' i' H. now injection H as <- _.
    + discriminate.
    + discriminate.
    + intros e' i' H. now injection H as <- _.
Qed.

(** X11. The episodes endpoint answers 500 without an engine; with one it
    calls no collaborator, changes nothing, and reports the episodes that
    [list_episodes] returns with a count equal to their number, which is
    the number of entries of the registry. *)
Theorem get_episodes_endpoint (w : World) :
  Api.get_episodes false w = (Raised (HTTPException 500 "Chatbot not initialized"), w)
  /\ exists l,
       list_episodes w = (Returned l, w)
       /\ Api.get_episodes true w
          = (Returned {| Api.body_episodes := l;
                         Api.body_count := List.length l |}, w)
       /\ List.length l = List.length (episodes w).
Proof.
  split; [reflexivity|].
  exists (sorted_by summary_number (map summary_of (episodes w))).
  split; [apply list_episodes_run|]. split.
  - unfold Api.get_episodes, bind, ret. cbn [negb].
    rewrite list_episodes_run. cbv beta iota. rewrite list_episodes_run.
    reflexivity.
  - rewrite (Permutation_length (sorted_by_perm _ _)). apply length_map.
Qed.

(** ** Construction *)


End EngineExtras.

(** ** Signs in a clock string *)

Lemma unsigned_decimal (s : string) :
  decimal s -> Py.unsigned s = Some (decimal_value s).
Proof.
  intros [Hne Hd]. destruct s as [|c s]; [congruence|].
  pose proof (scan_digits_decimal _ Hd 0 0%nat) as Hscan.
  simpl in Hd. apply andb_true_iff in Hd. destruct Hd as [Hc _].
  destruct (digit_facts c Hc) as (_ & Hus & _).
  unfold Py.unsigned. rewrite Hus, Hscan.
  cbn [String.length Nat.add Py.skip Py.truthy]. reflexivity.
Qed.

Lemma int_signed (s : string) :
  decimal s ->
  Py.int (String "-" s) = Some (- decimal_value s)
  /\ Py.int (String "+" s) = Some (decimal_value s).
Proof.
  intros Hs. unfold Py.int. cbn [Py.skip].
  change (Py.int_isspace "-") with false. change (Py.int_isspace "+") with false.
  cbv iota. unfold Py.split_sign.
  change (Ascii.eqb "-" "+") with false. change (Ascii.eqb "-" "-") with true.
  change (Ascii.eqb "+" "+") with true. cbv iota.
  now rewrite (unsigned_decimal s Hs).
Qed.

(** X13. [_time_to_seconds] does not check the sign or the range of a
    component: a first component written with a minus sign is taken as a
    negative number, so the result is negative when it outweighs the
    rest, and a plus sign is accepted too.  The link builder writes such
    a negative count into the link as it is. *)
Theorem time_to_seconds_accepts_signs (m s : string) :
  decimal m -> decimal s ->
  _time_to_seconds ("-" ++ m ++ ":" ++ s)
  = Returned (- decimal_value m * 60 + decimal_value s)
  /\ _time_to_seconds ("+" ++ m ++ ":" ++ s)
     = Returned (decimal_value m * 60 + decimal_value s)
  /\ (decimal_value s < 60 * decimal_value m ->
      forall url, url <> EmptyString ->
        ~ Contains "youtube.com" url -> ~ Contains "youtu.be" url ->
        exists n, n < 0
          /\ _build_timestamp_link url ("-" ++ m ++ ":" ++ s)
             = Returned (url ++ "#t=" ++ Py.str n)).
Proof.
  intros Hm Hs.
  destruct (int_signed m Hm) as [Hminus Hplus].
  pose proof (int_decimal s Hs) as Hint.
  assert (Hsplit : forall c, Ascii.eqb c ":" = false ->
            Py.split ":" (String c m ++ ":" ++ s) = [String c m; s]).
  { intros c Hc. destruct Hm as [_ Hm], Hs as [_ Hs'].
    rewrite split_app.
    - now rewrite split_colon_free by now apply digit_colon_free.
    - unfold colon_free. cbn [Py.all_chars]. rewrite Hc. cbn [negb andb].
      now apply digit_colon_free. }
  assert (H1 : _time_to_seconds ("-" ++ m ++ ":" ++ s)
               = Returned (- decimal_value m * 60 + decimal_value s))
    by (eapply time_two_parts; [apply (Hsplit "-"%char eq_refl) | eassumption ..]).
  split; [exact H1|]. split.
  - eapply time_two_parts; [apply (Hsplit "+"%char eq_refl) | eassumption ..].
  - intros Hlt url Hurl Hy1 Hy2.
    exists (- decimal_value m * 60 + decimal_value s). split; [lia|].
    unfold _build_timestamp_link.
    apply truthy_true in Hurl. apply contains_false in Hy1, Hy2.
    rewrite Hurl, H1, Hy1, Hy2. cbn [negb obind orb].
    destruct (Py.contains "spotify.com" url); reflexivity.
Qed.

(** ** Stripping *)

Lemma lstrip_split (s : string) :
  exists lead, s = lead ++ Py.lstrip s /\ blank lead.
Proof.
  unfold Py.lstrip, blank. induction s as [|c s IH]; simpl.
  - now exists EmptyString.
  - destruct (Py.isspace c) eqn:Hc.
    + destruct IH as (lead & Hs & Hl). exists (String c lead). simpl.
      now rewrite <- Hs, Hc, Hl.
    + now exists EmptyString.
Qed.

Lemma lstrip_head (s : string) (c : ascii) (r : string) :
  Py.lstrip s = String c r -> Py.isspace c = false.
Proof.
  unfold Py.lstrip. induction s as [|c0 s IH]; simpl; [discriminate|].
  destruct (Py.isspace c0) eqn:Hc; [exact IH|].
  intros H. now injection H as <- _.
Qed.

Lemma rstrip_split (s : string) :
  exists trail, s = PyStr.rstrip s ++ trail /\ blank trail.
Proof.
  unfold blank. induction s as [|c s IH]; simpl.
  - now exists EmptyString.
  - destruct IH as (trail & Hs & Ht).
    destruct (PyStr.rstrip s) as [|c' r] eqn:Hr.
    + destruct (Py.isspace c) eqn:Hc.
      * exists (String c trail). simpl in *. subst s. simpl. now rewrite Hc, Ht.
      * exists trail. simpl in *. now subst s.
    + exists trail. simpl. now rewrite Hs at 1.
Qed.

Lemma rstrip_empty (s : string) : PyStr.rstrip s = EmptyString <-> blank s.
Proof.
  unfold blank. induction s as [|c s IH]; simpl; [tauto|].
  destruct (PyStr.rstrip s) as [|c' r].
  - destruct (Py.isspace c); simpl; [tauto|]. split; discriminate.
  - split; [discriminate|]. intros H. apply andb_true_iff in H.
    destruct IH as [_ IH]. now specialize (IH (proj2 H)).
Qed.

Lemma rstrip_head (s : string) (c : ascii) (r : string) :
  s = String c r -> Py.isspace c = false ->
  exists r', PyStr.rstrip s = String c r'.
Proof.
  intros -> Hc. simpl. destruct (PyStr.rstrip r); rewrite ?Hc; eauto.
Qed.

Lemma strip_empty (s : string) : Py.truthy (PyStr.strip s) = false <-> blank s.
Proof.
  rewrite truthy_false. unfold PyStr.strip, blank.
  rewrite <- strip_is_empty_spec. unfold Py.strip_is_empty.
  destruct (Py.lstrip s) as [|c r] eqn:Hl; simpl; [tauto|].
  destruct (rstrip_head _ c r eq_refl (lstrip_head s c r Hl)) as [r' Hr].
  simpl in Hr. rewrite Hr. split; discriminate.
Qed.

(** What [strip] removes is white space at both ends, and nothing else. *)
Lemma strip_split (s : string) :
  exists lead trail,
    s = lead ++ PyStr.strip s ++ trail /\ blank lead /\ blank trail.
Proof.
  destruct (lstrip_split s) as (lead & Hs & Hl).
  destruct (rstrip_split (Py.lstrip s)) as (trail & Hr & Ht).
  exists lead, trail. unfold PyStr.strip. now rewrite <- Hr.
Qed.

Lemma rstrip_idem (s : string) : PyStr.rstrip (PyStr.rstrip s) = PyStr.rstrip s.
Proof.
  induction s as [|c s IH]; simpl; [reflexivity|].
  destruct (PyStr.rstrip s) as [|c' r] eqn:Hr.
  - destruct (Py.isspace c) eqn:Hc; simpl; [reflexivity | now rewrite Hc].
  - simpl in *. now rewrite IH.
Qed.

Lemma strip_idem (s : string) : PyStr.strip (PyStr.strip s) = PyStr.strip s.
Proof.
  unfold PyStr.strip.
  destruct (Py.lstrip s) as [|c r] eqn:Hl; [reflexivity|].
  destruct (rstrip_head _ c r eq_refl (lstrip_head s c r Hl)) as [r' Hr].
  rewrite Hr. unfold Py.lstrip. cbn [Py.skip].
  rewrite (lstrip_head s c r Hl). rewrite <- Hr. apply rstrip_idem.
Qed.

(** ** The Lambda handler *)

Section LambdaProperties.

Context {C : Collaborators}.

Variable load_chatbot : Lambda.T unit.

Lemma handler_loaded (event : Lambda.Event) (w w1 : World) :
  load_chatbot w = (Lambda.Done tt, w1) ->
  Lambda.handler load_chatbot event w = lambda_finish (Lambda.dispatch event w1).
Proof.
  intros Hl. unfold Lambda.handler, Lambda.tbind, lambda_finish. rewrite Hl.
  destruct (Lambda.dispatch event w1) as [[r|[m|m]] w2]; reflexivity.
Qed.

Lemma handler_not_loaded (event : Lambda.Event) (w w1 : World) (f : Lambda.Failure) :
  load_chatbot w = (Lambda.Failed f, w1) ->
  Lambda.handler load_chatbot event w = lambda_finish (Lambda.Failed f, w1).
Proof.
  intros Hl. unfold Lambda.handler, Lambda.tbind, lambda_finish. rewrite Hl.
  destruct f; reflexivity.
Qed.

Ltac status_done :=
  cbn; split; [auto 6 | first [congruence | intros _; eexists; reflexivity]].

Lemma dispatch_status (event : Lambda.Event) (w : World) :
  let r := fst (lambda_finish (Lambda.dispatch event w)) in
  (Lambda.statusCode r = 200 \/ Lambda.statusCode r = 400
   \/ Lambda.statusCode r = 404 \/ Lambda.statusCode r = 500)
  /\ (Lambda.statusCode r <> 200 -> exists msg, Lambda.payload r = Lambda.Error msg).
Proof.
  unfold Lambda.dispatch.
  destruct (String.eqb (get_or (Lambda.path event) "/") "/"
            || String.eqb (get_or (Lambda.path event) "/") EmptyString);
    [status_done|].
  destruct (String.eqb (get_or (Lambda.path event) "/") "/api/episodes"
            && String.eqb (get_or (Lambda.httpMethod event) "GET") "GET").
  { unfold Lambda.tbind, Lambda.engine. rewrite list_episodes_run. status_done. }
  destruct (String.eqb (get_or (Lambda.path event) "/") "/api/ask"
            && String.eqb (get_or (Lambda.httpMethod event) "GET") "POST").
  { unfold Lambda.parsed.
    destruct (Lambda.body event) as [|m|m|q k q' k']; try status_done.
    cbv beta zeta.
    destruct (Py.truthy (PyStr.strip (get_or q EmptyString))); [|status_done].
    unfold Lambda.tbind, Lambda.engine. cbn [negb].
    destruct (answer_question _ _ w) as [[r|e] w2]; status_done. }
  destruct (String.eqb (get_or (Lambda.path event) "/") "/api/search"
            && String.eqb (get_or (Lambda.httpMethod event) "GET") "POST").
  { unfold Lambda.parsed.
    destruct (Lambda.body event) as [|m|m|q k q' k']; try status_done.
    cbv beta zeta.
    destruct (Py.truthy (PyStr.strip (get_or q' EmptyString))); [|status_done].
    unfold Lambda.tbind, Lambda.engine. cbn [negb].
    destruct (call_search _ _ _ w) as [[r|e] w2]; status_done. }
  status_done.
Qed.

(** X14. The handler answers every event with status 200, 400, 404 or
    500; an answer of another status than 200 carries an error message,
    and an answer of status 200 is given only after the cold start has
    succeeded. *)
Theorem handler_status_codes (event : Lambda.Event) (w : World) :
  let r := fst (Lambda.handler load_chatbot event w) in
  (Lambda.statusCode r = 200 \/ Lambda.statusCode r = 400
   \/ Lambda.statusCode r = 404 \/ Lambda.statusCode r = 500)
  /\ (Lambda.statusCode r <> 200 -> exists msg, Lambda.payload r = Lambda.Error msg)
  /\ (Lambda.statusCode r = 200 -> exists w1, load_chatbot w = (Lambda.Done tt, w1)).
Proof.
  destruct (load_chatbot w) as [[[]|f] w1] eqn:Hl.
  - rewrite (handler_loaded event w w1 Hl).
    destruct (dispatch_status event w1) as [H1 H2].
    split; [exact H1|]. split; [exact H2|]. intros _. now exists w1.
  - rewrite (handler_not_loaded event w w1 f Hl).
    destruct f as [m|m]; simpl; (split; [auto|]);
      (split; [eauto | discriminate]).
Qed.

(** X15. When the cold start fails, every event, the root path
    included, is answered with the error of the cold start: status 400 and
    the words Invalid JSON for a [JSONDecodeError], status 500 for any
    other exception.  After a cold start that succeeded, the root path
    (or the empty path, or an event without a path) is answered with
    status 200 whatever the method and the body, and an event that is for
    none of the three other routes is answered with status 404 and a
    message that names its method and path; in both cases the engine is
    not called. *)
Theorem handler_routing (event : Lambda.Event) (w w1 : World) :
  (forall msg, load_chatbot w = (Lambda.Failed (Lambda.JSONDecodeError msg), w1) ->
     Lambda.handler load_chatbot event w
     = (Lambda.build_response 400 (Lambda.Error ("Invalid JSON: " ++ msg)), w1))
  /\ (forall msg, load_chatbot w = (Lambda.Failed (Lambda.OtherException msg), w1) ->
      Lambda.handler load_chatbot event w
      = (Lambda.build_response 500 (Lambda.Error ("Internal error: " ++ msg)), w1))
  /\ (load_chatbot w = (Lambda.Done tt, w1) ->
      let http_method := get_or (Lambda.httpMethod event) "GET" in
      let path := get_or (Lambda.path event) "/" in
      (path = "/" \/ path = EmptyString ->
         Lambda.handler load_chatbot event w
         = (Lambda.build_response 200 Lambda.Root, w1))
      /\ (path <> "/" -> path <> EmptyString ->
          lambda_route http_method path = false ->
          Lambda.handler load_chatbot event w
          = (Lambda.build_response 404
               (Lambda.Error ("Not found: " ++ http_method ++ " " ++ path)), w1))).
Proof.
  split; [|split].
  - intros msg Hl. now rewrite (handler_not_loaded event w w1 _ Hl).
  - intros msg Hl. now rewrite (handler_not_loaded event w w1 _ Hl).
  - intros Hl http_method path. rewrite (handler_loaded event w w1 Hl).
    unfold Lambda.dispatch. fold http_method. fold path. split.
    + intros Hp.
      assert (Hb : String.eqb path "/" || String.eqb path EmptyString = true)
        by (apply orb_true_iff; destruct Hp as [->| ->]; auto).
      now rewrite Hb.
    + intros H1 H2 Hr. apply String.eqb_neq in H1, H2. rewrite H1, H2.
      unfold lambda_route in Hr. apply orb_false_iff in Hr. destruct Hr as [Hr H5].
      apply orb_false_iff in Hr. destruct Hr as [H3 H4].
      now rewrite H3, H4, H5.
Qed.

(** X16. After a cold start that succeeded, a POST to the ask route whose
    body is an object (or is absent) is answered with status 400 and no
    call of the engine when the question is absent or blank.  Otherwise
    the engine is asked the question stripped of the white space at its
    two ends, with the number of segments of the body or 3: its result is
    answered with status 200, and an exception it raises with status 500
    and the text of the exception.  A body that cannot be parsed is
    answered with status 400, and one that is no object of the expected
    shape with status 500, both before any call of the engine. *)
Theorem handler_ask (event : Lambda.Event) (w w1 : World) :
  load_chatbot w = (Lambda.Done tt, w1) ->
  Lambda.path event = Some "/api/ask" ->
  Lambda.httpMethod event = Some "POST" ->
  (forall question k query n,
     Lambda.body event = Lambda.Object question k query n
     \/ (Lambda.body event = Lambda.NoBody /\ question = None /\ k = None) ->
     let asked := get_or question EmptyString in
     (blank asked ->
        Lambda.handler load_chatbot event w
        = (Lambda.build_response 400 (Lambda.Error "Question is required"), w1))
     /\ (~ blank asked ->
         (exists lead trail,
            asked = lead ++ PyStr.strip asked ++ trail /\ blank lead /\ blank trail)
         /\ PyStr.strip (PyStr.strip asked) = PyStr.strip asked
         /\ (forall r w2,
               answer_question (PyStr.strip asked) (Some (get_or k 3)) w1
               = (Returned r, w2) ->
               Lambda.handler load_chatbot event w
               = (Lambda.build_response 200 (Lambda.Answered r), w2))
         /\ (forall e w2,
               answer_question (PyStr.strip asked) (Some (get_or k 3)) w1
               = (Raised e, w2) ->
               Lambda.handler load_chatbot event w
               = (Lambda.build_response 500
                    (Lambda.Error ("Internal error: " ++ exn_str e)), w2))))
  /\ (forall msg, Lambda.body event = Lambda.Malformed msg ->
      Lambda.handler load_chatbot event w
      = (Lambda.build_response 400 (Lambda.Error ("Invalid JSON: " ++ msg)), w1))
  /\ (forall msg, Lambda.body event = Lambda.Unusable msg ->
      Lambda.handler load_chatbot event w
      = (Lambda.build_response 500 (Lambda.Error ("Internal error: " ++ msg)), w1)).
Proof.
  intros Hl Hp Hm. rewrite (handler_loaded event w w1 Hl).
  unfold Lambda.dispatch. rewrite Hp, Hm. cbn [get_or].
  change (String.eqb "/api/ask" "/" || String.eqb "/api/ask" EmptyString) with false.
  change (String.eqb "/api/ask" "/api/episodes" && String.eqb "POST" "GET") with false.
  change (String.eqb "/api/ask" "/api/ask" && String.eqb "POST" "POST") with true.
  cbv iota.
  assert (Hobj : forall question k,
            let asked := get_or question EmptyString in
            let run := lambda_finish
              ((if negb (Py.truthy (PyStr.strip asked))
                then Lambda.tret (Lambda.build_response 400
                                    (Lambda.Error "Question is required"))
                else Lambda.tbind
                       (Lambda.engine
                          (answer_question (PyStr.strip asked) (Some (get_or k 3))))
                       (fun result =>
                          Lambda.tret (Lambda.build_response 200
                                         (Lambda.Answered result)))) w1) in
            (blank asked ->
               run = (Lambda.build_response 400 (Lambda.Error "Question is required"), w1))
            /\ (~ blank asked ->
                (exists lead trail,
                   asked = lead ++ PyStr.strip asked ++ trail
                   /\ blank lead /\ blank trail)
                /\ PyStr.strip (PyStr.strip asked) = PyStr.strip asked
                /\ (forall r w2,
                      answer_question (PyStr.strip asked) (Some (get_or k 3)) w1
                      = (Returned r, w2) ->
                      run = (Lambda.build_response 200 (Lambda.Answered r), w2))
                /\ (forall e w2,
                      answer_question (PyStr.strip asked) (Some (get_or k 3)) w1
                      = (Raised e, w2) ->
                      run = (Lambda.build_response 500
                               (Lambda.Error ("Internal error: " ++ exn_str e)), w2)))).
  { intros question k asked run. subst run. split.
    - intros Hb. apply strip_empty in Hb. now rewrite Hb.
    - intros Hb.
      assert (Ht : Py.truthy (PyStr.strip asked) = true).
      { destruct (Py.truthy (PyStr.strip asked)) eqn:E; [reflexivity|].
        apply strip_empty in E. contradiction. }
      rewrite Ht. cbn [negb]. unfold Lambda.tbind, Lambda.engine.
      split; [apply strip_split|]. split; [apply strip_idem|].
      split; intros x w2 Hrun; now rewrite Hrun. }
  split; [|split].
  - intros question k query n [Hb|(Hb & -> & ->)]; rewrite Hb; cbn [Lambda.parsed];
      apply Hobj.
  - intros msg Hb. now rewrite Hb.
  - intros msg Hb. now rewrite Hb.
Qed.

(** X17. After a cold start that succeeded, a POST to the search route
    with an absent or blank query is answered with status 400 and no call
    of the index.  Otherwise the index is searched once, for the query
    stripped of the white space at its two ends and for the number of
    results of the body or 5; the hits are answered with status 200 and
    their count, and an exception of the index with status 500. *)
Theorem handler_search (event : Lambda.Event) (w w1 : World)
    (question : option string) (k : option Z) (query : option string) (n : option Z) :
  load_chatbot w = (Lambda.Done tt, w1) ->
  Lambda.path event = Some "/api/search" ->
  Lambda.httpMethod event = Some "POST" ->
  Lambda.body event = Lambda.Object question k query n ->
  let asked := get_or query EmptyString in
  (blank asked ->
     Lambda.handler load_chatbot event w
     = (Lambda.build_response 400 (Lambda.Error "Query is required"), w1))
  /\ (~ blank asked ->
      calls (snd (Lambda.handler load_chatbot event w))
      = (calls w1 ++ [Search (PyStr.strip asked) searched_fields (get_or n 5)])%list
      /\ (forall hits i,
            search (PyStr.strip asked) searched_fields (get_or n 5) (index w1)
            = (Returned hits, i) ->
            fst (Lambda.handler load_chatbot event w)
            = Lambda.build_response 200
                (Lambda.Found (PyStr.strip asked) hits (List.length hits)))
      /\ (forall e i,
            search (PyStr.strip asked) searched_fields (get_or n 5) (index w1)
            = (Raised e, i) ->
            fst (Lambda.handler load_chatbot event w)
            = Lambda.build_response 500
                (Lambda.Error ("Internal error: " ++ exn_str e)))).
Proof.
  intros Hl Hp Hm Hb asked. rewrite (handler_loaded event w w1 Hl).
  unfold Lambda.dispatch. rewrite Hp, Hm, Hb. cbn [get_or].
  change (String.eqb "/api/search" "/" || String.eqb "/api/search" EmptyString)
    with false.
  change (String.eqb "/api/search" "/api/episodes" && String.eqb "POST" "GET")
    with false.
  change (String.eqb "/api/search" "/api/ask" && String.eqb "POST" "POST") with false.
  change (String.eqb "/api/search" "/api/search" && String.eqb "POST" "POST")
    with true.
  cbv iota. cbn [Lambda.parsed]. fold asked. split.
  - intros Hblank. apply strip_empty in Hblank. now rewrite Hblank.
  - intros Hblank.
    assert (Ht : Py.truthy (PyStr.strip asked) = true).
    { destruct (Py.truthy (PyStr.strip asked)) eqn:E; [reflexivity|].
      apply strip_empty in E. contradiction. }
    rewrite Ht. cbn [negb]. unfold Lambda.tbind, Lambda.engine, call_search.
    fold searched_fields.
    destruct (search (PyStr.strip asked) searched_fields (get_or n 5) (index w1))
      as [[hits|e] i]; cbn [lambda_finish fst snd calls]; repeat split.
    + intros hits' i' H. now injection H as <- _.
    + discriminate.
    + discriminate.
    + intros e' i' H. now injection H as <- _.
Qed.

End LambdaProperties.

(** ** The command line *)

Lemma contains_char_false (c : ascii) (s : string) :
  Py.contains (String c EmptyString) s = false ->
  Py.all_chars (fun x => negb (Ascii.eqb x c)) s = true.
Proof.
  induction s as [|x s IH]; [reflexivity|].
  cbn [Py.contains Py.all_chars String.prefix].
  destruct (ascii_dec c x) as [<-|Hne].
  - destruct s; discriminate.
  - intros H. rewrite (IH H), andb_true_r.
    apply negb_true_iff, Ascii.eqb_neq. congruence.
Qed.

Lemma split_first_app (c : ascii) (key value : string) :
  ~ Contains (String c EmptyString) key ->
  Cli.split_first c (key ++ String c value) = (key, value).
Proof.
  intros Hk. apply contains_false, contains_char_false in Hk.
  induction key as [|x key IH]; simpl.
  - now rewrite Ascii.eqb_refl.
  - simpl in Hk. apply andb_true_iff in Hk. destruct Hk as [Hx Hk].
    apply negb_true_iff in Hx. rewrite Hx, (IH Hk). reflexivity.
Qed.

Section CliProperties.

Context {C : Collaborators}.

Variable putenv_error : string -> string -> option exn.
Variable read_text : string -> outcome string.

Lemma load_lines_app (a b : list string) (env : Cli.environ) :
  Cli.load_lines putenv_error (a ++ b)%list env
  = match Cli.load_lines putenv_error a env with
    | (Returned _, env') => Cli.load_lines putenv_error b env'
    | (Raised e, env') => (Raised e, env')
    end.
Proof.
  revert env. induction a as [|l a IH]; intros env; [reflexivity|].
  cbn [app Cli.load_lines].
  destruct (Cli.load_line putenv_error l env) as [[[]|e] env']; [apply IH | reflexivity].
Qed.

Lemma load_lines_last (lines : list string) (line : string) (env env1 : Cli.environ) :
  Cli.load_lines putenv_error lines env = (Returned tt, env1) ->
  Cli.load_lines putenv_error (lines ++ [line])%list env
  = Cli.load_line putenv_error line env1.
Proof.
  intros H. rewrite load_lines_app, H. cbn [Cli.load_lines].
  now destruct (Cli.load_line putenv_error line env1) as [[[]|e] env'].
Qed.

(** X18. [load_env] changes nothing when there is no file.  It reads the
    lines in order: a line that is blank, or whose first character after
    stripping is the hash sign, or that has no equals sign, is passed
    over; any other line is cut at its first equals sign, and the name
    before it and the value after it, both stripped (and kept as they are
    otherwise: quotes and further equals signs stay in the value), are
    assigned in the environment, where the new value replaces an older one
    and the other names keep theirs.  When the platform refuses an
    assignment the exception ends the load: the assignments made before
    stay, and the lines after are not read. *)
Theorem load_env_reads_assignments
    (lines : list string) (line : string) (env env1 : Cli.environ) :
  Cli.load_env putenv_error None env = (Returned tt, env)
  /\ (Cli.load_env putenv_error (Some lines) env = (Returned tt, env1) ->
      let stripped := PyStr.strip line in
      (blank line \/ String.prefix "#" stripped = true \/ ~ Contains "=" stripped ->
         Cli.load_env putenv_error (Some (lines ++ [line])%list) env = (Returned tt, env1))
      /\ (forall key value,
            stripped = key ++ "=" ++ value ->
            ~ Contains "=" key ->
            String.prefix "#" stripped = false ->
            let name := PyStr.strip key in
            let assigned := PyStr.strip value in
            (putenv_error name assigned = None ->
               exists env2,
                 Cli.load_env putenv_error (Some (lines ++ [line])%list) env
                 = (Returned tt, env2)
                 /\ dict_get name env2 = Some assigned
                 /\ forall other, other <> name ->
                      dict_get other env2 = dict_get other env1)
            /\ (forall e, putenv_error name assigned = Some e ->
                  Cli.load_env putenv_error (Some (lines ++ [line])%list) env
                  = (Raised e, env1))))
  /\ (forall e more,
        Cli.load_env putenv_error (Some lines) env = (Raised e, env1) ->
        Cli.load_env putenv_error (Some (lines ++ more)%list) env = (Raised e, env1)).
Proof.
  split; [reflexivity|]. split.
  - intros Hl stripped. cbn [Cli.load_env] in Hl |- *.
    rewrite (load_lines_last _ line _ _ Hl).
    unfold Cli.load_line. fold stripped. split.
    + intros [Hb|[Hc|He]].
      * apply strip_empty in Hb. fold stripped in Hb. now rewrite Hb.
      * rewrite Hc. cbn [negb]. now rewrite andb_false_r.
      * apply contains_false in He. rewrite He. now rewrite andb_false_r.
    + intros key value Hs Hk Hc.
      set (name := PyStr.strip key). set (assigned := PyStr.strip value).
      assert (Ht : Py.truthy stripped = true)
        by (rewrite Hs; destruct key; reflexivity).
      assert (He : Py.contains "=" stripped = true)
        by (apply contains_spec; now exists key, value).
      rewrite Ht, Hc, He. cbn [negb andb].
      rewrite Hs. change (key ++ "=" ++ value) with (key ++ String "=" value).
      rewrite (split_first_app "=" key value Hk).
      cbv beta iota. fold name assigned. unfold Cli.setenv. split.
      * intros Hp. rewrite Hp. eexists. split; [reflexivity|]. split.
        -- apply dict_get_set_same.
        -- intros other Hne. now apply dict_get_set_other.
      * intros e Hp. now rewrite Hp.
  - cbn [Cli.load_env]. intros e more Hl. now rewrite load_lines_app, Hl.
Qed.

Lemma search_queries_app (a b : list Call) :
  search_queries (a ++ b) = (search_queries a ++ search_queries b)%list.
Proof.
  induction a as [|[docs|q f k|p m t] a IH]; simpl; [reflexivity| | |]; now rewrite IH.
Qed.

Lemma indexed_documents_app (a b : list Call) :
  indexed_documents (a ++ b) = (indexed_documents a ++ indexed_documents b)%list.
Proof.
  induction a as [|[docs|q f k|p m t] a IH]; simpl; [reflexivity| | |];
    rewrite IH; [now rewrite app_assoc | reflexivity..].
Qed.

Lemma completions_only (rest : list Call) :
  (forall c, In c rest -> exists prompt model budget,
                            c = ChatCompletion prompt model budget) ->
  search_queries rest = [] /\ indexed_documents rest = [].
Proof.
  induction rest as [|c rest IH]; intros H; [split; reflexivity|].
  destruct (H c (or_introl eq_refl)) as (p & m & t & ->). simpl.
  apply IH. intros c' Hc'. apply H. now right.
Qed.

Lemma answer_question_log (w : World) (question : string) (k : option Z) :
  let w' := snd (answer_question question k w) in
  search_queries (calls w') = (search_queries (calls w) ++ [question])%list
  /\ indexed_documents (calls w') = indexed_documents (calls w)
  /\ episodes w' = episodes w.
Proof.
  destruct (answer_question_calls w question k) as (rest & Hc & Hrest & He).
  destruct (completions_only rest Hrest) as [Hs Hi].
  cbv zeta. rewrite Hc, He, search_queries_app, indexed_documents_app.
  cbn [search_queries indexed_documents]. rewrite Hs, Hi, app_nil_r.
  repeat split.
Qed.

Lemma chat_loop_log (inputs : list string) :
  forall w,
    let out := fst (Cli.chat_loop inputs w) in
    let w' := snd (Cli.chat_loop inputs w) in
    search_queries (calls w') = (search_queries (calls w) ++ asked inputs)%list
    /\ indexed_documents (calls w') = indexed_documents (calls w)
    /\ episodes w' = episodes w
    /\ replies out = List.length (asked inputs).
Proof.
  induction inputs as [|q inputs IH]; intros w.
  - simpl. now rewrite app_nil_r.
  - cbn [Cli.chat_loop asked].
    destruct (String.eqb (Cli.lower q) "quit").
    { simpl. now rewrite app_nil_r. }
    destruct (String.eqb (Cli.lower q) "list").
    { rewrite list_episodes_run. cbn [orb].
      specialize (IH w). destruct (Cli.chat_loop inputs w) as [out w2].
      exact IH. }
    cbn [orb]. destruct (Py.strip_is_empty q); [apply IH|].
    destruct (answer_question_log w q None) as (Hs & Hi & He).
    destruct (answer_question q None w) as [[r|e] w1]; cbn [snd] in Hs, Hi, He;
      specialize (IH w1); destruct (Cli.chat_loop inputs w1) as [out w2];
      cbn [fst snd replies List.length] in *;
      destruct IH as (IHs & IHi & IHe & IHr);
      rewrite IHs, IHi, IHe, IHr, Hs, Hi, He, <- app_assoc; repeat split.
Qed.

Lemma chat_loop_quit (pre : list string) (q : string) (post : list string) :
  String.eqb (Cli.lower q) "quit" = true ->
  forall w, Cli.chat_loop (pre ++ q :: post) w = Cli.chat_loop pre w.
Proof.
  intros Hq. induction pre as [|p pre IH]; intros w.
  - cbn [app Cli.chat_loop]. now rewrite Hq.
  - cbn [app Cli.chat_loop].
    destruct (String.eqb (Cli.lower p) "quit"); [reflexivity|].
    destruct (String.eqb (Cli.lower p) "list").
    { destruct (list_episodes w) as [[l|e] w1]; [now rewrite IH | reflexivity]. }
    destruct (Py.strip_is_empty p); [apply IH|].
    destruct (answer_question p None w) as [[r|e] w1]; now rewrite IH.
Qed.

(** X19. The chat loop puts to the engine, in order and as they were
    typed, the inputs that are neither blank nor the word list, up to the
    first input that is the word quit in any letter case; what comes after
    that input is not read.  There is one search per such question and
    one reply, an answer or an error, so that an exception of the engine
    does not end the loop.  The loop never hands a document to the index
    and leaves the registry as it is. *)
Theorem chat_loop_asks_each_question_once (inputs : list string) (w : World) :
  let out := fst (Cli.chat_loop inputs w) in
  let w' := snd (Cli.chat_loop inputs w) in
  search_queries (calls w') = (search_queries (calls w) ++ asked inputs)%list
  /\ indexed_documents (calls w') = indexed_documents (calls w)
  /\ episodes w' = episodes w
  /\ replies out = List.length (asked inputs)
  /\ (forall pre q post,
        inputs = (pre ++ q :: post)%list ->
        String.eqb (Cli.lower q) "quit" = true ->
        Cli.chat_loop inputs w = Cli.chat_loop pre w).
Proof.
  destruct (chat_loop_log inputs w) as (H1 & H2 & H3 & H4).
  repeat split; try assumption.
  intros pre q post -> Hq. now apply chat_loop_quit.
Qed.

(** X20. The chat command reaches its loop only when no episode is to be
    added and, after the load if one is asked for, the registry is not
    empty.  When the load raises, or when an episode is to be added (the
    first turn of the loop that adds episodes always raises: the episode
    number, a [str], is formatted with [03d]), or when nothing is
    loaded, the command echoes one message and ends without a search.
    After the load the command hands no document to the index and does
    not change the registry: the option that adds an episode adds
    none. *)
Theorem chat_starts_only_when_loaded
    (transcripts : option string) (add_episode : list (string * string * string))
    (inputs : list string) (w : World) :
  let after_load := Cli.load_given transcripts w in
  let run := Cli.chat read_text transcripts add_episode inputs w in
  (forall e, fst after_load = Raised e ->
     run = ([Cli.EchoError (exn_str e)], snd after_load))
  /\ (fst after_load = Returned tt ->
      (forall title number file rest,
         add_episode = (title, number, file) :: rest ->
         run = ([Cli.EchoError (Cli.add_episode_error read_text file)],
                snd after_load))
      /\ (add_episode = [] -> episodes (snd after_load) = [] ->
          run = ([Cli.EchoNothingLoaded], snd after_load))
      /\ (add_episode = [] -> episodes (snd after_load) <> [] ->
          run = Cli.chat_loop inputs (snd after_load)))
  /\ episodes (snd run) = episodes (snd after_load)
  /\ indexed_documents (calls (snd run))
     = indexed_documents (calls (snd after_load))
  /\ (search_queries (calls (snd run)) <> search_queries (calls (snd after_load)) ->
      fst after_load = Returned tt /\ add_episode = []
      /\ episodes (snd after_load) <> []).
Proof.
  intros after_load run. subst run. unfold Cli.chat. fold after_load.
  destruct after_load as [[[]|e0] w1] eqn:Hal; cbn [fst snd].
  - assert (Hlist : sorted_by summary_number (map summary_of (episodes w1)) = []
                    <-> episodes w1 = []).
    { pose proof (Permutation_length
                    (sorted_by_perm summary_number (map summary_of (episodes w1))))
        as Hlen.
      rewrite length_map in Hlen.
      destruct (sorted_by summary_number (map summary_of (episodes w1)));
        destruct (episodes w1); simpl in Hlen; split; congruence. }
    rewrite list_episodes_run.
    split; [discriminate|]. split; [|split; [|split]].
    + intros _. split; [|split].
      * intros title number file rest ->. reflexivity.
      * intros -> He. apply Hlist in He. now rewrite He.
      * intros -> He.
        destruct (sorted_by summary_number (map summary_of (episodes w1))) eqn:Hl;
          [|reflexivity].
        exfalso. apply He. now apply Hlist.
    + destruct add_episode as [|[[t n] f] rest]; [|reflexivity].
      destruct (sorted_by summary_number (map summary_of (episodes w1)));
        [reflexivity|].
      now destruct (chat_loop_log inputs w1) as (_ & _ & He & _).
    + destruct add_episode as [|[[t n] f] rest]; [|reflexivity].
      destruct (sorted_by summary_number (map summary_of (episodes w1)));
        [reflexivity|].
      now destruct (chat_loop_log inputs w1) as (_ & Hi & _).
    + intros Hneq. split; [reflexivity|].
      destruct add_episode as [|[[t n] f] rest]; [|now elim Hneq].
      split; [reflexivity|].
      destruct (sorted_by summary_number (map summary_of (episodes w1))) eqn:Hl;
        [now elim Hneq|].
      intros He. apply Hlist in He. discriminate.
  - split; [|split; [discriminate|split; [|split]]].
    + intros e H. now injection H as <-.
    + reflexivity.
    + reflexivity.
    + intros Hneq. now elim Hneq.
Qed.




End CliProperties.

(** ** The further properties on the reference instance *)

Lemma load_transcripts_failures_witness :
  let first := Sample.ep "ep9" "Iota" 9 "ninth talk" in
  let bad := {| j_episode_id := Some "ep8";
                j_episode_title := None;
                j_episode_number := Some 8;
                j_transcript := Some "eighth talk";
                j_video_url := None;
                j_audio_url := None |} in
  @read_json Sample.collaborators "missing.json" = None
  /\ @read_json Sample.collaborators "broken.json" = Some ([first] ++ bad :: [])%list
  /\ Forall complete [first]
  /\ first_missing bad = Some "episode_title"
  /\ load_transcripts "missing.json" Sample.fresh
     = (Raised (FileNotFoundError ("Transcript file not found: " ++ "missing.json")),
        Sample.fresh)
  /\ fst (load_transcripts "broken.json" Sample.fresh)
     = Raised (KeyError "episode_title")
  /\ episodes (snd (load_transcripts "broken.json" Sample.fresh))
     = fold_left register [first] (episodes Sample.fresh)
  /\ calls (snd (load_transcripts "broken.json" Sample.fresh)) = calls Sample.fresh.
Proof.
  intros first bad.
  assert (Hc : Forall complete [first]) by (repeat constructor; discriminate).
  destruct (load_transcripts_failures Sample.fresh "missing.json") as [Hmissing _].
  destruct (load_transcripts_failures Sample.fresh "broken.json") as [_ Hbroken].
  destruct (Hbroken [first] bad [] "episode_title" eq_refl Hc eq_refl)
    as (Hraise & Heps & _ & Hcalls).
  exact (conj eq_refl (conj eq_refl (conj Hc (conj eq_refl
           (conj (Hmissing eq_refl) (conj Hraise (conj Heps Hcalls))))))).
Defined.

Lemma first_file_complete :
  Forall complete
    [Sample.ep "ep3" "Gamma" 3 "third talk about vectors";
     Sample.ep "ep1" "Alpha" 1 "first talk about vectors";
     Sample.ep "ep2" "Beta" 2 "second talk about models"].
Proof. repeat constructor; discriminate. Qed.

Lemma load_transcripts_is_batch_add_witness :
  let records := [Sample.ep "ep3" "Gamma" 3 "third talk about vectors";
                  Sample.ep "ep1" "Alpha" 1 "first talk about vectors";
                  Sample.ep "ep2" "Beta" 2 "second talk about models"] in
  @read_json Sample.collaborators "first.json" = Some records
  /\ Forall complete records
  /\ records <> []
  /\ episodes (snd (load_transcripts "first.json" Sample.fresh))
     = episodes (add_all records Sample.fresh)
  /\ calls (snd (load_transcripts "first.json" Sample.fresh))
     = (calls Sample.fresh ++ [IndexDocuments (map document_of records)])%list.
Proof.
  intros records.
  assert (Hne : records <> []) by discriminate.
  destruct (load_transcripts_is_batch_add Sample.fresh "first.json" records
              eq_refl first_file_complete) as (Heps & _ & _ & Hbatch).
  exact (conj eq_refl (conj first_file_complete (conj Hne
           (conj Heps (proj1 (Hbatch Hne)))))).
Defined.

Lemma add_transcript_then_list_witness :
  NoDup (keys (episodes Sample.loaded))
  /\ exists l,
       list_episodes (snd (add_transcript "ep2" "Beta, again" 9 "another text"
                             EmptyString EmptyString Sample.loaded))
       = (Returned l,
          snd (add_transcript "ep2" "Beta, again" 9 "another text"
                 EmptyString EmptyString Sample.loaded))
       /\ with_id "ep2" l
          = [{| summary_episode_id := "ep2"; summary_title := "Beta, again";
                summary_number := 9 |}].
Proof.
  refine (conj loaded_keys_nodup _).
  destruct (add_transcript_then_list Sample.loaded "ep2" "Beta, again" 9 "another text"
              EmptyString EmptyString loaded_keys_nodup) as (l & Hrun & Hid & _).
  exists l. exact (conj Hrun Hid).
Defined.

Lemma loaded_reachable : reachable Sample.loaded.
Proof. unfold Sample.loaded, Sample.run. apply reach_load, reach_init. Qed.

Lemma reachable_list_has_distinct_ids_witness :
  reachable Sample.loaded
  /\ exists l,
       list_episodes Sample.loaded = (Returned l, Sample.loaded)
       /\ NoDup (map summary_episode_id l)
       /\ List.length l = List.length (episodes Sample.loaded).
Proof.
  refine (conj loaded_reachable _).
  destruct (reachable_list_has_distinct_ids Sample.loaded loaded_reachable)
    as (l & Hrun & Hnd & Hlen & _).
  exists l. exact (conj Hrun (conj Hnd Hlen)).
Defined.

Lemma answer_question_raises_what_a_collaborator_raised_witness :
  let run := answer_question "vectors" None Sample.offline in
  run = (Raised (BackendError "connection refused"), snd run)
  /\ ((exists i,
         @search Sample.collaborators "vectors" searched_fields
           (get_or None default_max_context_segments) (index Sample.offline)
         = (Raised (BackendError "connection refused"), i))
      \/ (exists hits i g,
            @search Sample.collaborators "vectors" searched_fields
              (get_or None default_max_context_segments) (index Sample.offline)
            = (Returned hits, i)
            /\ hits <> []
            /\ @chat_completions_create Sample.collaborators
                 (answer_prompt "vectors" (context_of hits))
                 (llm_model Sample.offline) 400 (groq Sample.offline)
               = (Raised (BackendError "connection refused"), g))).
Proof.
  intros run.
  assert (Hrun : run = (Raised (BackendError "connection refused"), snd run))
    by reflexivity.
  exact (conj Hrun
           (answer_question_raises_what_a_collaborator_raised
              Sample.offline (snd run) "vectors" None _ Hrun)).
Defined.

Lemma answer_question_reads_only_witness :
  episodes (snd (answer_question "vectors" (Some 2) Sample.loaded))
  = episodes Sample.loaded.
Proof.
  exact (proj1 (answer_question_reads_only Sample.loaded "vectors" (Some 2))).
Defined.

Lemma answer_question_completion_call_witness :
  let hits := Sample.lookup "vectors" searched_fields 3 (index Sample.loaded) in
  @search Sample.collaborators "vectors" searched_fields
    (get_or None default_max_context_segments) (index Sample.loaded)
  = (Returned hits, index Sample.loaded)
  /\ hits <> []
  /\ calls (snd (answer_question "vectors" None Sample.loaded))
     = (calls Sample.loaded
        ++ [Search "vectors" searched_fields 3;
            ChatCompletion (answer_prompt "vectors" (context_of hits))
              (llm_model Sample.loaded) 400])%list
  /\ Contains "vectors" (answer_prompt "vectors" (context_of hits)).
Proof.
  intros hits.
  assert (Hne : hits <> []) by (vm_compute; discriminate).
  destruct (answer_question_completion_call Sample.loaded "vectors" None hits
              (index Sample.loaded) eq_refl Hne) as (Hcalls & Hq & _).
  exact (conj eq_refl (conj Hne (conj Hcalls Hq))).
Defined.

Lemma answer_question_source_labels_witness :
  let hits := Sample.lookup "vectors" searched_fields 3 (index Sample.long_loaded) in
  let run := answer_question "vectors" None Sample.long_loaded in
  let hit := {| doc_episode_id := Some "ep5";
                doc_episode_title := Some "Epsilon";
                doc_episode_number := Some 5;
                doc_text := Some "short vectors" |} in
  @search Sample.collaborators "vectors" searched_fields
    (get_or None default_max_context_segments) (index Sample.long_loaded)
  = (Returned hits, index Sample.long_loaded)
  /\ run = (Returned {| answer := "Vectors are discussed.";
                        sources := map (build_source (episodes Sample.long_loaded)) hits;
                        context_used := 2 |}, snd run)
  /\ nth_error hits 1 = Some hit
  /\ exists src,
       nth_error (map (build_source (episodes Sample.long_loaded)) hits) 1 = Some src
       /\ timestamp src = EmptyString
       /\ episode src = "Epsilon"
       /\ episode_number src = IntVal 5.
Proof.
  intros hits run hit.
  refine (conj eq_refl (conj eq_refl (conj eq_refl _))).
  destruct (answer_question_source_labels Sample.long_loaded (snd run) "vectors" None
              hits (index Sample.long_loaded) _ 1%nat hit eq_refl eq_refl eq_refl)
    as (src & Hsrc & Hts & Hep & Hnum & _).
  exists src. exact (conj Hsrc (conj Hts (conj Hep Hnum))).
Defined.

Lemma ask_question_wraps_the_engine_witness :
  let run := answer_question "vectors" None Sample.offline in
  Py.all_chars Py.isspace "vectors" = false
  /\ run = (Raised (BackendError "connection refused"), snd run)
  /\ ask_question true "vectors" None Sample.offline
     = (Raised (HTTPException 500 (exn_str (BackendError "connection refused"))),
        snd run).
Proof.
  intros run.
  assert (Hrun : run = (Raised (BackendError "connection refused"), snd run))
    by reflexivity.
  destruct (ask_question_wraps_the_engine Sample.offline true "vectors" None)
    as (_ & Hwrap).
  exact (conj eq_refl (conj Hrun (proj2 (Hwrap eq_refl) _ _ Hrun))).
Defined.

Lemma search_transcripts_endpoint_witness :
  Py.all_chars Py.isspace "  " = true
  /\ Py.all_chars Py.isspace "models" = false
  /\ Api.search_transcripts true "  " None Sample.loaded
     = (Raised (HTTPException 400 "Query cannot be empty"), Sample.loaded)
  /\ calls (snd (Api.search_transcripts true "models" (Some 0) Sample.loaded))
     = (calls Sample.loaded ++ [Search "models" searched_fields 0])%list.
Proof.
  destruct (search_transcripts_endpoint Sample.loaded "  " None) as (_ & Hblank & _).
  destruct (search_transcripts_endpoint Sample.loaded "models" (Some 0))
    as (_ & _ & Hsearch).
  exact (conj eq_refl (conj eq_refl (conj (Hblank eq_refl) (proj1 (Hsearch eq_refl))))).
Defined.

Lemma get_episodes_endpoint_witness :
  exists l,
    list_episodes Sample.loaded = (Returned l, Sample.loaded)
    /\ Api.get_episodes true Sample.loaded
       = (Returned {| Api.body_episodes := l; Api.body_count := List.length l |},
          Sample.loaded)
    /\ List.length l = List.length (episodes Sample.loaded).
Proof.
  exact (proj2 (get_episodes_endpoint Sample.loaded)).
Defined.


Lemma time_to_seconds_accepts_signs_witness :
  decimal "1" /\ decimal "30"
  /\ _time_to_seconds ("-" ++ "1" ++ ":" ++ "30")
     = Returned (- decimal_value "1" * 60 + decimal_value "30")
  /\ decimal_value "30" < 60 * decimal_value "1"
  /\ exists n, n < 0
       /\ _build_timestamp_link "https://cdn.example.org/ep1.mp3"
            ("-" ++ "1" ++ ":" ++ "30")
          = Returned ("https://cdn.example.org/ep1.mp3" ++ "#t=" ++ Py.str n).
Proof.
  assert (H1 : decimal "1") by (split; [discriminate | reflexivity]).
  assert (H30 : decimal "30") by (split; [discriminate | reflexivity]).
  assert (Hlt : decimal_value "30" < 60 * decimal_value "1") by reflexivity.
  assert (Hn1 : ~ Contains "youtube.com" "https://cdn.example.org/ep1.mp3")
    by (apply contains_false; reflexivity).
  assert (Hn2 : ~ Contains "youtu.be" "https://cdn.example.org/ep1.mp3")
    by (apply contains_false; reflexivity).
  destruct (time_to_seconds_accepts_signs "1" "30" H1 H30) as (Hminus & _ & Hlink).
  refine (conj H1 (conj H30 (conj Hminus (conj Hlt _)))).
  apply (Hlink Hlt); [discriminate | exact Hn1 | exact Hn2].
Defined.

Lemma handler_status_codes_witness :
  let load := Lambda.engine (load_transcripts "first.json") in
  let event := {| Lambda.httpMethod := Some "GET";
                  Lambda.path := Some "/api/ask";
                  Lambda.body := Lambda.NoBody |} in
  Lambda.statusCode (fst (Lambda.handler load event Sample.fresh)) <> 200
  /\ exists msg,
       Lambda.payload (fst (Lambda.handler load event Sample.fresh)) = Lambda.Error msg.
Proof.
  intros load event.
  assert (Hs : Lambda.statusCode (fst (Lambda.handler load event Sample.fresh)) <> 200)
    by (vm_compute; discriminate).
  exact (conj Hs (proj1 (proj2 (handler_status_codes load event Sample.fresh)) Hs)).
Defined.

Lemma handler_routing_witness :
  let load := Lambda.engine (load_transcripts "first.json") in
  let down := Lambda.engine (load_transcripts "missing.json") in
  let root := {| Lambda.httpMethod := Some "DELETE";
                 Lambda.path := None;
                 Lambda.body := Lambda.Malformed "Expecting value" |} in
  let other := {| Lambda.httpMethod := Some "GET";
                  Lambda.path := Some "/api/ask";
                  Lambda.body := Lambda.NoBody |} in
  load Sample.fresh = (Lambda.Done tt, Sample.loaded)
  /\ down Sample.fresh
     = (Lambda.Failed (Lambda.OtherException
                         ("Transcript file not found: " ++ "missing.json")),
        Sample.fresh)
  /\ Lambda.handler down root Sample.fresh
     = (Lambda.build_response 500
          (Lambda.Error ("Internal error: "
                         ++ "Transcript file not found: " ++ "missing.json")),
        Sample.fresh)
  /\ Lambda.handler load root Sample.fresh
     = (Lambda.build_response 200 Lambda.Root, Sample.loaded)
  /\ lambda_route "GET" "/api/ask" = false
  /\ Lambda.handler load other Sample.fresh
     = (Lambda.build_response 404
          (Lambda.Error ("Not found: " ++ "GET" ++ " " ++ "/api/ask")),
        Sample.loaded).
Proof.
  intros load down root other.
  assert (Hload : load Sample.fresh = (Lambda.Done tt, Sample.loaded)) by reflexivity.
  assert (Hdown : down Sample.fresh
                  = (Lambda.Failed (Lambda.OtherException
                                      ("Transcript file not found: " ++ "missing.json")),
                     Sample.fresh)) by reflexivity.
  destruct (handler_routing down root Sample.fresh Sample.fresh) as (_ & Hfail & _).
  destruct (handler_routing load root Sample.fresh Sample.loaded) as (_ & _ & Hroot).
  destruct (handler_routing load other Sample.fresh Sample.loaded) as (_ & _ & Hother).
  refine (conj Hload (conj Hdown (conj (Hfail _ Hdown)
            (conj (proj1 (Hroot Hload) (or_introl eq_refl)) (conj eq_refl _))))).
  apply (proj2 (Hother Hload)); [discriminate | discriminate | reflexivity].
Defined.

Lemma handler_ask_witness :
  let load := Lambda.engine (load_transcripts "first.json") in
  let padded := String " " ("vectors" ++ nl) in
  let event := {| Lambda.httpMethod := Some "POST";
                  Lambda.path := Some "/api/ask";
                  Lambda.body := Lambda.Object (Some padded) (Some 1) None None |} in
  let run := answer_question (PyStr.strip padded) (Some 1) Sample.loaded in
  load Sample.fresh = (Lambda.Done tt, Sample.loaded)
  /\ ~ blank padded
  /\ PyStr.strip padded = "vectors"
  /\ exists r,
       run = (Returned r, snd run)
       /\ Lambda.handler load event Sample.fresh
          = (Lambda.build_response 200 (Lambda.Answered r), snd run).
Proof.
  intros load padded event run.
  assert (Hload : load Sample.fresh = (Lambda.Done tt, Sample.loaded)) by reflexivity.
  assert (Hnb : ~ blank padded) by (unfold blank; vm_compute; discriminate).
  destruct (handler_ask load event Sample.fresh Sample.loaded Hload eq_refl eq_refl)
    as (Hobj & _).
  destruct (Hobj (Some padded) (Some 1) None None (or_introl eq_refl)) as (_ & Hask).
  destruct (Hask Hnb) as (_ & _ & Hok & _).
  refine (conj Hload (conj Hnb (conj eq_refl _))).
  eexists. split; [|apply Hok]; vm_compute; reflexivity.
Defined.

Lemma handler_search_witness :
  let load := Lambda.engine (load_transcripts "first.json") in
  let event := {| Lambda.httpMethod := Some "POST";
                  Lambda.path := Some "/api/search";
                  Lambda.body := Lambda.Object None None (Some " models ") None |} in
  load Sample.fresh = (Lambda.Done tt, Sample.loaded)
  /\ ~ blank " models "
  /\ calls (snd (Lambda.handler load event Sample.fresh))
     = (calls Sample.loaded
        ++ [Search (PyStr.strip " models ") searched_fields 5])%list.
Proof.
  intros load event.
  assert (Hload : load Sample.fresh = (Lambda.Done tt, Sample.loaded)) by reflexivity.
  assert (Hnb : ~ blank " models ") by (unfold blank; vm_compute; discriminate).
  destruct (handler_search load event Sample.fresh Sample.loaded None None
              (Some " models ") None Hload eq_refl eq_refl eq_refl) as (_ & Hs).
  exact (conj Hload (conj Hnb (proj1 (Hs Hnb)))).
Defined.

Lemma load_env_reads_assignments_witness :
  let refuse := fun name _ : string =>
    if Py.truthy name then None
    else Some (BackendError "[Errno 22] Invalid argument") in
  let lines := ["# the key of the service"; "MODEL=small"; "no assignment"] in
  Cli.load_env refuse (Some lines) [] = (Returned tt, [("MODEL", "small")])
  /\ (exists env2,
        Cli.load_env refuse (Some (lines ++ [String " " ("MODEL = a=b " ++ nl)])%list) []
        = (Returned tt, env2)
        /\ dict_get "MODEL" env2 = Some "a=b")
  /\ Cli.load_env refuse (Some (lines ++ [" = x"])%list) []
     = (Raised (BackendError "[Errno 22] Invalid argument"),
        [("MODEL", "small")])
  /\ Cli.load_env refuse (Some (lines ++ ["  #A=1"])%list) []
     = (Returned tt, [("MODEL", "small")]).
Proof.
  intros refuse lines.
  assert (Hl : Cli.load_env refuse (Some lines) [] = (Returned tt, [("MODEL", "small")]))
    by reflexivity.
  assert (Hfree : forall key, Py.contains "=" key = false -> ~ Contains "=" key)
    by (intros key; apply contains_false).
  destruct (load_env_reads_assignments refuse lines (String " " ("MODEL = a=b " ++ nl)) []
              [("MODEL", "small")]) as (_ & Hset & _).
  destruct (proj2 (Hset Hl) "MODEL " " a=b" eq_refl (Hfree "MODEL " eq_refl) eq_refl)
    as (Hok & _).
  destruct (Hok eq_refl) as (env2 & Hrun & Hget & _).
  destruct (load_env_reads_assignments refuse lines " = x" []
              [("MODEL", "small")]) as (_ & Hbad & _).
  destruct (proj2 (Hbad Hl) EmptyString " x" eq_refl (Hfree EmptyString eq_refl) eq_refl)
    as (_ & Hraise).
  destruct (load_env_reads_assignments refuse lines "  #A=1" []
              [("MODEL", "small")]) as (_ & Hskip & _).
  refine (conj Hl (conj _ (conj (Hraise _ eq_refl)
            (proj1 (Hskip Hl) (or_intror (or_introl eq_refl)))))).
  exists env2. exact (conj Hrun Hget).
Defined.

Lemma chat_loop_asks_each_question_once_witness :
  let inputs := ["LIST"; "   "; "vectors"; "Quit"; "never read"] in
  let run := @Cli.chat_loop Sample.collaborators inputs Sample.loaded in
  asked inputs = ["vectors"]
  /\ search_queries (calls (snd run))
     = (search_queries (calls Sample.loaded) ++ ["vectors"])%list
  /\ episodes (snd run) = episodes Sample.loaded
  /\ replies (fst run) = 1%nat
  /\ run = @Cli.chat_loop Sample.collaborators ["LIST"; "   "; "vectors"] Sample.loaded.
Proof.
  intros inputs run.
  destruct (@chat_loop_asks_each_question_once Sample.collaborators inputs Sample.loaded)
    as (Hs & _ & He & Hr & Hq).
  exact (conj eq_refl (conj Hs (conj He (conj Hr
           (Hq ["LIST"; "   "; "vectors"] "Quit" ["never read"] eq_refl eq_refl))))).
Defined.

Lemma chat_starts_only_when_loaded_witness :
  let read_text := fun path : string =>
    if String.eqb path "notes.txt" then Returned "What was said."
    else Raised (FileNotFoundError "No such file or directory") in
  let chat := @Cli.chat Sample.collaborators read_text in
  chat (Some "first.json") [("Vectors", "7", "notes.txt")] ["vectors"] Sample.fresh
  = ([Cli.EchoError "Unknown format code 'd' for object of type 'str'"],
     Sample.loaded)
  /\ chat (Some "missing.json") [] ["vectors"] Sample.fresh
     = ([Cli.EchoError ("Transcript file not found: " ++ "missing.json")],
        Sample.fresh)
  /\ chat None [] ["vectors"] Sample.fresh = ([Cli.EchoNothingLoaded], Sample.fresh)
  /\ chat (Some "first.json") [] ["vectors"] Sample.fresh
     = @Cli.chat_loop Sample.collaborators ["vectors"] Sample.loaded.
Proof.
  intros read_text chat.
  assert (Hload : @Cli.load_given Sample.collaborators (Some "first.json") Sample.fresh
                  = (Returned tt, Sample.loaded)) by reflexivity.
  destruct (@chat_starts_only_when_loaded Sample.collaborators read_text
              (Some "first.json") [("Vectors", "7", "notes.txt")] ["vectors"]
              Sample.fresh) as (_ & Hadd & _).
  destruct (@chat_starts_only_when_loaded Sample.collaborators read_text
              (Some "missing.json") [] ["vectors"] Sample.fresh) as (Hmiss & _).
  destruct (@chat_starts_only_when_loaded Sample.collaborators read_text
              None [] ["vectors"] Sample.fresh) as (_ & Hnone & _).
  destruct (@chat_starts_only_when_loaded Sample.collaborators read_text
              (Some "first.json") [] ["vectors"] Sample.fresh) as (_ & Hloop & _).
  refine (conj (proj1 (Hadd eq_refl) _ _ _ _ eq_refl)
           (conj (Hmiss _ eq_refl)
             (conj (proj1 (proj2 (Hnone eq_refl)) eq_refl eq_refl)
               (proj2 (proj2 (Hloop eq_refl)) eq_refl _)))).
  vm_compute. discriminate.
Defined.

